(** * Healthcare platform backend: authentication, authorization, listing
    queries and employee/event/upload handlers.

    Shallow embedding of the Express route handlers and middleware of the
    backend.  JavaScript values are [jsval]; JavaScript objects (request
    bodies, Mongoose documents, query filters) are [gmap string _]; a
    collection is the list of its documents in insertion order.  Library
    behaviour the handlers rely on but that is not part of the repository
    (JWT verification, bcrypt, the regular expression engine of the data
    store, calendar arithmetic of [Date], saving a User) enters as the
    fields of a [runtime] record the handlers take as a parameter. *)

From Stdlib Require Import ZArith Lia List Bool Ascii.
From stdpp Require Import base gmap list strings pretty.

Import ListNotations.
Open Scope Z_scope.

(* ------------------------------------------------------------------ *)
(** ** JavaScript values *)

(** [JStrs] is an array of strings (the only arrays the schemas store:
    permissions, locations, insurances, ...).  [JOid] is an ObjectId,
    [JDate] a Date in milliseconds since the epoch. *)
Inductive jsval : Type :=
| JUndef
| JNull
| JNaN
| JBool (b : bool)
| JNum (z : Z)
| JStr (s : string)
| JStrs (l : list string)
| JDate (t : Z)
| JOid (s : string).

#[global] Instance jsval_eq_dec : EqDecision jsval.
Proof. solve_decision. Defined.

(** JavaScript truthiness. *)
Definition js_truthy (v : jsval) : bool :=
  match v with
  | JUndef | JNull | JNaN => false
  | JBool b => b
  | JNum z => negb (z =? 0)
  | JStr s => negb (String.eqb s "")
  | JStrs _ | JDate _ | JOid _ => true
  end.

(** [a === b]. *)
Definition js_strict_eq (a b : jsval) : bool :=
  match a, b with
  | JNaN, _ | _, JNaN => false
  | JStrs _, _ | _, JStrs _ => false   (* arrays compare by reference *)
  | JDate _, _ | _, JDate _ => false   (* Date objects likewise *)
  | JOid _, _ | _, JOid _ => false
  | _, _ => bool_decide (a = b)
  end.

(** [String.prototype.includes]: [sub] occurs in [s]. *)
Fixpoint str_includes (s sub : string) : bool :=
  String.prefix sub s ||
  match s with
  | EmptyString => false
  | String _ s' => str_includes s' sub
  end.

(** [Array.prototype.includes] on an array of strings. *)
Definition arr_includes (l : list string) (x : string) : bool :=
  existsb (String.eqb x) l.

(* ------------------------------------------------------------------ *)
(** ** Middleware outcomes *)

(** A middleware either calls [next()] or ends the response with a
    status and a JSON [{success:false, message}]. *)
Inductive mw_outcome : Type :=
| MwNext
| MwReject (status : Z) (message : string)
| MwThrow.   (* a synchronous TypeError, turned into a 500 by Express *)

(** [req.user] as built by [authenticateToken]. *)
Record principal : Type := mk_principal {
  p_id : jsval;
  p_name : jsval;
  p_email : jsval;
  p_role : jsval;
  p_department : jsval;
  p_permissions : jsval;
  p_status : jsval
}.

(** [xs.includes(x)] where [xs] is [req.user.permissions] (already known
    to be truthy). A string receiver does a substring test; anything else
    has no [includes] method. *)
Definition js_value_includes (xs : jsval) (x : string) : option bool :=
  match xs with
  | JStrs l => Some (arr_includes l x)
  | JStr s => Some (str_includes s x)
  | _ => None
  end.

(** [exports.requirePermission = (permission) => (req, res, next) => ...] *)
Definition requirePermission (permission : string) (user : option principal)
    : mw_outcome :=
  match user with
  | None => MwReject 401 "Authentication required"
  | Some u =>
      if js_strict_eq (p_role u) (JStr "admin") then MwNext
      else if negb (js_truthy (p_permissions u))
      then MwReject 403 "Insufficient permissions"
      else match js_value_includes (p_permissions u) permission with
           | None => MwThrow
           | Some false => MwReject 403 "Insufficient permissions"
           | Some true => MwNext
           end
  end.

(** [exports.requireNewPermission = (permission) => (req, res, next) => ...] *)
Definition requireNewPermission (permission : string) (user : option principal)
    : mw_outcome :=
  match user with
  | None => MwReject 401 "Authentication required"
  | Some u =>
      if js_strict_eq (p_role u) (JStr "admin") then MwNext
      else if negb (js_truthy (p_permissions u))
      then MwReject 403 "Insufficient permissions for this operation"
      else match js_value_includes (p_permissions u) permission with
           | None => MwThrow
           | Some false => MwReject 403 "Insufficient permissions for this operation"
           | Some true => MwNext
           end
  end.

(** Template-literal interpolation [`${v}`] for the values a role can
    hold (a schema string, or [undefined]/[null] on a hand-made record). *)
Definition js_display (v : jsval) : string :=
  match v with
  | JUndef => "undefined"
  | JNull => "null"
  | JNaN => "NaN"
  | JBool true => "true"
  | JBool false => "false"
  | JStr s => s
  | JStrs l => String.concat "," l
  | JOid s => s
  | JNum _ | JDate _ => "[number]"
  end.

(** [exports.authorize = (...roles) => (req, res, next) => ...] *)
Definition authorize (roles : list string) (user : option principal) : mw_outcome :=
  match user with
  | None => MwReject 401 "Not authorized to access this route"
  | Some u =>
      if existsb (fun r => js_strict_eq (JStr r) (p_role u)) roles then MwNext
      else MwReject 403 ("User role " ++ js_display (p_role u)
                         ++ " is not authorized to access this route")
  end.

Definition employee_roles : list string := ["admin"; "manager"; "staff"; "support"].

(** [exports.requireEmployee] *)
Definition requireEmployee (user : option principal) : mw_outcome :=
  match user with
  | None => MwReject 401 "Authentication required"
  | Some u =>
      if existsb (fun r => js_strict_eq (JStr r) (p_role u)) employee_roles then MwNext
      else MwReject 403 "Employee access required"
  end.

(** What the client observes of a middleware decision: allowed, or the
    HTTP status of the rejection. *)
Definition decision (o : mw_outcome) : option Z :=
  match o with
  | MwNext => None
  | MwReject st _ => Some st
  | MwThrow => Some 500
  end.

(* ------------------------------------------------------------------ *)
(** ** Strings as the handlers parse them *)

(** [s.split(c)] for a one-character separator. *)
Fixpoint js_split (c : ascii) (s : string) : list string :=
  match s with
  | EmptyString => [""]
  | String a s' =>
      let rest := js_split c s' in
      if Ascii.eqb a c then "" :: rest
      else match rest with
           | r :: rs => String a r :: rs
           | [] => [String a ""]
           end
  end.

Definition is_js_space (a : ascii) : bool :=
  existsb (Ascii.eqb a) [" "%char; "009"%char; "010"%char; "011"%char; "012"%char; "013"%char].

Fixpoint trim_left (s : string) : string :=
  match s with
  | String a s' => if is_js_space a then trim_left s' else s
  | EmptyString => EmptyString
  end.

Definition string_rev (s : string) : string :=
  String.string_of_list_ascii (rev (String.list_ascii_of_string s)).

(** [s.trim()] *)
Definition js_trim (s : string) : string :=
  string_rev (trim_left (string_rev (trim_left s))).

Definition digit_value (a : ascii) : option Z :=
  let n := Z.of_nat (nat_of_ascii a) in
  if (48 <=? n) && (n <=? 57) then Some (n - 48) else None.

(** The longest run of leading decimal digits, with its value. *)
Fixpoint digits_prefix (s : string) (acc : Z) (seen : bool) : option Z :=
  match s with
  | String a s' =>
      match digit_value a with
      | Some d => digits_prefix s' (acc * 10 + d) true
      | None => if seen then Some acc else None
      end
  | EmptyString => if seen then Some acc else None
  end.

(** [parseInt(s, 10)] on a string: leading white space, an optional sign,
    then decimal digits; [None] is [NaN]. *)
Definition parseInt10 (s : string) : option Z :=
  match trim_left s with
  | String "-"%char r => option_map Z.opp (digits_prefix r 0 false)
  | String "+"%char r => digits_prefix r 0 false
  | r => digits_prefix r 0 false
  end.

(** [parseInt(v, 10)] on a request value: query parameters are strings,
    a repeated one is an array (converted with [String(v)], its elements
    joined by commas), an absent one is [undefined] (NaN), a number parses
    as itself. *)
Definition js_parseInt (v : jsval) : option Z :=
  match v with
  | JStr s => parseInt10 s
  | JStrs l => parseInt10 (String.concat "," l)
  | JNum z => Some z
  | _ => None
  end.

(** [parseInt(v, 10) || d] *)
Definition parse_or (v : jsval) (d : Z) : Z :=
  match js_parseInt v with
  | Some z => if z =? 0 then d else z
  | None => d
  end.

(* ------------------------------------------------------------------ *)
(** ** Documents, collections and the data store *)

Abbreviation doc := (gmap string jsval).

(** A field of a document, [undefined] when absent. *)
Definition field (d : doc) (f : string) : jsval := default JUndef (d !! f).

(** Results of data-store calls: a rejected promise carries an error. *)
Inductive db_result (A : Type) : Type :=
| DbOk (a : A)
| DbError (msg : string).
Arguments DbOk {A} _.
Arguments DbError {A} _.

(** The data store: whether it is reachable, and the three collections. *)
Record datastore : Type := mk_datastore {
  ds_up : bool;
  ds_users : list doc;
  ds_events : list doc;
  ds_practitioners : list doc
}.

Definition is_hex (a : ascii) : bool :=
  let n := nat_of_ascii a in
  ((48 <=? n) && (n <=? 57))%nat || ((97 <=? n) && (n <=? 102))%nat
  || ((65 <=? n) && (n <=? 70))%nat.

(** Mongoose casts the argument of [findById] to an ObjectId:
    [Some (Some s)] searches for [s], [Some None] matches nothing
    ([undefined]/[null] become [null]), [None] is a [CastError]. *)
Definition cast_object_id (v : jsval) : option (option string) :=
  match v with
  | JOid s => Some (Some s)
  | JStr s =>
      if (String.length s =? 24)%nat && forallb is_hex (String.list_ascii_of_string s)
      then Some (Some s) else None
  | JUndef | JNull => Some None
  | _ => None
  end.

Definition has_id (s : string) (d : doc) : bool :=
  bool_decide (d !! "_id" = Some (JOid s)).

(** [Model.findById(id)] on a collection. *)
Definition find_by_id (db : datastore) (coll : list doc) (id : jsval)
    : db_result (option doc) :=
  if negb (ds_up db) then DbError "connection error"
  else match cast_object_id id with
       | None => DbError "CastError"
       | Some None => DbOk None
       | Some (Some s) => DbOk (List.find (has_id s) coll)
       end.

(** [password] is declared [select: false] in the User schema, and the
    routes add [.select('-password')]: a read User document never carries
    the field. *)
Definition user_projection (d : doc) : doc := delete "password" d.

(* ------------------------------------------------------------------ *)
(** ** The runtime the handlers run in *)

(** Behaviour of libraries and of the process environment. *)
Record runtime : Type := mk_runtime {
  rt_jwt_verify : string -> option doc;   (* jwt.verify(token, JWT_SECRET); None: it throws *)
  rt_now : Z;                             (* new Date() at request time *)
  rt_regex_i : string -> string -> bool;  (* {$regex: pattern, $options: 'i'} on a string *)
  rt_master_code : jsval;                 (* process.env.MASTER_SECURITY_CODE *)
  rt_add_days : Z -> Z -> Z;              (* d.setDate(d.getDate() + n) *)
  rt_month_end : Z -> Z;                  (* new Date(y, m + 1, 0) *)
  rt_next_month_start : Z -> Z;           (* new Date(y, m + 1, 1) *)
  rt_next_month_end : Z -> Z;             (* new Date(y, m + 2, 0) *)
  rt_new_Date : jsval -> jsval;           (* new Date(v) *)
  rt_user_save : bool -> doc -> string + doc;
    (* user.save() on a new (true) or loaded (false) document: schema
       validation, then the pre-save hook hashing the password; inl: the
       rejection message, inr: the document as saved *)
  rt_url_valid : string -> bool           (* new URL(v) does not throw *)
}.

(* ------------------------------------------------------------------ *)
(** ** Credential verifier: [authenticateToken] *)

(** [if (req.headers.authorization && req.headers.authorization.startsWith('Bearer'))
      token = req.headers.authorization.split(' ')[1];] *)
Definition bearer_token (authorization : jsval) : option string :=
  match authorization with
  | JStr h =>
      if js_truthy authorization && String.prefix "Bearer" h
      then nth_error (js_split " "%char h) 1
      else None
  | _ => None
  end.

Inductive auth_outcome : Type :=
| AuthNext (u : principal)          (* req.user is set, next() runs the route *)
| AuthReject (status : Z) (message : string).

(** [req.user = {...}] from the account record. *)
Definition principal_of (user : doc) : principal :=
  mk_principal (field user "_id") (field user "name") (field user "email")
    (field user "role") (field user "department")
    (if js_truthy (field user "permissions") then field user "permissions" else JStrs [])
    (if js_truthy (field user "status") then field user "status" else JStr "active").

Definition authenticateToken (E : runtime) (db : datastore) (authorization : jsval)
    : auth_outcome :=
  match bearer_token authorization with
  | None => AuthReject 401 "Not authorized to access this route"
  | Some token =>
      if negb (js_truthy (JStr token))
      then AuthReject 401 "Not authorized to access this route"
      else match rt_jwt_verify E token with
           | None => AuthReject 401 "Not authorized to access this route"
           | Some decoded =>
               match find_by_id db (ds_users db) (field decoded "id") with
               | DbError _ => AuthReject 401 "Not authorized to access this route"
               | DbOk None => AuthReject 401 "User not found"
               | DbOk (Some user0) =>
                   let user := user_projection user0 in
                   if js_truthy (field user "status")
                      && negb (js_strict_eq (field user "status") (JStr "active"))
                   then AuthReject 401 "Account is not active. Please contact administrator."
                   else AuthNext (principal_of user)
               end
           end
  end.

(* ------------------------------------------------------------------ *)
(** ** Query filters as the handlers build them *)

(** Operators of a field condition: [$in], [$gte], [$lte], and
    [{$regex: p, $options: 'i'}]. *)
Inductive qop : Type :=
| OpIn (vs : list jsval)
| OpGte (v : jsval)
| OpLte (v : jsval)
| OpRegexI (pat : string).

(** The value stored under a key of a filter object: a plain value
    (equality), an operator object, or, under ["$or"], the alternatives
    [[{f1: ops1}, {f2: ops2}, ...]]. *)
Inductive qexpr : Type :=
| QEq (v : jsval)
| QOps (ops : list qop)
| QOr (alts : list (string * list qop)).

Abbreviation query := (gmap string qexpr).

(** Equality match of a field value; an array field matches any of its
    elements, [null] matches a missing field. *)
Definition eq_match (v fv : jsval) : bool :=
  match fv, v with
  | JStrs l, JStr s => arr_includes l s
  | (JUndef | JNull), JNull => true
  | _, _ => bool_decide (fv = v)
  end.

(** Range operators compare values of the same BSON type only. *)
Definition range_cmp (a b : jsval) : option comparison :=
  match a, b with
  | JNum x, JNum y => Some (Z.compare x y)
  | JDate x, JDate y => Some (Z.compare x y)
  | JStr x, JStr y => Some (String.compare x y)
  | _, _ => None
  end.

Definition op_match (rx : string -> string -> bool) (o : qop) (fv : jsval) : bool :=
  match o with
  | OpIn vs => existsb (fun v => eq_match v fv) vs
  | OpGte v => match range_cmp fv v with Some Gt | Some Eq => true | _ => false end
  | OpLte v => match range_cmp fv v with Some Lt | Some Eq => true | _ => false end
  | OpRegexI p =>
      match fv with
      | JStr s => rx p s
      | JStrs l => existsb (rx p) l
      | _ => false
      end
  end.

Definition ops_match (rx : string -> string -> bool) (ops : list qop) (fv : jsval) : bool :=
  forallb (fun o => op_match rx o fv) ops.

Definition qexpr_match (rx : string -> string -> bool) (k : string) (e : qexpr) (d : doc)
    : bool :=
  match e with
  | QEq v => eq_match v (field d k)
  | QOps ops => ops_match rx ops (field d k)
  | QOr alts => existsb (fun fo => ops_match rx (snd fo) (field d (fst fo))) alts
  end.

(** A document matches a filter when it satisfies every key of it. *)
Definition doc_matches (rx : string -> string -> bool) (q : query) (d : doc) : bool :=
  forallb (fun ke => qexpr_match rx (fst ke) (snd ke) d) (map_to_list q).

(* ------------------------------------------------------------------ *)
(** ** Sorting, skip and limit *)

(** BSON comparison order of types: null < numbers < strings < arrays
    < ObjectId < booleans < dates. *)
Definition bson_rank (v : jsval) : Z :=
  match v with
  | JUndef | JNull => 1
  | JNum _ | JNaN => 2
  | JStr _ => 3
  | JStrs _ => 5
  | JOid _ => 7
  | JBool _ => 8
  | JDate _ => 9
  end.

Definition bool_cmp (a b : bool) : comparison :=
  match a, b with
  | false, true => Lt
  | true, false => Gt
  | _, _ => Eq
  end.

Definition sort_cmp (a b : jsval) : comparison :=
  match a, b with
  | JNum x, JNum y => Z.compare x y
  | JNaN, JNum _ => Lt
  | JNum _, JNaN => Gt
  | JStr x, JStr y => String.compare x y
  | JBool x, JBool y => bool_cmp x y
  | JDate x, JDate y => Z.compare x y
  | JOid x, JOid y => String.compare x y
  | _, _ => Z.compare (bson_rank a) (bson_rank b)
  end.

(** [.sort({k1: dir1, k2: dir2, ...})]: lexicographic on the keys, a
    negative direction reverses the order of that key. *)
Fixpoint doc_cmp (keys : list (string * Z)) (a b : doc) : comparison :=
  match keys with
  | [] => Eq
  | (k, dir) :: ks =>
      match sort_cmp (field a k) (field b k) with
      | Eq => doc_cmp ks a b
      | c => if dir <? 0 then CompOpp c else c
      end
  end.

Fixpoint insert_doc (keys : list (string * Z)) (x : doc) (l : list doc) : list doc :=
  match l with
  | [] => [x]
  | y :: l' =>
      match doc_cmp keys x y with
      | Lt => x :: l
      | _ => y :: insert_doc keys x l'
      end
  end.

Fixpoint sort_docs (keys : list (string * Z)) (l : list doc) : list doc :=
  match l with
  | [] => []
  | x :: l' => insert_doc keys x (sort_docs keys l')
  end.

(** [Model.find(q).sort(keys).skip(s).limit(n)]: the store applies sort,
    then skip, then limit, whatever the order of the calls.  A negative
    skip is refused by the server; [limit(0)] means no limit and a
    negative limit [-n] returns at most [n] documents. *)
Definition run_find (rx : string -> string -> bool) (db : datastore) (coll : list doc)
    (q : query) (keys : list (string * Z)) (skip limit : Z) : db_result (list doc) :=
  if negb (ds_up db) then DbError "connection error"
  else if skip <? 0 then DbError "BadValue: skip value must be non-negative"
  else
    let rest := drop (Z.to_nat skip) (sort_docs keys (List.filter (doc_matches rx q) coll)) in
    DbOk (if limit =? 0 then rest else take (Z.to_nat (Z.abs limit)) rest).

(** [Model.countDocuments(q)] *)
Definition count_documents (rx : string -> string -> bool) (db : datastore)
    (coll : list doc) (q : query) : db_result Z :=
  if negb (ds_up db) then DbError "connection error"
  else DbOk (Z.of_nat (length (List.filter (doc_matches rx q) coll))).

(** [Model.findOne(q)] *)
Definition find_one (rx : string -> string -> bool) (db : datastore) (coll : list doc)
    (q : query) : db_result (option doc) :=
  if negb (ds_up db) then DbError "connection error"
  else DbOk (List.find (doc_matches rx q) coll).

(** [Math.ceil(a / b)] for integers, [b <> 0]. *)
Definition js_ceil_div (a b : Z) : Z := - ((- a) / b).

(* ------------------------------------------------------------------ *)
(** ** Responses *)

(** A JSON response body: a top-level object whose values are plain
    values, documents, arrays of documents or flat objects.  Documents are
    shown as stored; the virtual fields Mongoose adds when serialising
    ([id], [formattedDate], [isAdmin], [isEmployee]) are computed from
    stored fields and left out. *)
Inductive rval : Type :=
| RV (v : jsval)
| RDoc (d : doc)
| RDocs (ds : list doc)
| RObj (fs : list (string * jsval)).

Record response : Type := mk_response {
  res_status : Z;
  res_body : list (string * rval)
}.

Definition error_response (status : Z) (message : string) : response :=
  mk_response status [("success", RV (JBool false)); ("message", RV (JStr message))].

Definition body_field (r : response) (k : string) : option rval :=
  option_map snd (List.find (fun kv => String.eqb (fst kv) k) (res_body r)).

(** The documents a response carries under [data]. *)
Definition response_docs (r : response) : list doc :=
  match body_field r "data" with
  | Some (RDocs ds) => ds
  | Some (RDoc d) => [d]
  | _ => []
  end.

(* ------------------------------------------------------------------ *)
(** ** Building list filters *)

(** A query-string value used as a regular expression source. *)
Definition pattern_of (v : jsval) : string :=
  match v with
  | JStr s => s
  | _ => js_display v
  end.

(** [$or: [{f1: {$regex: p, $options: 'i'}}, ...]] *)
Definition search_or (fields : list string) (p : string) : qexpr :=
  QOr (map (fun f => (f, [OpRegexI p])) fields).

(** [Array.isArray(v) ? {$in: v} : v] *)
Definition in_or_eq (v : jsval) : qexpr :=
  match v with
  | JStrs l => QOps [OpIn (map JStr l)]
  | _ => QEq v
  end.

(** [const page = parseInt(req.query.page, 10) || 1;
     const limit = parseInt(req.query.limit, 10) || default_limit;
     const startIndex = (page - 1) * limit;] *)
Definition page_window (rq : doc) (default_limit : Z) : Z * Z * Z :=
  let page := parse_or (field rq "page") 1 in
  let limit := parse_or (field rq "limit") default_limit in
  (page, limit, (page - 1) * limit).

Definition hex_value (a : ascii) : option Z :=
  let n := Z.of_nat (nat_of_ascii a) in
  if (48 <=? n) && (n <=? 57) then Some (n - 48)
  else if (97 <=? n) && (n <=? 102) then Some (n - 87)
  else if (65 <=? n) && (n <=? 70) then Some (n - 55)
  else None.

Fixpoint hex_prefix (s : string) (acc : Z) (seen : bool) : option Z :=
  match s with
  | String a s' =>
      match hex_value a with
      | Some d => hex_prefix s' (acc * 16 + d) true
      | None => if seen then Some acc else None
      end
  | EmptyString => if seen then Some acc else None
  end.

(** [parseInt(s)] without a radix: a ["0x"] prefix selects base 16. *)
Definition parseInt_auto (s : string) : option Z :=
  let '(sign, r) :=
    match trim_left s with
    | String "-"%char r => (-1, r)
    | String "+"%char r => (1, r)
    | r => (1, r)
    end in
  match r with
  | String "0"%char (String x r') =>
      if Ascii.eqb x "x"%char || Ascii.eqb x "X"%char
      then option_map (Z.mul sign) (hex_prefix r' 0 false)
      else option_map (Z.mul sign) (digits_prefix r 0 false)
  | _ => option_map (Z.mul sign) (digits_prefix r 0 false)
  end.

Definition js_parseInt_auto (v : jsval) : option Z :=
  match v with
  | JStr s => parseInt_auto s
  | JStrs l => parseInt_auto (String.concat "," l)
  | JNum z => Some z
  | _ => None
  end.

Definition num_or_nan (o : option Z) : jsval :=
  match o with Some z => JNum z | None => JNaN end.

(* ------------------------------------------------------------------ *)
(** ** GET /api/public/events (routes/publicEventRoutes.js) *)

Definition public_events_query (E : runtime) (rq : doc) : query :=
  let q0 : query :=
    <["date" := QOps [OpGte (JDate (rt_now E))]]>
      (<["status" := QOps [OpIn [JStr "upcoming"; JStr "ongoing"]]]> ∅) in
  let q1 :=
    if js_truthy (field rq "search")
    then <["$or" := search_or ["title"; "description"; "location"]
                                (pattern_of (field rq "search"))]> q0
    else q0 in
  let q2 :=
    if js_truthy (field rq "type") && negb (js_strict_eq (field rq "type") (JStr "all"))
    then <["type" := QEq (field rq "type")]> q1
    else q1 in
  if js_truthy (field rq "dateRange") then
    let today := rt_now E in
    let dr := field rq "dateRange" in
    if js_strict_eq dr (JStr "next7days") then
      <["date" := QOps [OpGte (JDate today); OpLte (JDate (rt_add_days E today 7))]]> q2
    else if js_strict_eq dr (JStr "thisMonth") then
      <["date" := QOps [OpGte (JDate today); OpLte (JDate (rt_month_end E today))]]> q2
    else if js_strict_eq dr (JStr "nextMonth") then
      <["date" := QOps [OpGte (JDate (rt_next_month_start E today));
                        OpLte (JDate (rt_next_month_end E today))]]> q2
    else q2
  else q2.

Definition public_events_list (E : runtime) (db : datastore) (rq : doc) : response :=
  let q := public_events_query E rq in
  let '(page, limit, startIndex) := page_window rq 6 in
  match run_find (rt_regex_i E) db (ds_events db) q [("isFeatured", -1); ("date", 1)]
          startIndex limit with
  | DbError _ => error_response 500 "Server error"
  | DbOk events =>
      match count_documents (rt_regex_i E) db (ds_events db) q with
      | DbError _ => error_response 500 "Server error"
      | DbOk total =>
          mk_response 200
            [("success", RV (JBool true));
             ("count", RV (JNum (Z.of_nat (length events))));
             ("pagination", RObj [("total", JNum total); ("page", JNum page);
                                  ("pages", JNum (js_ceil_div total limit))]);
             ("data", RDocs events)]
      end
  end.

(* ------------------------------------------------------------------ *)
(** ** GET /api/public/events, free-tier version (OPTIMIZED FOR FREE TIER) *)

Definition public_events_fields : list string :=
  ["_id"; "title"; "description"; "date"; "time"; "location"; "type"; "status";
   "isFeatured"; "imageUrl"; "registrationUrl"].

(** [.select('title description ...')] keeps the listed paths and [_id]. *)
Definition project (keep : list string) (d : doc) : doc :=
  filter (fun kv : string * jsval => kv.1 ∈ keep) d.

(** [None] when [req.query.search] is truthy and has no [trim] method (an
    array from a repeated parameter): the handler throws a TypeError. *)
Definition public_events_query_lite (rq : doc) : option query :=
  let q0 : query := <["status" := QOps [OpIn [JStr "upcoming"; JStr "ongoing"]]]> ∅ in
  match field rq "search" with
  | JStr s =>
      if js_truthy (JStr s) && js_truthy (JStr (js_trim s))
      then Some (<["$or" := search_or ["title"; "description"; "location"] (js_trim s)]> q0)
      else Some q0
  | v => if js_truthy v then None else Some q0
  end.

(** The catch block outside development mode: a database failure is
    reported as 503, anything else as 500. *)
Definition lite_error (E : runtime) (db_failure : bool) : response :=
  mk_response (if db_failure then 503 else 500)
    [("success", RV (JBool false));
     ("error", RV (JStr (if db_failure then "Database temporarily unavailable"
                         else "Failed to fetch events")));
     ("message", RV (JStr "Server error"));
     ("timestamp", RV (JDate (rt_now E)))].

Definition public_events_list_lite (E : runtime) (db : datastore) (rq : doc)
    (response_time : string) : response :=
  match public_events_query_lite rq with
  | None => lite_error E false
  | Some q =>
      match run_find (rt_regex_i E) db (ds_events db) q [("isFeatured", -1); ("date", 1)] 0 50 with
      | DbError _ => lite_error E true
      | DbOk events0 =>
          let events := map (project public_events_fields) events0 in
          mk_response 200
            [("success", RV (JBool true));
             ("count", RV (JNum (Z.of_nat (length events))));
             ("data", RDocs events);
             ("cached", RV (JBool false));
             ("responseTime", RV (JStr response_time))]
      end
  end.

(* ------------------------------------------------------------------ *)
(** ** GET /api/practitioners (routes/practitionerRoutes.js) *)

Definition practitioners_query (rq : doc) : query :=
  let q0 : query :=
    if js_truthy (field rq "search")
    then <["$or" := search_or ["name"; "specialty"; "bio"] (pattern_of (field rq "search"))]> ∅
    else ∅ in
  let q1 := if js_truthy (field rq "specialty")
            then <["specialty" := QEq (field rq "specialty")]> q0 else q0 in
  let q2 := if js_truthy (field rq "location")
            then <["locations" := QEq (field rq "location")]> q1 else q1 in
  let q3 := if js_truthy (field rq "status")
            then <["status" := QEq (field rq "status")]> q2 else q2 in
  if bool_decide (field rq "isFeatured" ≠ JUndef)
  then <["isFeatured" := QEq (JBool (js_strict_eq (field rq "isFeatured") (JStr "true")))]> q3
  else q3.

Definition practitioners_list (E : runtime) (db : datastore) (rq : doc) : response :=
  let q := practitioners_query rq in
  let '(page, limit, startIndex) := page_window rq 10 in
  match run_find (rt_regex_i E) db (ds_practitioners db) q
          [("isFeatured", -1); ("createdAt", -1)] startIndex limit with
  | DbError _ => error_response 500 "Server error while fetching practitioners"
  | DbOk practitioners =>
      match count_documents (rt_regex_i E) db (ds_practitioners db) q with
      | DbError _ => error_response 500 "Server error while fetching practitioners"
      | DbOk totalCount =>
          mk_response 200
            [("success", RV (JBool true));
             ("count", RV (JNum (Z.of_nat (length practitioners))));
             ("totalCount", RV (JNum totalCount));
             ("pagination", RObj [("total", JNum totalCount); ("page", JNum page);
                                  ("pages", JNum (js_ceil_div totalCount limit))]);
             ("data", RDocs practitioners)]
      end
  end.

(* ------------------------------------------------------------------ *)
(** ** GET /api/public/practitioners (routes/publicPractitionerRoutes.js) *)

Definition public_practitioners_query (rq : doc) : query :=
  let q0 : query := <["status" := QEq (JStr "active")]> ∅ in
  let q1 :=
    if js_truthy (field rq "search")
    then <["$or" := search_or ["name"; "specialty"; "bio"] (pattern_of (field rq "search"))]> q0
    else q0 in
  let q2 := if js_truthy (field rq "specialty")
            then <["specialty" := in_or_eq (field rq "specialty")]> q1 else q1 in
  let q3 := if js_truthy (field rq "location")
            then <["locations" := in_or_eq (field rq "location")]> q2 else q2 in
  let q4 := if js_truthy (field rq "insurance")
            then <["insurances" := in_or_eq (field rq "insurance")]> q3 else q3 in
  let q5 := if js_truthy (field rq "paymentOption")
            then <["paymentOptions" := in_or_eq (field rq "paymentOption")]> q4 else q4 in
  let q6 := if js_truthy (field rq "sessionType")
            then <["sessionTypes" := in_or_eq (field rq "sessionType")]> q5 else q5 in
  if js_truthy (field rq "maxFee")
  then <["fees.followUp" := QOps [OpLte (num_or_nan (js_parseInt_auto (field rq "maxFee")))]]> q6
  else q6.

Definition public_practitioners_list (E : runtime) (db : datastore) (rq : doc) : response :=
  let q := public_practitioners_query rq in
  let '(page, limit, startIndex) := page_window rq 12 in
  match run_find (rt_regex_i E) db (ds_practitioners db) q
          [("isFeatured", -1); ("rating", -1)] startIndex limit with
  | DbError _ => error_response 500 "Server error"
  | DbOk practitioners =>
      match count_documents (rt_regex_i E) db (ds_practitioners db) q with
      | DbError _ => error_response 500 "Server error"
      | DbOk total =>
          mk_response 200
            [("success", RV (JBool true));
             ("count", RV (JNum (Z.of_nat (length practitioners))));
             ("pagination", RObj [("total", JNum total); ("page", JNum page);
                                  ("pages", JNum (js_ceil_div total limit))]);
             ("data", RDocs practitioners)]
      end
  end.

(* ------------------------------------------------------------------ *)
(** ** Employee routes (routes/employeeRoutes.js) *)

Definition with_users (db : datastore) (us : list doc) : datastore :=
  mk_datastore (ds_up db) us (ds_events db) (ds_practitioners db).

Definition is_employee_role (role : jsval) : bool :=
  existsb (fun r => js_strict_eq (JStr r) role) employee_roles.

(** [x.toString()] for the identifiers compared by the handlers. *)
Definition id_string (v : jsval) : option string :=
  match v with
  | JOid s | JStr s => Some s
  | _ => None
  end.

Definition with_error (status : Z) (message err : string) : response :=
  mk_response status [("success", RV (JBool false)); ("message", RV (JStr message));
                      ("error", RV (JStr err))].

(** Unknown errors thrown synchronously by a middleware reach the
    application error handler of server.js. *)
Definition middleware_error : response := error_response 500 "Internal Server Error".

(** GET /api/employees *)
Definition employee_list_query (rq : doc) : query :=
  let q0 : query := <["role" := QOps [OpIn (map JStr employee_roles)]]> ∅ in
  let q1 :=
    if js_truthy (field rq "search")
    then <["$or" := search_or ["name"; "email"; "department"] (pattern_of (field rq "search"))]> q0
    else q0 in
  let q2 :=
    if js_truthy (field rq "role") && is_employee_role (field rq "role")
    then <["role" := QEq (field rq "role")]> q1 else q1 in
  let q3 := if js_truthy (field rq "status")
            then <["status" := QEq (field rq "status")]> q2 else q2 in
  if js_truthy (field rq "department")
  then <["department" := QEq (field rq "department")]> q3 else q3.

(** [const { page = 1, limit = 50 } = req.query] *)
Definition with_default (v d : jsval) : jsval := if bool_decide (v = JUndef) then d else v.

Definition employee_list (E : runtime) (db : datastore) (rq : doc) : response :=
  let q := employee_list_query rq in
  let page := js_parseInt_auto (with_default (field rq "page") (JNum 1)) in
  let limit := js_parseInt_auto (with_default (field rq "limit") (JNum 50)) in
  match page, limit with
  | Some p, Some l =>
      match run_find (rt_regex_i E) db (ds_users db) q [("createdAt", -1)] ((p - 1) * l) l with
      | DbError m => with_error 500 "Failed to fetch employees" m
      | DbOk employees =>
          match count_documents (rt_regex_i E) db (ds_users db) q with
          | DbError m => with_error 500 "Failed to fetch employees" m
          | DbOk totalCount =>
              mk_response 200
                [("success", RV (JBool true));
                 ("data", RDocs (map user_projection employees));
                 ("totalCount", RV (JNum totalCount));
                 ("currentPage", RV (JNum p));
                 (* Infinity and NaN serialise as null *)
                 ("totalPages", RV (if l =? 0 then JNull else JNum (js_ceil_div totalCount l)))]
          end
      end
  | _, _ => with_error 500 "Failed to fetch employees" "NaN skip or limit"
  end.

(** GET /api/employees/:id *)
Definition employee_get (db : datastore) (id : jsval) : response :=
  match find_by_id db (ds_users db) id with
  | DbError m => with_error 500 "Failed to fetch employee" m
  | DbOk None => error_response 404 "Employee not found"
  | DbOk (Some d0) =>
      let employee := user_projection d0 in
      if is_employee_role (field employee "role")
      then mk_response 200 [("success", RV (JBool true)); ("data", RDoc employee)]
      else error_response 404 "Employee not found"
  end.

(** Mongoose leaves a path unset when it is given [undefined]. *)
Definition set_defined (k : string) (v : jsval) (d : doc) : doc :=
  if bool_decide (v = JUndef) then d else <[k := v]> d.

(** POST /api/employees; [new_id] is the ObjectId of the new document. *)
Definition employee_create (E : runtime) (db : datastore) (u : principal) (body : doc)
    (new_id : string) : response * datastore :=
  let name := field body "name" in
  let email := field body "email" in
  let role := field body "role" in
  let department := field body "department" in
  let password := field body "password" in
  if negb (js_truthy name && js_truthy email && js_truthy password && js_truthy role
           && js_truthy department)
  then (error_response 400 "Name, email, password, role, and department are required", db)
  else if negb (is_employee_role role)
  then (error_response 400 "Invalid role. Must be admin, manager, staff, or support", db)
  else match find_one (rt_regex_i E) db (ds_users db) (<["email" := QEq email]> ∅) with
  | DbError m => (with_error 500 "Failed to create employee" m, db)
  | DbOk (Some _) => (error_response 400 "Email already exists", db)
  | DbOk None =>
      let employee : doc :=
        set_defined "phone" (field body "phone")
          (<["_id" := JOid new_id]> (<["name" := name]> (<["email" := email]>
          (<["role" := role]> (<["department" := department]>
          (<["status" := if js_truthy (field body "status") then field body "status"
                         else JStr "active"]>
          (<["permissions" := if js_truthy (field body "permissions")
                              then field body "permissions" else JStrs []]>
          (<["password" := password]> (<["isEmailVerified" := JBool false]>
          (<["createdBy" := p_id u]> (<["lastLogin" := JNull]>
          (<["mustChangePassword" := JBool false]> (<["profileImage" := JNull]>
          (<["createdAt" := JDate (rt_now E)]> (<["updatedAt" := JDate (rt_now E)]>
           ∅))))))))))))))) in
      match rt_user_save E true employee with
      | inl m => (with_error 500 "Failed to create employee" m, db)
      | inr saved =>
          let employeeResponse := delete "password" saved in
          (mk_response 201 [("success", RV (JBool true)); ("data", RDoc employeeResponse);
                            ("message", RV (JStr "Employee created successfully"))],
           with_users db (ds_users db ++ [saved]))
      end
  end.

(** Write a saved document back: [save()] on a loaded document sets the
    paths it holds and leaves the others (the unselected [password]) as
    stored. *)
Definition replace_by_id (s : string) (d : doc) (coll : list doc) : list doc :=
  map (fun d0 => if has_id s d0 then union d d0 else d0) coll.

(** PUT /api/employees/:id *)
Definition employee_update (E : runtime) (db : datastore) (id : jsval) (body : doc)
    : response * datastore :=
  let name := field body "name" in
  let email := field body "email" in
  let phone := field body "phone" in
  let role := field body "role" in
  let department := field body "department" in
  let status := field body "status" in
  let permissions := field body "permissions" in
  let finish (employee : doc) : response * datastore :=
    if js_truthy role && negb (is_employee_role role)
    then (error_response 400 "Invalid role. Must be admin, manager, staff, or support", db)
    else
      let e1 := if js_truthy name then <["name" := name]> employee else employee in
      let e2 := if js_truthy email then <["email" := email]> e1 else e1 in
      let e3 := if bool_decide (phone ≠ JUndef) then <["phone" := phone]> e2 else e2 in
      let e4 := if js_truthy role then <["role" := role]> e3 else e3 in
      let e5 := if js_truthy department then <["department" := department]> e4 else e4 in
      let e6 := if js_truthy status then <["status" := status]> e5 else e5 in
      let e7 := if js_truthy permissions then <["permissions" := permissions]> e6 else e6 in
      match rt_user_save E false e7 with
      | inl m => (with_error 500 "Failed to update employee" m, db)
      | inr saved =>
          let employeeResponse := delete "password" saved in
          (mk_response 200 [("success", RV (JBool true)); ("data", RDoc employeeResponse);
                            ("message", RV (JStr "Employee updated successfully"))],
           match id_string (field saved "_id") with
           | Some s => with_users db (replace_by_id s saved (ds_users db))
           | None => db
           end)
      end in
  match find_by_id db (ds_users db) id with
  | DbError m => (with_error 500 "Failed to update employee" m, db)
  | DbOk None => (error_response 404 "Employee not found", db)
  | DbOk (Some d0) =>
      let employee := user_projection d0 in
      if negb (is_employee_role (field employee "role"))
      then (error_response 404 "Employee not found", db)
      else if js_truthy email && negb (js_strict_eq email (field employee "email"))
      then match find_one (rt_regex_i E) db (ds_users db) (<["email" := QEq email]> ∅) with
           | DbError m => (with_error 500 "Failed to update employee" m, db)
           | DbOk (Some _) => (error_response 400 "Email already exists", db)
           | DbOk None => finish employee
           end
      else finish employee
  end.

(** The four routes that return employee records, each behind its
    middleware, after [router.use(authenticateToken)]. *)
Inductive employee_read_request : Type :=
| EmpList (rq : doc)                          (* GET /api/employees *)
| EmpGet (id : jsval)                         (* GET /api/employees/:id *)
| EmpCreate (body : doc) (new_id : string)    (* POST /api/employees *)
| EmpUpdate (id : jsval) (body : doc).        (* PUT /api/employees/:id *)

Definition mw_response (o : mw_outcome) : response :=
  match o with
  | MwReject st m => error_response st m
  | _ => middleware_error
  end.

Definition employee_route (E : runtime) (db : datastore) (authorization : jsval)
    (req : employee_read_request) : response * datastore :=
  match authenticateToken E db authorization with
  | AuthReject st m => (error_response st m, db)
  | AuthNext u =>
      match req with
      | EmpList rq =>
          match requireEmployee (Some u) with
          | MwNext => (employee_list E db rq, db)
          | o => (mw_response o, db)
          end
      | EmpGet id =>
          match requireEmployee (Some u) with
          | MwNext => (employee_get db id, db)
          | o => (mw_response o, db)
          end
      | EmpCreate body new_id =>
          match requirePermission "manage_users" (Some u) with
          | MwNext => employee_create E db u body new_id
          | o => (mw_response o, db)
          end
      | EmpUpdate id body =>
          match requirePermission "manage_users" (Some u) with
          | MwNext => employee_update E db id body
          | o => (mw_response o, db)
          end
      end
  end.

(** DELETE /api/employees/:id, behind [requireNewPermission('delete_users')]. *)
Definition employee_delete (E : runtime) (db : datastore) (user : option principal)
    (id : jsval) (body : doc) : response * datastore :=
  match requireNewPermission "delete_users" user, user with
  | MwNext, Some u =>
      if negb (js_strict_eq (field body "masterCode") (rt_master_code E))
      then (error_response 403 "Invalid master security code. Access denied.", db)
      else match find_by_id db (ds_users db) id with
      | DbError m => (with_error 500 "Failed to delete employee" m, db)
      | DbOk None => (error_response 404 "Employee not found", db)
      | DbOk (Some employee) =>
          if negb (is_employee_role (field employee "role"))
          then (error_response 404 "Employee not found", db)
          else
            let self_check (_ : unit) : response * datastore :=
              match id_string (field employee "_id"), id_string (p_id u) with
              | Some a, Some b =>
                  if String.eqb a b
                  then (error_response 400 "Cannot delete your own account", db)
                  else if negb (ds_up db)
                  then (with_error 500 "Failed to delete employee" "connection error", db)
                  else (mk_response 200 [("success", RV (JBool true));
                                         ("message", RV (JStr "Employee deleted successfully"))],
                        with_users db (List.filter (fun d => negb (has_id a d)) (ds_users db)))
              | _, _ => (with_error 500 "Failed to delete employee" "TypeError", db)
              end in
            if js_strict_eq (field employee "role") (JStr "admin") then
              match count_documents (rt_regex_i E) db (ds_users db)
                      (<["role" := QEq (JStr "admin")]> ∅) with
              | DbError m => (with_error 500 "Failed to delete employee" m, db)
              | DbOk adminCount =>
                  if adminCount <=? 1
                  then (error_response 400 "Cannot delete the last admin user", db)
                  else self_check tt
              end
            else self_check tt
      end
  | MwNext, None => (error_response 401 "Authentication required", db)
  | o, _ => (mw_response o, db)
  end.

(* ------------------------------------------------------------------ *)
(** ** PUT /api/events/:id (routes/eventRoutes.js) and the Event schema *)

(** The paths of [eventSchema], with [_id] and the [timestamps] paths. *)
Definition event_schema_paths : list string :=
  ["_id"; "title"; "description"; "date"; "time"; "location"; "type"; "status";
   "isFeatured"; "registeredAttendees"; "imageUrl"; "registrationUrl"; "organizer";
   "createdAt"; "updatedAt"].

(** Paths declared with [trim: true]. *)
Definition event_trim_paths : list string :=
  ["title"; "description"; "time"; "location"; "imageUrl"; "registrationUrl"].

Definition event_required_paths : list string :=
  ["title"; "description"; "date"; "time"; "location"; "type"; "organizer"].

Definition str_len (v : jsval) : Z :=
  match v with JStr s => Z.of_nat (String.length s) | _ => 0 end.

(** The validators [runValidators] runs for one updated path; [None]
    when the value passes, else the schema's message. *)
Definition event_validate_path (E : runtime) (k : string) (v : jsval) : option string :=
  if bool_decide (k ∈ event_required_paths) && negb (js_truthy v) && negb (bool_decide (v = JBool false))
  then Some ("Path `" ++ k ++ "` is required.")%string
  else if String.eqb k "title" && (200 <? str_len v) then Some "Title cannot exceed 200 characters"
  else if String.eqb k "description" && (2000 <? str_len v)
  then Some "Description cannot exceed 2000 characters"
  else if String.eqb k "location" && (200 <? str_len v)
  then Some "Location cannot exceed 200 characters"
  else if String.eqb k "type"
          && negb (existsb (fun t => js_strict_eq v (JStr t))
                     ["workshop"; "seminar"; "support-group"; "training"; "community"])
  then Some "Event type must be one of: workshop, seminar, support-group, training, community"
  else if String.eqb k "status"
          && negb (existsb (fun t => js_strict_eq v (JStr t))
                     ["upcoming"; "ongoing"; "completed"; "cancelled"])
  then Some "Status must be one of: upcoming, ongoing, completed, cancelled"
  else if String.eqb k "registeredAttendees"
          && match v with JNum z => z <? 0 | _ => false end
  then Some "Registered attendees cannot be negative"
  else if String.eqb k "registrationUrl"
          && match v with JStr s => negb (String.eqb s "") && negb (rt_url_valid E s) | _ => false end
  then Some "Please provide a valid registration URL"
  else None.

(** Casting an update against the schema: in strict mode (the default)
    paths that [eventSchema] does not declare are dropped, and the
    [trim] setters run on the remaining strings. *)
Definition event_cast_update (upd : doc) : doc :=
  map_imap (fun k v =>
              if bool_decide (k ∈ event_schema_paths) then
                Some (match v with
                      | JStr s => if bool_decide (k ∈ event_trim_paths) then JStr (js_trim s) else v
                      | _ => v
                      end)
              else None) upd.

(** [value.trim()] on a request value; [None] is the TypeError thrown
    on a non-string. *)
Definition trim_val (v : jsval) : option jsval :=
  match v with JStr s => Some (JStr (js_trim s)) | _ => None end.

(** [if (req.body.k !== undefined) updateData.k = f(req.body.k);] *)
Definition set_if_present (body : doc) (k : string) (f : jsval -> option jsval)
    (acc : option doc) : option doc :=
  match acc with
  | None => None
  | Some upd =>
      if bool_decide (field body k = JUndef) then Some upd
      else match f (field body k) with
           | Some v => Some (<[k := v]> upd)
           | None => None
           end
  end.

(** The [updateData] object of the handler; [None]: a TypeError. *)
Definition event_update_data (E : runtime) (u : principal) (body : doc) : option doc :=
  let acc :=
    set_if_present body "registrationUrl"
      (fun v => if js_truthy v then trim_val v else Some (JStr ""))
    (set_if_present body "imageUrl" (fun v => Some (if js_truthy v then v else JStr ""))
    (set_if_present body "registeredAttendees"
       (fun v => Some (JNum (match js_parseInt_auto v with
                             | Some z => if z =? 0 then 0 else z
                             | None => 0
                             end)))
    (set_if_present body "isFeatured" (fun v => Some (JBool (js_truthy v)))
    (set_if_present body "status" Some
    (set_if_present body "type" Some
    (set_if_present body "location" trim_val
    (set_if_present body "time" trim_val
    (set_if_present body "date" (fun v => Some (rt_new_Date E v))
    (set_if_present body "description" trim_val
    (set_if_present body "title" trim_val (Some ∅))))))))))) in
  option_map (fun upd => <["updatedBy" := p_id u]> upd) acc.

Definition with_events (db : datastore) (es : list doc) : datastore :=
  mk_datastore (ds_up db) (ds_users db) es (ds_practitioners db).

Definition event_update (E : runtime) (db : datastore) (user : option principal)
    (id : jsval) (body : doc) : response * datastore :=
  match requireEmployee user, user with
  | MwNext, Some u =>
      match find_by_id db (ds_events db) id with
      | DbError m =>
          if String.eqb m "CastError" then (error_response 404 "Event not found", db)
          else (error_response 500 "Server error while updating event", db)
      | DbOk None => (error_response 404 "Event not found", db)
      | DbOk (Some event) =>
          match event_update_data E u body with
          | None => (error_response 500 "Server error while updating event", db)
          | Some updateData =>
              let upd := event_cast_update updateData in
              let errors := omap (fun kv => event_validate_path E kv.1 kv.2) (map_to_list upd) in
              match errors with
              | _ :: _ =>
                  (error_response 400 ("Validation error: " ++ String.concat ", " errors), db)
              | [] =>
                  let updated := <["updatedAt" := JDate (rt_now E)]> (union upd event) in
                  match id_string (field event "_id") with
                  | Some s =>
                      (mk_response 200 [("success", RV (JBool true));
                                        ("message", RV (JStr "Event updated successfully"));
                                        ("data", RDoc updated)],
                       with_events db (map (fun e => if has_id s e then updated else e)
                                            (ds_events db)))
                  | None => (error_response 500 "Server error while updating event", db)
                  end
              end
          end
      end
  | MwNext, None => (error_response 401 "Authentication required", db)
  | o, _ => (mw_response o, db)
  end.

(* ------------------------------------------------------------------ *)
(** ** Upload routes (routes/uploadRoutes.js): DELETE and GET /api/upload/:filename *)

(** What [fs.statSync] reports. *)
Record file_info : Type := mk_file_info {
  fi_size : Z;
  fi_birthtime : Z;
  fi_mtime : Z
}.

(** The file system seen by the handlers: absolute path to file. *)
Abbreviation filesystem := (gmap string file_info).

(** File-system calls, recorded in the order the handler makes them. *)
Inductive fs_op : Type :=
| FsExists (p : string)
| FsUnlink (p : string)
| FsStat (p : string).

(** [path.join(process.cwd(), 'uploads', filename)] for a file name with
    no separator and no [..] (the handlers only join such names). *)
Definition upload_path (cwd filename : string) : string :=
  cwd ++ "/uploads/" ++ filename.

(** [filename.includes('..') || filename.includes('/') || filename.includes('\\')] *)
Definition bad_filename (filename : string) : bool :=
  str_includes filename ".." || str_includes filename "/" || str_includes filename "\".

Definition upload_delete (cwd : string) (fs : filesystem) (filename : string)
    : response * list fs_op * filesystem :=
  if bad_filename filename
  then (error_response 400 "Invalid filename", [], fs)
  else
    let filePath := upload_path cwd filename in
    match fs !! filePath with
    | None => (error_response 404 "File not found", [FsExists filePath], fs)
    | Some _ =>
        (mk_response 200 [("success", RV (JBool true));
                          ("message", RV (JStr "Image deleted successfully"))],
         [FsExists filePath; FsUnlink filePath], delete filePath fs)
    end.

Definition upload_info (cwd : string) (fs : filesystem) (filename : string)
    : response * list fs_op * filesystem :=
  if bad_filename filename
  then (error_response 400 "Invalid filename", [], fs)
  else
    let filePath := upload_path cwd filename in
    match fs !! filePath with
    | None => (error_response 404 "File not found", [FsExists filePath], fs)
    | Some st =>
        (mk_response 200 [("success", RV (JBool true));
                          ("data", RObj [("filename", JStr filename);
                                         ("size", JNum (fi_size st));
                                         ("created", JDate (fi_birthtime st));
                                         ("modified", JDate (fi_mtime st));
                                         ("url", JStr ("/uploads/" ++ filename))])],
         [FsExists filePath; FsStat filePath], fs)
    end.

Inductive upload_request : Type :=
| UpDelete (filename : string)   (* DELETE /api/upload/:filename *)
| UpInfo (filename : string).    (* GET /api/upload/:filename *)

Definition upload_filename (r : upload_request) : string :=
  match r with UpDelete f | UpInfo f => f end.

(** [router.use(authenticateToken)], then [authorize('admin')], then the
    handler. *)
Definition upload_route (E : runtime) (db : datastore) (cwd : string) (fs : filesystem)
    (authorization : jsval) (req : upload_request) : response * list fs_op * filesystem :=
  match authenticateToken E db authorization with
  | AuthReject st m => (error_response st m, [], fs)
  | AuthNext u =>
      match authorize ["admin"] (Some u) with
      | MwNext =>
          match req with
          | UpDelete f => upload_delete cwd fs f
          | UpInfo f => upload_info cwd fs f
          end
      | o => (mw_response o, [], fs)
      end
  end.

(* ------------------------------------------------------------------ *)
(** ** The permission check as the specification words it *)

(** "passes iff principal's role is admin, OR the named permission is
    present in the principal's permission set"; 401 without a principal.
    The permission set is the stored array, or empty when absent. *)
Definition permission_set (u : principal) : list string :=
  match p_permissions u with
  | JStrs l => l
  | _ => []
  end.

Definition permission_rule (permission : string) (user : option principal) : option Z :=
  match user with
  | None => Some 401
  | Some u =>
      if bool_decide (p_role u = JStr "admin") then None
      else if arr_includes (permission_set u) permission then None
      else Some 403
  end.

(** The permissions value is an array, or absent/falsy: the shape the
    User schema stores and [authenticateToken] passes on. *)
Definition permissions_shape_ok (u : principal) : Prop :=
  (exists l, p_permissions u = JStrs l) \/ js_truthy (p_permissions u) = false.

(** Case-insensitive substring test (ASCII case folding). *)
Definition ascii_lower (a : ascii) : ascii :=
  let n := nat_of_ascii a in
  if ((65 <=? n) && (n <=? 90))%nat then ascii_of_nat (n + 32) else a.

Definition str_lower (s : string) : string :=
  String.string_of_list_ascii (map ascii_lower (String.list_ascii_of_string s)).

Definition contains_ci (pat s : string) : bool := str_includes (str_lower s) (str_lower pat).

(** A regular expression source with no metacharacter: it denotes
    itself as a literal. *)
Definition regex_literal (pat : string) : bool :=
  forallb (fun a => negb (existsb (Ascii.eqb a) (String.list_ascii_of_string ".^$*+?()[]{}|\/")))
    (String.list_ascii_of_string pat).

(** The cases in which the credential verifier, as the source is written,
    refuses a request. *)
Definition auth_failure (E : runtime) (db : datastore) (authorization : jsval) : Prop :=
  match bearer_token authorization with
  | None => True
  | Some token =>
      token = "" \/
      match rt_jwt_verify E token with
      | None => True
      | Some decoded =>
          match find_by_id db (ds_users db) (field decoded "id") with
          | DbError _ => True
          | DbOk None => True
          | DbOk (Some user) =>
              js_truthy (field user "status") = true /\ field user "status" <> JStr "active"
          end
      end
  end.

(* ------------------------------------------------------------------ *)
(** ** A concrete runtime and store for the examples *)

Definition demo_uid : string := "0000000000000000000000a1".

Definition demo_token_payload : doc := <["id" := JOid demo_uid]> ∅.

Definition demo_runtime : runtime :=
  mk_runtime
    (fun t => if String.eqb t "tok" then Some demo_token_payload else None)
    1000
    contains_ci
    (JStr "m4ster")
    (fun t n => t + n * 86400000)
    (fun t => t)
    (fun t => t)
    (fun t => t)
    (fun v => match v with JNum z => JDate z | JDate _ => v | _ => JNaN end)
    (fun _ d => inr d)
    (fun _ => true).

Definition demo_account : doc :=
  <["_id" := JOid demo_uid]> (<["name" := JStr "Ada"]> (<["email" := JStr "ada@x.org"]>
  (<["role" := JStr "admin"]> (<["status" := JStr "active"]>
  (<["password" := JStr "$2a$10$hash"]> ∅))))).

(** Records whose [role] matches [admin] (what
    [User.countDocuments({ role: 'admin' })] counts). *)
Definition admin_count (us : list doc) : nat :=
  length (List.filter (fun d => eq_match (JStr "admin") (field d "role")) us).

Definition demo_master_body : doc := <["masterCode" := JStr "m4ster"]> ∅.

Definition demo_store : datastore := mk_datastore true [demo_account] [] [].

Definition cancel_body : doc := <["status" := JStr "cancelled"]> ∅.

(** The persisted fields of an Event the claim about cancelling lists. *)
Definition event_other_fields : list string :=
  ["title"; "description"; "date"; "time"; "location"; "type"; "isFeatured";
   "registeredAttendees"; "imageUrl"; "registrationUrl"; "organizer"].

Definition demo_event_id : string := "0000000000000000000000e1".

Definition demo_event : doc :=
  <["_id" := JOid demo_event_id]> (<["title" := JStr "Yoga basics"]>
  (<["description" := JStr "Intro"]> (<["date" := JDate 5000]> (<["time" := JStr "10:00"]>
  (<["location" := JStr "Hall"]> (<["type" := JStr "workshop"]>
  (<["status" := JStr "upcoming"]> (<["isFeatured" := JBool false]>
  (<["registeredAttendees" := JNum 0]> (<["imageUrl" := JStr ""]>
  (<["registrationUrl" := JStr ""]> (<["organizer" := JOid demo_uid]>
  (<["createdAt" := JDate 10]> (<["updatedAt" := JDate 10]> ∅)))))))))))))).

Definition demo_event_store : datastore := mk_datastore true [demo_account] [demo_event] [].

(** A past event still marked upcoming. *)
Definition demo_past_event : doc := <["date" := JDate 10]> demo_event.

Definition demo_past_event_store : datastore := mk_datastore true [] [demo_past_event] [].

Definition demo_past_listing : list doc :=
  response_docs (public_events_list_lite demo_runtime demo_past_event_store ∅ "3ms").

(** What a listing response reports about one page of results. *)
Definition pagination_shape (r : response) (page limit total : Z) (window : list doc) : Prop :=
  res_status r = 200 /\
  body_field r "pagination"
    = Some (RObj [("total", JNum total); ("page", JNum page);
                  ("pages", JNum (js_ceil_div total limit))]) /\
  response_docs r = window.

Definition practitioner_matches (E : runtime) (db : datastore) (rq : doc) : list doc :=
  List.filter (doc_matches (rt_regex_i E) (practitioners_query rq)) (ds_practitioners db).

Definition public_event_matches (E : runtime) (db : datastore) (rq : doc) : list doc :=
  List.filter (doc_matches (rt_regex_i E) (public_events_query E rq)) (ds_events db).

Definition page2_request : doc := <["page" := JStr "2"]> (<["limit" := JStr "10"]> ∅).

Definition demo_practitioner : doc :=
  <["_id" := JOid "0000000000000000000000b1"]> (<["name" := JStr "Dr. Ana Lima"]>
  (<["specialty" := JStr "Yoga Therapy"]> (<["bio" := JStr "Mindful movement"]>
  (<["status" := JStr "active"]> (<["isFeatured" := JBool true]>
  (<["createdAt" := JDate 20]> ∅)))))).

Definition demo_store_25 : datastore :=
  mk_datastore true [demo_account] (repeat demo_event 25) (repeat demo_practitioner 25).

Definition yoga_request : doc := <["search" := JStr "yoga"]> ∅.

(** The same account with the staff role. *)
Definition demo_staff_store : datastore :=
  mk_datastore true [<["role" := JStr "staff"]> demo_account] [] [].

Definition traversal_name : string := "../../etc/passwd".

Definition demo_upload_fs : filesystem :=
  <["/srv/app/uploads/photo.jpg" := mk_file_info 2048 100 200]> ∅.

(** The fields a filter entry reads. *)
Definition qexpr_fields (k : string) (e : qexpr) : list string :=
  match e with
  | QOr alts => map fst alts
  | _ => [k]
  end.

(** A filter that never reads the [password] path. *)
Definition avoids_password (q : query) : Prop :=
  map_Forall (fun k e => ~ In "password" (qexpr_fields k e)) q.

(** Two stored User documents that differ at most in their password. *)
Definition same_but_password (d1 d2 : doc) : Prop :=
  user_projection d1 = user_projection d2.

(** The stored hash of the account [uid] set to [h]. *)
Definition set_password (uid h : string) (us : list doc) : list doc :=
  map (fun d => if has_id uid d then <["password" := JStr h]> d else d) us.

(** Both results are errors with the same message, or both succeed with
    related values. *)
Definition db_rel {A B : Type} (R : A -> B -> Prop) (r1 : db_result A) (r2 : db_result B)
    : Prop :=
  match r1, r2 with
  | DbOk a, DbOk b => R a b
  | DbError m1, DbError m2 => m1 = m2
  | _, _ => False
  end.

(** No document a response carries has a [password] field. *)
Definition no_password_body (r : response) : Prop :=
  forall d, In d (response_docs r) -> d !! "password" = None.

(* ------------------------------------------------------------------ *)
(** ** [exports.requireAdmin] (middleware/authMiddleware.js) *)

Definition requireAdmin (user : option principal) : mw_outcome :=
  match user with
  | None => MwReject 401 "Authentication required"
  | Some u =>
      if negb (js_strict_eq (p_role u) (JStr "admin"))
      then MwReject 403 "Admin access required"
      else MwNext
  end.

(* ------------------------------------------------------------------ *)
(** ** Methods and virtuals of the User schema (models/User.js) *)

(** [this.permissions.includes(permission) || this.role === 'admin'];
    [None]: [permissions] has no [includes] method (a TypeError).  The
    Employee schema declares the same method. *)
Definition hasPermission (user : doc) (permission : string) : option bool :=
  match js_value_includes (field user "permissions") permission with
  | None => None
  | Some b => Some (b || js_strict_eq (field user "role") (JStr "admin"))
  end.

(** [UserSchema.virtual('isAdmin')]: [this.role === 'admin'] *)
Definition isAdmin (user : doc) : bool := js_strict_eq (field user "role") (JStr "admin").

(** [UserSchema.virtual('isEmployee')]:
    [['admin', 'manager', 'staff', 'support'].includes(this.role)] *)
Definition isEmployee (user : doc) : bool := is_employee_role (field user "role").

(* ------------------------------------------------------------------ *)
(** ** Methods and statics of the Event schema (models/Event.js) *)

(** [v > new Date()] and [v < new Date()] for the [date] path of a loaded
    event: a Date (or a number) compares by its time value, [null] as 0,
    and [undefined] makes both comparisons false.  Once Mongoose has cast
    the document the path holds no other value. *)
Definition date_after (v : jsval) (now : Z) : bool :=
  match v with
  | JDate t | JNum t => now <? t
  | JNull => now <? 0
  | _ => false
  end.

Definition date_before (v : jsval) (now : Z) : bool :=
  match v with
  | JDate t | JNum t => t <? now
  | JNull => 0 <? now
  | _ => false
  end.

(** [eventSchema.methods.isUpcoming] *)
Definition isUpcoming (event : doc) (now : Z) : bool :=
  js_strict_eq (field event "status") (JStr "upcoming") && date_after (field event "date") now.

(** [eventSchema.methods.isPast] *)
Definition isPast (event : doc) (now : Z) : bool :=
  js_strict_eq (field event "status") (JStr "completed") || date_before (field event "date") now.

(** [eventSchema.statics.findUpcoming]:
    [find({status: {$in: ['upcoming', 'ongoing']}, date: {$gte: new Date()}}).sort({date: 1})] *)
Definition findUpcoming (E : runtime) (db : datastore) : db_result (list doc) :=
  run_find (rt_regex_i E) db (ds_events db)
    (<["status" := QOps [OpIn [JStr "upcoming"; JStr "ongoing"]]]>
       (<["date" := QOps [OpGte (JDate (rt_now E))]]> ∅))
    [("date", 1)] 0 0.

(* ------------------------------------------------------------------ *)
(** ** GET /api/employees/stats *)

Definition employee_filter : query :=
  <["role" := QOps [OpIn (map JStr employee_roles)]]> ∅.

(** The value a [$group] stage groups a document under: a missing field
    groups under [null]. *)
Definition group_key (v : jsval) : jsval :=
  match v with JUndef => JNull | _ => v end.

(** Count one more document in the group of [k]. *)
Fixpoint group_add (k : jsval) (acc : list (jsval * Z)) : list (jsval * Z) :=
  match acc with
  | [] => [(k, 1)]
  | (k', n) :: acc' =>
      if bool_decide (k = k') then (k', n + 1) :: acc' else (k', n) :: group_add k acc'
  end.

(** [Model.aggregate([{ $match: q }, { $group: { _id: '$f', count: { $sum: 1 } } }])]:
    one output document [{_id, count}] per distinct value of [f].
    MongoDB does not order the groups; they are listed in the order their
    values first occur. *)
Definition aggregate_count (rx : string -> string -> bool) (db : datastore)
    (coll : list doc) (q : query) (f : string) : db_result (list doc) :=
  if negb (ds_up db) then DbError "connection error"
  else DbOk (map (fun kn : jsval * Z => <["_id" := kn.1]> (<["count" := JNum kn.2]> ∅))
               (fold_left (fun acc d => group_add (group_key (field d f)) acc)
                  (List.filter (doc_matches rx q) coll) [])).

(** The [data] object of the statistics response. *)
Record employee_stats : Type := mk_employee_stats {
  es_total : Z;
  es_active : Z;
  es_inactive : Z;
  es_admin : Z;
  es_roleBreakdown : list doc;
  es_departmentBreakdown : list doc
}.

(** [inr s] is the response [{ success: true, data: s }]; the six queries
    run under [Promise.all], whose rejection the catch block reports. *)
Definition employee_stats_route (E : runtime) (db : datastore) (user : option principal)
    : response + employee_stats :=
  let rx := rt_regex_i E in
  let us := ds_users db in
  let fail (m : string) : response + employee_stats :=
    inl (with_error 500 "Failed to fetch employee statistics" m) in
  match requireEmployee user with
  | MwNext =>
      match count_documents rx db us employee_filter with
      | DbError m => fail m
      | DbOk totalCount =>
      match count_documents rx db us (<["status" := QEq (JStr "active")]> employee_filter) with
      | DbError m => fail m
      | DbOk activeCount =>
      match count_documents rx db us (<["status" := QEq (JStr "inactive")]> employee_filter) with
      | DbError m => fail m
      | DbOk inactiveCount =>
      match count_documents rx db us (<["role" := QEq (JStr "admin")]> ∅) with
      | DbError m => fail m
      | DbOk adminCount =>
      match aggregate_count rx db us employee_filter "role" with
      | DbError m => fail m
      | DbOk roleStats =>
      match aggregate_count rx db us employee_filter "department" with
      | DbError m => fail m
      | DbOk departmentStats =>
          inr (mk_employee_stats totalCount activeCount inactiveCount adminCount
                 roleStats departmentStats)
      end end end end end end
  | o => inl (mw_response o)
  end.

(** The sum of the [count] fields of the documents of a breakdown. *)
Definition breakdown_sum (ds : list doc) : Z :=
  fold_right (fun d acc => match field d "count" with JNum n => n + acc | _ => acc end) 0 ds.

(* ------------------------------------------------------------------ *)
(** ** PUT /api/employees/bulk *)

(** Casting a value to a String path: a string stays, a number or a
    boolean becomes its [toString()], an array is a CastError ([None]).
    A JSON body holds no Date and no ObjectId. *)
Definition cast_string (v : jsval) : option jsval :=
  match v with
  | JStr _ | JUndef | JNull => Some v
  | JNum z => Some (JStr (pretty z))
  | JBool true => Some (JStr "true")
  | JBool false => Some (JStr "false")
  | _ => None
  end.

(** [Model.updateMany(q, set)]: the [timestamps] option of the schema adds
    [updatedAt: new Date()] to the [$set]; every matched document gets the
    set paths, and [modifiedCount] counts the documents that changed. *)
Definition update_many (rx : string -> string -> bool) (db : datastore) (coll : list doc)
    (q : query) (set : doc) (now : Z) : db_result (list doc * Z) :=
  if negb (ds_up db) then DbError "connection error"
  else
    let coll' := map (fun d => if doc_matches rx q d
                               then <["updatedAt" := JDate now]> (union set d) else d) coll in
    DbOk (coll', Z.of_nat (length (List.filter (fun p : doc * doc => negb (bool_decide (p.1 = p.2)))
                                     (combine coll coll')))).

Definition employee_bulk_update (E : runtime) (db : datastore) (user : option principal)
    (body : doc) : response * datastore :=
  match requirePermission "manage_users" user with
  | MwNext =>
      match field body "ids" with
      | JStrs ((_ :: _) as ids) =>
          let status := field body "status" in
          (* the filter is cast first: every id must be an ObjectId *)
          if negb (forallb (fun s => bool_decide (cast_object_id (JStr s) = Some (Some s))) ids)
          then (with_error 500 "Failed to update employees" "CastError", db)
          else
            match (if js_truthy status
                   then option_map (fun v => <["status" := v]> ∅) (cast_string status)
                   else Some ∅) with
            | None => (with_error 500 "Failed to update employees" "CastError", db)
            | Some updateData =>
                match update_many (rt_regex_i E) db (ds_users db)
                        (<["_id" := QOps [OpIn (map JOid ids)]]> employee_filter)
                        updateData (rt_now E) with
                | DbError m => (with_error 500 "Failed to update employees" m, db)
                | DbOk (us, modifiedCount) =>
                    (mk_response 200
                       [("success", RV (JBool true));
                        ("message", RV (JStr (pretty modifiedCount
                                              ++ " employees updated successfully")%string));
                        ("modifiedCount", RV (JNum modifiedCount))],
                     with_users db us)
                end
            end
      | _ => (error_response 400 "Employee IDs are required", db)
      end
  | o => (mw_response o, db)
  end.

(* ------------------------------------------------------------------ *)
(** ** POST /api/employees/:id/reset-password *)

(** [tempPassword] is what the two [Math.random().toString(36).slice(-8)]
    produce; [save()] hashes it. *)
Definition employee_reset_password (E : runtime) (db : datastore) (user : option principal)
    (id : jsval) (body : doc) (tempPassword : string) : response * datastore :=
  match requireNewPermission "change_user_passwords" user with
  | MwNext =>
      if negb (js_strict_eq (field body "masterCode") (rt_master_code E))
      then (error_response 403 "Invalid master security code. Access denied.", db)
      else match find_by_id db (ds_users db) id with
      | DbError m => (with_error 500 "Failed to reset password" m, db)
      | DbOk None => (error_response 404 "Employee not found", db)
      | DbOk (Some d0) =>
          let employee := user_projection d0 in
          if negb (is_employee_role (field employee "role"))
          then (error_response 404 "Employee not found", db)
          else
            let e := <["mustChangePassword" := JBool true]>
                       (<["password" := JStr tempPassword]> employee) in
            match rt_user_save E false e with
            | inl m => (with_error 500 "Failed to reset password" m, db)
            | inr saved =>
                (mk_response 200 [("success", RV (JBool true));
                                  ("temporaryPassword", RV (JStr tempPassword));
                                  ("message", RV (JStr "Password reset successfully"))],
                 match id_string (field saved "_id") with
                 | Some s => with_users db (replace_by_id s saved (ds_users db))
                 | None => db
                 end)
            end
      end
  | o => (mw_response o, db)
  end.

(* ------------------------------------------------------------------ *)
(** ** Single-document routes of the event and practitioner routers *)

(** [const x = await Model.findById(req.params.id); if (!x) 404;
    200 {success: true, data: x}]; the catch block answers 404 too when
    [err.kind === 'ObjectId'] (the CastError of a malformed id). *)
Definition get_by_id_handler (not_found server_error : string) (db : datastore)
    (coll : list doc) (id : jsval) : response :=
  match find_by_id db coll id with
  | DbError m =>
      if String.eqb m "CastError" then error_response 404 not_found
      else error_response 500 server_error
  | DbOk None => error_response 404 not_found
  | DbOk (Some d) => mk_response 200 [("success", RV (JBool true)); ("data", RDoc d)]
  end.

(** GET /api/events/:id (routes/eventRoutes.js) *)
Definition event_get (db : datastore) (user : option principal) (id : jsval) : response :=
  match requireEmployee user with
  | MwNext =>
      get_by_id_handler "Event not found" "Server error while fetching event" db (ds_events db) id
  | o => mw_response o
  end.

(** GET /api/public/events/:id; the free-tier version of the router sends
    the same body, with cache headers. *)
Definition public_event_get (db : datastore) (id : jsval) : response :=
  get_by_id_handler "Event not found" "Server error" db (ds_events db) id.

(** GET /api/practitioners/:id (routes/practitionerRoutes.js) *)
Definition practitioner_get (db : datastore) (user : option principal) (id : jsval) : response :=
  match requireEmployee user with
  | MwNext =>
      get_by_id_handler "Practitioner not found" "Server error while fetching practitioner"
        db (ds_practitioners db) id
  | o => mw_response o
  end.

(** [findById], then [Model.findByIdAndDelete(req.params.id)] and 200
    [{success: true, message, data: {}}]; [_id] is unique in a collection. *)
Definition delete_by_id_handler (not_found server_error deleted : string) (db : datastore)
    (coll : list doc) (id : jsval) : response * list doc :=
  match find_by_id db coll id, cast_object_id id with
  | DbError m, _ =>
      (if String.eqb m "CastError" then error_response 404 not_found
       else error_response 500 server_error, coll)
  | DbOk (Some _), Some (Some s) =>
      (mk_response 200 [("success", RV (JBool true)); ("message", RV (JStr deleted));
                        ("data", RObj [])],
       List.filter (fun d => negb (has_id s d)) coll)
  | DbOk _, _ => (error_response 404 not_found, coll)
  end.

Definition with_practitioners (db : datastore) (ps : list doc) : datastore :=
  mk_datastore (ds_up db) (ds_users db) (ds_events db) ps.

(** DELETE /api/events/:id *)
Definition event_delete (db : datastore) (user : option principal) (id : jsval)
    : response * datastore :=
  match requireEmployee user with
  | MwNext =>
      let '(r, es) := delete_by_id_handler "Event not found" "Server error while deleting event"
                        "Event deleted successfully" db (ds_events db) id in
      (r, with_events db es)
  | o => (mw_response o, db)
  end.

(** DELETE /api/practitioners/:id *)
Definition practitioner_delete (db : datastore) (user : option principal) (id : jsval)
    : response * datastore :=
  match requireEmployee user with
  | MwNext =>
      let '(r, ps) := delete_by_id_handler "Practitioner not found"
                        "Server error while deleting practitioner"
                        "Practitioner deleted successfully" db (ds_practitioners db) id in
      (r, with_practitioners db ps)
  | o => (mw_response o, db)
  end.

(** GET /api/public/practitioners/:id (both versions of the router):
    [Practitioner.findOne({ _id: req.params.id, status: 'active' })].
    The filter is cast before it is sent: a malformed id is a CastError
    ([err.kind === 'ObjectId']), answered 404. *)
Definition public_practitioner_get (E : runtime) (db : datastore) (id : string) : response :=
  match cast_object_id (JStr id) with
  | Some (Some s) =>
      match find_one (rt_regex_i E) db (ds_practitioners db)
              (<["_id" := QEq (JOid s)]> (<["status" := QEq (JStr "active")]> ∅)) with
      | DbError _ => error_response 500 "Server error"
      | DbOk None => error_response 404 "Practitioner not found"
      | DbOk (Some p) => mk_response 200 [("success", RV (JBool true)); ("data", RDoc p)]
      end
  | _ => error_response 404 "Practitioner not found"
  end.

(** [Model.find(q).limit(n)] with no sort: the first [n] matches in
    natural order. *)
Definition find_limit (rx : string -> string -> bool) (db : datastore) (coll : list doc)
    (q : query) (n : nat) : db_result (list doc) :=
  if negb (ds_up db) then DbError "connection error"
  else DbOk (take n (List.filter (doc_matches rx q) coll)).

(** GET /api/public/practitioners/featured/list *)
Definition featured_practitioners (E : runtime) (db : datastore) : response :=
  match find_limit (rt_regex_i E) db (ds_practitioners db)
          (<["status" := QEq (JStr "active")]> (<["isFeatured" := QEq (JBool true)]> ∅)) 5 with
  | DbError _ => error_response 500 "Server error"
  | DbOk practitioners =>
      mk_response 200 [("success", RV (JBool true));
                       ("count", RV (JNum (Z.of_nat (length practitioners))));
                       ("data", RDocs practitioners)]
  end.

(** GET /api/public/events/featured/current: [findOne(q).sort('date')] is
    the first match by date. *)
Definition featured_event (E : runtime) (db : datastore) : response :=
  let rx := rt_regex_i E in
  let featured_q : query :=
    <["status" := QOps [OpIn [JStr "upcoming"; JStr "ongoing"]]]>
      (<["date" := QOps [OpGte (JDate (rt_now E))]]> (<["isFeatured" := QEq (JBool true)]> ∅)) in
  let next_q : query :=
    <["status" := QEq (JStr "upcoming")]> (<["date" := QOps [OpGte (JDate (rt_now E))]]> ∅) in
  match run_find rx db (ds_events db) featured_q [("date", 1)] 0 1 with
  | DbError _ => error_response 500 "Server error"
  | DbOk (event :: _) =>
      mk_response 200 [("success", RV (JBool true)); ("featured", RV (JBool true));
                       ("data", RDoc event)]
  | DbOk [] =>
      match run_find rx db (ds_events db) next_q [("date", 1)] 0 1 with
      | DbError _ => error_response 500 "Server error"
      | DbOk [] => error_response 404 "No featured or upcoming events found"
      | DbOk (nextEvent :: _) =>
          mk_response 200 [("success", RV (JBool true)); ("featured", RV (JBool false));
                           ("data", RDoc nextEvent)]
      end
  end.

(** The free-tier version of the same route: no date condition. *)
Definition featured_event_lite (E : runtime) (db : datastore) : response :=
  let rx := rt_regex_i E in
  let featured_q : query :=
    <["status" := QOps [OpIn [JStr "upcoming"; JStr "ongoing"]]]>
      (<["isFeatured" := QEq (JBool true)]> ∅) in
  let next_q : query := <["status" := QEq (JStr "upcoming")]> ∅ in
  match run_find rx db (ds_events db) featured_q [("date", 1)] 0 1 with
  | DbError _ => error_response 500 "Server error"
  | DbOk (event :: _) =>
      mk_response 200 [("success", RV (JBool true)); ("featured", RV (JBool true));
                       ("data", RDoc event)]
  | DbOk [] =>
      match run_find rx db (ds_events db) next_q [("date", 1)] 0 1 with
      | DbError _ => error_response 500 "Server error"
      | DbOk [] => error_response 404 "No featured or upcoming events found"
      | DbOk (nextEvent :: _) =>
          mk_response 200 [("success", RV (JBool true)); ("featured", RV (JBool false));
                           ("data", RDoc nextEvent)]
      end
  end.

(* ------------------------------------------------------------------ *)
(** ** GET /api/events (routes/eventRoutes.js) *)

(** A value given for a non-array path: Mongoose casts an array to [$in]. *)
Definition event_list_query (E : runtime) (rq : doc) : query :=
  let q0 : query :=
    if js_truthy (field rq "search")
    then <["$or" := search_or ["title"; "description"; "location"]
                                (pattern_of (field rq "search"))]> ∅
    else ∅ in
  let q1 := if js_truthy (field rq "type")
            then <["type" := in_or_eq (field rq "type")]> q0 else q0 in
  let q2 := if js_truthy (field rq "status")
            then <["status" := in_or_eq (field rq "status")]> q1 else q1 in
  let q3 := if bool_decide (field rq "isFeatured" ≠ JUndef)
            then <["isFeatured" := QEq (JBool (js_strict_eq (field rq "isFeatured") (JStr "true")))]> q2
            else q2 in
  let fromDate := field rq "fromDate" in
  let toDate := field rq "toDate" in
  if js_truthy fromDate && js_truthy toDate
  then <["date" := QOps [OpGte (rt_new_Date E fromDate); OpLte (rt_new_Date E toDate)]]> q3
  else if js_truthy fromDate then <["date" := QOps [OpGte (rt_new_Date E fromDate)]]> q3
  else if js_truthy toDate then <["date" := QOps [OpLte (rt_new_Date E toDate)]]> q3
  else q3.

Definition event_list (E : runtime) (db : datastore) (user : option principal) (rq : doc)
    : response :=
  match requireEmployee user with
  | MwNext =>
      let q := event_list_query E rq in
      let '(page, limit, startIndex) := page_window rq 10 in
      match run_find (rt_regex_i E) db (ds_events db) q [("date", 1); ("createdAt", -1)]
              startIndex limit with
      | DbError _ => error_response 500 "Server error while fetching events"
      | DbOk events =>
          match count_documents (rt_regex_i E) db (ds_events db) q with
          | DbError _ => error_response 500 "Server error while fetching events"
          | DbOk totalCount =>
              mk_response 200
                [("success", RV (JBool true));
                 ("count", RV (JNum (Z.of_nat (length events))));
                 ("totalCount", RV (JNum totalCount));
                 ("pagination", RObj [("total", JNum totalCount); ("page", JNum page);
                                      ("pages", JNum (js_ceil_div totalCount limit))]);
                 ("data", RDocs events)]
          end
      end
  | o => mw_response o
  end.

(* ------------------------------------------------------------------ *)
(** ** Upload filtering: [fileFilter] and [handleMulterError]
    (routes/uploadRoutes.js and utils/imageUpload.js declare the same two) *)

(** The error [upload.single('image')] passes to [next(err)]. *)
Inductive upload_error : Type :=
| MulterError (code message : string)   (* err instanceof multer.MulterError *)
| PlainError (message : string).        (* any other Error, e.g. from fileFilter *)

Definition allowedTypes : list string :=
  ["image/jpeg"; "image/jpg"; "image/png"; "image/gif"; "image/webp"].

(** [fileFilter(req, file, cb)]: [None] is [cb(null, true)]. *)
Definition fileFilter (mimetype : string) : option upload_error :=
  if arr_includes allowedTypes mimetype then None
  else Some (PlainError ("Invalid file type. Only " ++ String.concat ", " allowedTypes
                         ++ " are allowed.")%string).

(** [handleMulterError(err, req, res, next)] *)
Definition handleMulterError (err : option upload_error) : mw_outcome :=
  match err with
  | Some (MulterError code message) =>
      if String.eqb code "LIMIT_FILE_SIZE"
      then MwReject 413 "File too large. Maximum size allowed is 5MB."
      else if String.eqb code "LIMIT_FILE_COUNT"
      then MwReject 400 "Too many files. Only one file is allowed."
      else if String.eqb code "LIMIT_UNEXPECTED_FILE"
      then MwReject 400 "Unexpected field name for file upload."
      else MwReject 400 ("Upload error: " ++ message)%string
  | Some (PlainError message) => MwReject 400 message
  | None => MwNext
  end.

(** What a client learns from a GET-by-id answer: 200 with the stored
    document whose [_id] is the cast id, or 404 when no document has it. *)
Definition found_or_404 (id : jsval) (coll : list doc) (r : response) : Prop :=
  (res_status r = 200 /\
   exists s d, cast_object_id id = Some (Some s) /\ In d coll /\ has_id s d = true /\
               response_docs r = [d]) \/
  (res_status r = 404 /\
   forall s d, cast_object_id id = Some (Some s) -> In d coll -> has_id s d = false).

(** Sample inputs for the extra properties. *)
Definition demo_staff_id : string := "0000000000000000000000a2".

Definition demo_staff : doc :=
  <["_id" := JOid demo_staff_id]> (<["name" := JStr "Bo"]> (<["email" := JStr "bo@x.org"]>
  (<["role" := JStr "staff"]> (<["status" := JStr "active"]>
  (<["password" := JStr "$2a$10$hash2"]> ∅))))).

Definition demo_team_store : datastore := mk_datastore true [demo_account; demo_staff] [] [].

Definition demo_admin : option principal := Some (principal_of demo_account).

Definition demo_bulk_body : doc :=
  <["ids" := JStrs [demo_staff_id]]> (<["status" := JStr "inactive"]> ∅).

Definition demo_create_body : doc :=
  <["name" := JStr "Cy"]> (<["email" := JStr "cy@x.org"]> (<["password" := JStr "secret1"]>
  (<["role" := JStr "support"]> (<["department" := JStr "Front desk"]> ∅)))).

Definition demo_new_id : string := "0000000000000000000000a3".

Definition demo_event_patch : doc := <["title" := JStr "Yoga advanced"]> ∅.

Definition demo_practitioner_store : datastore := mk_datastore true [] [] [demo_practitioner].

Definition demo_featured_query : doc := <["isFeatured" := JStr "false"]> ∅.

(* ================================================================== *)
(** * Properties *)

Lemma js_strict_eq_str (s : string) (v : jsval) :
  js_strict_eq v (JStr s) = bool_decide (v = JStr s).
Proof. destruct v; reflexivity. Qed.

(** C1: a principal whose role is [admin] passes both permission checks,
    [requirePermission] and [requireNewPermission], for every permission
    name, whatever its stored permissions (empty, absent or other). *)
Theorem admin_passes_all_permission_checks (u : principal) (permission : string)
    (Hadmin : p_role u = JStr "admin") :
  requirePermission permission (Some u) = MwNext /\
  requireNewPermission permission (Some u) = MwNext.
Proof.
  unfold requirePermission, requireNewPermission.
  rewrite Hadmin. split; reflexivity.
Qed.

Lemma admin_passes_all_permission_checks_witness :
  requirePermission "delete_users"
    (Some (mk_principal (JOid "a1") JUndef JUndef (JStr "admin") JUndef JUndef (JStr "active")))
  = MwNext /\
  requireNewPermission "delete_users"
    (Some (mk_principal (JOid "a1") JUndef JUndef (JStr "admin") JUndef JUndef (JStr "active")))
  = MwNext.
Proof.
  exact (admin_passes_all_permission_checks
           (mk_principal (JOid "a1") JUndef JUndef (JStr "admin") JUndef JUndef (JStr "active"))
           "delete_users" eq_refl).
Defined.

(** C8: [requirePermission] and [requireNewPermission] make the same
    decision with the same status for every principal (or none) and every
    permission name; on the permission shapes the store holds, that
    decision is: 401 without a principal, allow for [admin], allow when
    the permission is in the set, 403 otherwise. *)
Theorem permission_checks_same_decision (permission : string) (user : option principal) :
  decision (requirePermission permission user)
    = decision (requireNewPermission permission user) /\
  (forall u, user = Some u -> permissions_shape_ok u ->
     decision (requirePermission permission user) = permission_rule permission user) /\
  (user = None -> decision (requirePermission permission user) = Some 401).
Proof.
  split; [|split].
  - destruct user as [u|]; simpl; [|reflexivity].
    destruct (js_strict_eq (p_role u) (JStr "admin")); [reflexivity|].
    destruct (js_truthy (p_permissions u)); simpl; [|reflexivity].
    destruct (js_value_includes (p_permissions u) permission) as [[|]|]; reflexivity.
  - intros u -> Hshape. simpl. rewrite js_strict_eq_str.
    destruct (bool_decide (p_role u = JStr "admin")); [reflexivity|].
    destruct Hshape as [[l Hl]|Hf].
    + unfold permission_set. rewrite Hl. simpl.
      destruct (arr_includes l permission); reflexivity.
    + rewrite Hf. simpl. unfold permission_set.
      destruct (p_permissions u); simpl in *; try reflexivity; discriminate.
  - intros ->. reflexivity.
Qed.

(** The amended characterisation of C2 follows from this lemma about
    the account read through the projection. *)
Lemma field_user_projection (d : doc) (k : string) :
  k <> "password" -> field (user_projection d) k = field d k.
Proof.
  intros Hk. unfold field, user_projection. rewrite lookup_delete_ne; congruence.
Qed.

(** C2 (as stated): a valid bearer token for a stored, active account is
    still refused with 401 when the account lookup itself fails (here: the
    data store is unreachable), a case outside the four the claim lists. *)
Lemma authenticate_token_rejects_on_lookup_error :
  bearer_token (JStr "Bearer tok") = Some "tok" /\
  rt_jwt_verify demo_runtime "tok" = Some demo_token_payload /\
  List.find (has_id demo_uid) [demo_account] = Some demo_account /\
  field demo_account "status" = JStr "active" /\
  authenticateToken demo_runtime (mk_datastore false [demo_account] [] [])
    (JStr "Bearer tok") = AuthReject 401 "Not authorized to access this route".
Proof. split; [|split; [|split; [|split]]]; vm_compute; reflexivity. Qed.

(** C2 (amended): [authenticateToken] ends the request with 401, attaching
    no principal, exactly when no token is extracted from the header (or it
    is empty), the token does not verify, the account lookup fails or finds
    no account, or the account has a status that is set and not [active];
    otherwise it attaches the principal built from the account read
    without its password. *)
Theorem authenticate_token_cases (E : runtime) (db : datastore) (authorization : jsval) :
  match authenticateToken E db authorization with
  | AuthReject status _ => status = 401 /\ auth_failure E db authorization
  | AuthNext u =>
      ~ auth_failure E db authorization /\
      exists token decoded user,
        bearer_token authorization = Some token /\
        rt_jwt_verify E token = Some decoded /\
        find_by_id db (ds_users db) (field decoded "id") = DbOk (Some user) /\
        u = principal_of (user_projection user)
  end.
Proof.
  unfold authenticateToken, auth_failure.
  destruct (bearer_token authorization) as [token|] eqn:Hb; [|split; auto].
  destruct (String.eqb_spec token "") as [->|Hne]; [split; auto|].
  assert (Htr : js_truthy (JStr token) = true).
  { unfold js_truthy. destruct (String.eqb_spec token ""); [congruence|reflexivity]. }
  rewrite Htr; simpl.
  destruct (rt_jwt_verify E token) as [decoded|] eqn:Hv; [|split; auto].
  destruct (find_by_id db (ds_users db) (field decoded "id")) as [[user|]|m] eqn:Hf;
    [|split; auto|split; auto].
  rewrite !field_user_projection by discriminate.
  rewrite js_strict_eq_str.
  destruct (js_truthy (field user "status")) eqn:Hst; simpl.
  - destruct (bool_decide (field user "status" = JStr "active")) eqn:Ha; simpl.
    + apply bool_decide_eq_true_1 in Ha. split.
      * intros [H|[_ H]]; [congruence|]. congruence.
      * exists token, decoded, user. auto.
    + apply bool_decide_eq_false_1 in Ha. split; auto.
  - split.
    + intros [H|[H _]]; congruence.
    + exists token, decoded, user. auto.
Qed.

(** Reading a filter: a document matches it when it satisfies every key. *)
Lemma doc_matches_spec (rx : string -> string -> bool) (q : query) (d : doc) :
  doc_matches rx q d = true <->
  (forall k e, q !! k = Some e -> qexpr_match rx k e d = true).
Proof.
  unfold doc_matches. rewrite forallb_forall. split.
  - intros H k e Hk. apply (H (k, e)).
    apply list_elem_of_In, elem_of_map_to_list. exact Hk.
  - intros H [k e] Hin. apply H.
    apply elem_of_map_to_list, list_elem_of_In. exact Hin.
Qed.

Lemma doc_matches_single (rx : string -> string -> bool) (k : string) (e : qexpr) (d : doc) :
  doc_matches rx (<[k := e]> ∅) d = qexpr_match rx k e d.
Proof.
  unfold doc_matches. change (<[k := e]> (∅ : query)) with ({[k := e]} : query).
  rewrite map_to_list_singleton. simpl. apply andb_true_r.
Qed.

Lemma count_admins (rx : string -> string -> bool) (db : datastore) :
  ds_up db = true ->
  count_documents rx db (ds_users db) (<["role" := QEq (JStr "admin")]> ∅)
  = DbOk (Z.of_nat (admin_count (ds_users db))).
Proof.
  intros Hup. unfold count_documents, admin_count. rewrite Hup. simpl.
  do 3 f_equal. apply List.filter_ext. intros d. apply doc_matches_single.
Qed.

(** C3 (as stated): an admin who is the only admin-role record and asks to
    delete their own account gets the last-admin refusal, not the
    own-account one. *)
Lemma delete_self_as_sole_admin_reports_last_admin :
  fst (employee_delete demo_runtime demo_store
         (Some (principal_of (user_projection demo_account)))
         (JStr demo_uid) demo_master_body)
  = error_response 400 "Cannot delete the last admin user".
Proof. vm_compute. reflexivity. Qed.

(** C3 (amended): for a caller passing [requireNewPermission('delete_users')]
    with the right master code, and a target that is a stored
    employee-role record, the deletion fails with 400 and leaves the store
    unchanged when the target is an admin and at most one admin-role record
    exists ("Cannot delete the last admin user"), and when the target is
    the caller's own account and is not such a last admin ("Cannot delete
    your own account"). *)
Theorem delete_refuses_last_admin_and_self (E : runtime) (db : datastore) (u : principal)
    (id : jsval) (body : doc) (target : doc)
    (Hperm : requireNewPermission "delete_users" (Some u) = MwNext)
    (Hcode : js_strict_eq (field body "masterCode") (rt_master_code E) = true)
    (Hfind : find_by_id db (ds_users db) id = DbOk (Some target))
    (Hemp : is_employee_role (field target "role") = true)
    (Hup : ds_up db = true) :
  (field target "role" = JStr "admin" -> (admin_count (ds_users db) <= 1)%nat ->
   employee_delete E db (Some u) id body
   = (error_response 400 "Cannot delete the last admin user", db)) /\
  (id_string (p_id u) <> None ->
   id_string (field target "_id") = id_string (p_id u) ->
   (field target "role" = JStr "admin" -> (1 < admin_count (ds_users db))%nat) ->
   employee_delete E db (Some u) id body
   = (error_response 400 "Cannot delete your own account", db)).
Proof.
  unfold employee_delete. rewrite Hperm, Hcode, Hfind, Hemp. simpl.
  rewrite js_strict_eq_str, (count_admins _ _ Hup).
  split.
  - intros Hrole Hcount. rewrite bool_decide_eq_true_2 by exact Hrole.
    replace (Z.of_nat (admin_count (ds_users db)) <=? 1) with true by (symmetry; apply Z.leb_le; lia).
    reflexivity.
  - intros Hsome Hsame Hmore.
    assert (Hself : match id_string (field target "_id"), id_string (p_id u) with
                    | Some a, Some b =>
                        if String.eqb a b
                        then (error_response 400 "Cannot delete your own account", db)
                        else if negb (ds_up db)
                        then (with_error 500 "Failed to delete employee" "connection error", db)
                        else (mk_response 200 [("success", RV (JBool true));
                                ("message", RV (JStr "Employee deleted successfully"))],
                              with_users db (List.filter (fun d => negb (has_id a d)) (ds_users db)))
                    | _, _ => (with_error 500 "Failed to delete employee" "TypeError", db)
                    end = (error_response 400 "Cannot delete your own account", db)).
    { rewrite Hsame. destruct (id_string (p_id u)) as [b|]; [|congruence].
      rewrite String.eqb_refl. reflexivity. }
    destruct (bool_decide (field target "role" = JStr "admin")) eqn:Hadm.
    + apply bool_decide_eq_true_1 in Hadm. specialize (Hmore Hadm).
      replace (Z.of_nat (admin_count (ds_users db)) <=? 1) with false
        by (symmetry; apply Z.leb_gt; lia).
      exact Hself.
    + exact Hself.
Qed.

Lemma delete_refuses_last_admin_and_self_witness :
  employee_delete demo_runtime demo_store (Some (principal_of (user_projection demo_account)))
    (JStr demo_uid) demo_master_body
  = (error_response 400 "Cannot delete the last admin user", demo_store).
Proof.
  refine (proj1 (delete_refuses_last_admin_and_self demo_runtime demo_store
            (principal_of (user_projection demo_account)) (JStr demo_uid) demo_master_body
            demo_account _ _ _ _ _) _ _);
    vm_compute; first [reflexivity | lia].
Defined.

Lemma field_insert_ne (d : doc) (k k' : string) (v : jsval) :
  k <> k' -> field (<[k := v]> d) k' = field d k'.
Proof. intros H. unfold field. rewrite lookup_insert_ne; auto. Qed.

(** C4: with the body [{status: "cancelled"}], PUT /api/events/:id writes
    back the stored event with [status] set and the [updatedAt] timestamp
    refreshed, and nothing else: the [updatedBy] path the handler adds to
    its update is not declared by [eventSchema] and is dropped by the
    strict cast, so the persisted [updatedBy] stays what it was (absent
    on events the API creates) instead of becoming the caller's id. *)
Theorem event_cancel_update_drops_updatedBy (E : runtime) (db : datastore) (u : principal)
    (id : jsval) (event : doc) (s : string)
    (Hemp : requireEmployee (Some u) = MwNext)
    (Hfind : find_by_id db (ds_events db) id = DbOk (Some event))
    (Hid : id_string (field event "_id") = Some s) :
  let updated := <["updatedAt" := JDate (rt_now E)]> (<["status" := JStr "cancelled"]> event) in
  event_update E db (Some u) id cancel_body
  = (mk_response 200 [("success", RV (JBool true));
                      ("message", RV (JStr "Event updated successfully"));
                      ("data", RDoc updated)],
     with_events db (map (fun e => if has_id s e then updated else e) (ds_events db))) /\
  field updated "status" = JStr "cancelled" /\
  Forall (fun f => field updated f = field event f) event_other_fields /\
  field updated "updatedBy" = field event "updatedBy".
Proof.
  intros updated.
  assert (Hdata : event_update_data E u cancel_body
                  = Some (<["updatedBy" := p_id u]> (<["status" := JStr "cancelled"]> ∅)))
    by reflexivity.
  assert (Hcast : event_cast_update (<["updatedBy" := p_id u]> (<["status" := JStr "cancelled"]> ∅))
                  = <["status" := JStr "cancelled"]> ∅)
    by (vm_compute; reflexivity).
  assert (Hunion : union (<["status" := JStr "cancelled"]> (∅ : doc)) event
                   = <["status" := JStr "cancelled"]> event)
    by (rewrite insert_empty; symmetry; apply insert_union_singleton_l).
  split; [|split; [|split]].
  - unfold event_update. rewrite Hemp, Hfind, Hdata, Hcast.
    change (omap (fun kv : string * jsval => event_validate_path E kv.1 kv.2)
              (map_to_list (<["status" := JStr "cancelled"]> (∅ : doc)))) with (@nil string).
    rewrite Hunion, Hid. reflexivity.
  - unfold updated, field. rewrite lookup_insert_ne by discriminate.
    rewrite lookup_insert_eq. reflexivity.
  - unfold updated. repeat constructor;
      rewrite field_insert_ne by discriminate; apply field_insert_ne; discriminate.
  - unfold updated. rewrite field_insert_ne by discriminate. apply field_insert_ne. discriminate.
Qed.

Lemma event_cancel_update_drops_updatedBy_witness :
  p_id (principal_of (user_projection demo_account)) = JOid demo_uid /\
  field (<["updatedAt" := JDate (rt_now demo_runtime)]>
           (<["status" := JStr "cancelled"]> demo_event)) "updatedBy" = JUndef.
Proof.
  split; [reflexivity|].
  destruct (event_cancel_update_drops_updatedBy demo_runtime demo_event_store
              (principal_of (user_projection demo_account)) (JStr demo_event_id) demo_event
              demo_event_id) as (_ & _ & _ & H);
    [vm_compute; reflexivity .. |].
  rewrite H. vm_compute. reflexivity.
Defined.

(* ------------------------------------------------------------------ *)
(** ** Listing: what [find] returns *)

Lemma in_insert_doc (keys : list (string * Z)) (x d : doc) (l : list doc) :
  In d (insert_doc keys x l) <-> x = d \/ In d l.
Proof.
  induction l as [|y l IH]; simpl; [tauto|].
  destruct (doc_cmp keys x y); simpl; rewrite ?IH; tauto.
Qed.

Lemma in_sort_docs (keys : list (string * Z)) (d : doc) (l : list doc) :
  In d (sort_docs keys l) <-> In d l.
Proof.
  induction l as [|x l IH]; simpl; [tauto|].
  rewrite in_insert_doc, IH. tauto.
Qed.

Lemma in_drop {A} (n : nat) (x : A) (l : list A) : In x (drop n l) -> In x l.
Proof.
  revert n; induction l as [|y l IH]; intros [|n]; simpl; auto.
  intros H; right; exact (IH n H).
Qed.

Lemma in_take {A} (n : nat) (x : A) (l : list A) : In x (take n l) -> In x l.
Proof.
  revert n; induction l as [|y l IH]; intros [|n]; simpl; auto; [tauto|].
  intros [H|H]; [left; exact H | right; exact (IH n H)].
Qed.

(** Every document [find] returns is stored and matches the filter. *)
Lemma run_find_in (rx : string -> string -> bool) (db : datastore) (coll : list doc)
    (q : query) (keys : list (string * Z)) (skip limit : Z) (ds : list doc) (d : doc) :
  run_find rx db coll q keys skip limit = DbOk ds -> In d ds ->
  In d coll /\ doc_matches rx q d = true.
Proof.
  unfold run_find. destruct (negb (ds_up db)); [discriminate|].
  destruct (skip <? 0); [discriminate|].
  intros [= <-] Hin. apply List.filter_In.
  apply (in_sort_docs keys). apply (in_drop (Z.to_nat skip)).
  destruct (limit =? 0); [exact Hin | exact (in_take _ _ _ Hin)].
Qed.

Lemma match_key (rx : string -> string -> bool) (q : query) (k : string) (e : qexpr) (d : doc) :
  doc_matches rx q d = true -> q !! k = Some e -> qexpr_match rx k e d = true.
Proof. intros Hm Hk. apply (proj1 (doc_matches_spec rx q d) Hm k e Hk). Qed.

Lemma field_project (keep : list string) (d : doc) (k : string) :
  k ∈ keep -> field (project keep d) k = field d k.
Proof.
  intros Hk. unfold field, project. destruct (d !! k) as [v|] eqn:Hd.
  - rewrite (proj2 (map_lookup_filter_Some _ _ _ _) (conj Hd Hk)). reflexivity.
  - rewrite (proj2 (map_lookup_filter_None _ _ _)); [reflexivity|]. left; exact Hd.
Qed.

Ltac lookup_inserts :=
  repeat (rewrite lookup_insert_ne by discriminate); apply lookup_insert_eq.

Lemma status_in_not_closed (rx : string -> string -> bool) (d : doc) :
  qexpr_match rx "status" (QOps [OpIn [JStr "upcoming"; JStr "ongoing"]]) d = true ->
  field d "status" <> JStr "cancelled" /\ field d "status" <> JStr "completed".
Proof. intros H; split; intros Hc; unfold qexpr_match in H; rewrite Hc in H; discriminate. Qed.

Lemma public_events_query_status (E : runtime) (rq : doc) :
  public_events_query E rq !! "status" = Some (QOps [OpIn [JStr "upcoming"; JStr "ongoing"]]).
Proof.
  unfold public_events_query; cbv zeta.
  destruct (js_truthy (field rq "search")), (js_truthy (field rq "type") && negb (js_strict_eq (field rq "type") (JStr "all"))),
    (js_truthy (field rq "dateRange")), (js_strict_eq (field rq "dateRange") (JStr "next7days")),
    (js_strict_eq (field rq "dateRange") (JStr "thisMonth")), (js_strict_eq (field rq "dateRange") (JStr "nextMonth"));
    lookup_inserts.
Qed.

Lemma public_events_query_date (E : runtime) (rq : doc) :
  js_truthy (field rq "dateRange") = false ->
  public_events_query E rq !! "date" = Some (QOps [OpGte (JDate (rt_now E))]).
Proof.
  intros Hdr. unfold public_events_query; cbv zeta. rewrite Hdr.
  destruct (js_truthy (field rq "search")), (js_truthy (field rq "type") && negb (js_strict_eq (field rq "type") (JStr "all"))); lookup_inserts.
Qed.

Lemma public_events_query_lite_status (rq : doc) (q : query) :
  public_events_query_lite rq = Some q ->
  q !! "status" = Some (QOps [OpIn [JStr "upcoming"; JStr "ongoing"]]).
Proof.
  unfold public_events_query_lite.
  destruct (field rq "search"); try (destruct (js_truthy _); [discriminate|]);
    try (destruct (js_truthy _ && js_truthy _));
    intros [= <-]; lookup_inserts.
Qed.

Lemma gte_date (rx : string -> string -> bool) (d : doc) (now : Z) :
  qexpr_match rx "date" (QOps [OpGte (JDate now)]) d = true ->
  exists t, field d "date" = JDate t /\ now <= t.
Proof.
  unfold qexpr_match, ops_match; simpl.
  destruct (field d "date"); simpl; try discriminate.
  intros H. exists t. split; [reflexivity|].
  destruct (Z.compare_spec t now); try discriminate; lia.
Qed.

(** C5 (corrected): the public event listing of routes/publicEventRoutes.js,
    with no [dateRange] parameter, returns only stored events dated at or
    after the request time whose status is neither cancelled nor completed;
    the free-tier version of the same endpoint keeps the status filter
    (and returns the status path), so no cancelled or completed event is
    listed there either, but it has no date filter. *)
Theorem public_events_default_window (E : runtime) (db : datastore) (rq : doc)
    (response_time : string)
    (Hdr : js_truthy (field rq "dateRange") = false) :
  (forall d, In d (response_docs (public_events_list E db rq)) ->
     In d (ds_events db) /\
     (exists t, field d "date" = JDate t /\ rt_now E <= t) /\
     field d "status" <> JStr "cancelled" /\ field d "status" <> JStr "completed") /\
  (forall d, In d (response_docs (public_events_list_lite E db rq response_time)) ->
     field d "status" <> JStr "cancelled" /\ field d "status" <> JStr "completed").
Proof.
  split.
  - intros d. unfold public_events_list.
    destruct (page_window rq 6) as [[page limit] startIndex].
    destruct (run_find _ _ _ _ _ _ _) as [events|] eqn:Hf; [|simpl; tauto].
    destruct (count_documents _ _ _ _) as [total|]; [|simpl; tauto].
    unfold response_docs, body_field; simpl. intros Hin.
    destruct (run_find_in _ _ _ _ _ _ _ _ _ Hf Hin) as [Hs Hm].
    split; [exact Hs|]. split.
    + exact (gte_date _ _ _ (match_key _ _ _ _ _ Hm (public_events_query_date E rq Hdr))).
    + exact (status_in_not_closed _ _ (match_key _ _ _ _ _ Hm (public_events_query_status E rq))).
  - intros d. unfold public_events_list_lite.
    destruct (public_events_query_lite rq) as [q|] eqn:Hq; [|simpl; tauto].
    destruct (run_find _ _ _ _ _ _ _) as [events0|] eqn:Hf; [|simpl; tauto].
    unfold response_docs, body_field; simpl. intros Hin.
    apply in_map_iff in Hin as [d0 [<- Hin]].
    destruct (run_find_in _ _ _ _ _ _ _ _ _ Hf Hin) as [_ Hm].
    rewrite field_project by (unfold public_events_fields; set_solver).
    exact (status_in_not_closed _ _ (match_key _ _ _ _ _ Hm (public_events_query_lite_status rq q Hq))).
Qed.

Lemma public_events_default_window_witness :
  js_truthy (field ∅ "dateRange") = false /\
  (forall d, In d (response_docs (public_events_list demo_runtime demo_event_store ∅)) ->
     In d (ds_events demo_event_store) /\
     (exists t, field d "date" = JDate t /\ rt_now demo_runtime <= t) /\
     field d "status" <> JStr "cancelled" /\ field d "status" <> JStr "completed").
Proof.
  split; [reflexivity|].
  exact (proj1 (public_events_default_window demo_runtime demo_event_store ∅ "3ms" eq_refl)).
Defined.

(** C5 counterexample: the free-tier listing, called with no parameter at
    all, returns an event dated before the request time. *)
Lemma public_events_lite_lists_past_event :
  length demo_past_listing = 1%nat /\
  Forall (fun d => field d "date" = JDate 10 /\ field d "status" = JStr "upcoming")
    demo_past_listing /\
  10 < rt_now demo_runtime.
Proof.
  split; [vm_compute; reflexivity|]. split; [|vm_compute; reflexivity].
  assert (Hb : forallb (fun d => bool_decide (field d "date" = JDate 10 /\
                                               field d "status" = JStr "upcoming"))
                 demo_past_listing = true)
    by (vm_compute; reflexivity).
  apply Forall_forall. intros d Hd. apply list_elem_of_In in Hd.
  exact (bool_decide_eq_true_1 _ (proj1 (forallb_forall _ _) Hb d Hd)).
Qed.

(* ------------------------------------------------------------------ *)
(** ** Pagination *)

Lemma parse_or_nonzero (v : jsval) (d : Z) : d <> 0 -> parse_or v d <> 0.
Proof.
  unfold parse_or. destruct (js_parseInt v) as [z|]; [|auto].
  destruct (Z.eqb_spec z 0); auto.
Qed.

(** [Math.ceil(a / b)] for a positive [b]: the least [c] with [a <= c * b]. *)
Lemma js_ceil_div_spec (a b : Z) :
  0 < b -> a <= js_ceil_div a b * b /\ (js_ceil_div a b - 1) * b < a.
Proof.
  intros Hb. unfold js_ceil_div.
  pose proof (Z.div_mod (- a) b ltac:(lia)) as Hd.
  pose proof (Z.mod_pos_bound (- a) b Hb) as Hm.
  set (q := (- a) / b) in *. set (r := (- a) mod b) in *. nia.
Qed.

Lemma practitioners_list_page (E : runtime) (db : datastore) (rq : doc) :
  ds_up db = true ->
  0 <= (parse_or (field rq "page") 1 - 1) * parse_or (field rq "limit") 10 ->
  pagination_shape (practitioners_list E db rq)
    (parse_or (field rq "page") 1) (parse_or (field rq "limit") 10)
    (Z.of_nat (length (practitioner_matches E db rq)))
    (take (Z.to_nat (Z.abs (parse_or (field rq "limit") 10)))
       (drop (Z.to_nat ((parse_or (field rq "page") 1 - 1) * parse_or (field rq "limit") 10))
          (sort_docs [("isFeatured", -1); ("createdAt", -1)] (practitioner_matches E db rq)))).
Proof.
  intros Hup Hskip.
  pose proof (parse_or_nonzero (field rq "limit") 10 ltac:(lia)) as Hl.
  unfold practitioners_list, page_window, run_find, count_documents, practitioner_matches.
  rewrite Hup. simpl negb. cbv iota.
  replace (_ <? 0) with false by lia. replace (_ =? 0) with false by lia.
  split; [reflexivity | split; reflexivity].
Qed.

Lemma public_events_list_page (E : runtime) (db : datastore) (rq : doc) :
  ds_up db = true ->
  0 <= (parse_or (field rq "page") 1 - 1) * parse_or (field rq "limit") 6 ->
  pagination_shape (public_events_list E db rq)
    (parse_or (field rq "page") 1) (parse_or (field rq "limit") 6)
    (Z.of_nat (length (public_event_matches E db rq)))
    (take (Z.to_nat (Z.abs (parse_or (field rq "limit") 6)))
       (drop (Z.to_nat ((parse_or (field rq "page") 1 - 1) * parse_or (field rq "limit") 6))
          (sort_docs [("isFeatured", -1); ("date", 1)] (public_event_matches E db rq)))).
Proof.
  intros Hup Hskip.
  pose proof (parse_or_nonzero (field rq "limit") 6 ltac:(lia)) as Hl.
  unfold public_events_list, page_window, run_find, count_documents, public_event_matches.
  rewrite Hup. simpl negb. cbv iota.
  replace (_ <? 0) with false by lia. replace (_ =? 0) with false by lia.
  split; [reflexivity | split; reflexivity].
Qed.

(** C6: in both paginated listings (GET /api/practitioners and
    GET /api/public/events), an absent [page] is 1, the query skips
    [(page - 1) * limit] documents of the sorted matches and returns at
    most [limit] of them, and the response reports the number of matches
    as [total] and [Math.ceil(total / limit)] as [pages], the least page
    count covering [total] when [limit] is positive.  With [page=2],
    [limit=10] and 25 matches: skip 10, [pages] 3, [total] 25 and at most
    10 documents. *)
Theorem listing_pagination (E : runtime) (db : datastore) (Hup : ds_up db = true) :
  (forall rq, field rq "page" = JUndef -> parse_or (field rq "page") 1 = 1) /\
  (forall a b, 0 < b -> a <= js_ceil_div a b * b /\ (js_ceil_div a b - 1) * b < a) /\
  (forall rq,
     let page := parse_or (field rq "page") 1 in
     let limit := parse_or (field rq "limit") 10 in
     0 <= (page - 1) * limit ->
     page_window rq 10 = (page, limit, (page - 1) * limit) /\
     pagination_shape (practitioners_list E db rq) page limit
       (Z.of_nat (length (practitioner_matches E db rq)))
       (take (Z.to_nat (Z.abs limit)) (drop (Z.to_nat ((page - 1) * limit))
          (sort_docs [("isFeatured", -1); ("createdAt", -1)] (practitioner_matches E db rq))))) /\
  (forall rq,
     let page := parse_or (field rq "page") 1 in
     let limit := parse_or (field rq "limit") 6 in
     0 <= (page - 1) * limit ->
     page_window rq 6 = (page, limit, (page - 1) * limit) /\
     pagination_shape (public_events_list E db rq) page limit
       (Z.of_nat (length (public_event_matches E db rq)))
       (take (Z.to_nat (Z.abs limit)) (drop (Z.to_nat ((page - 1) * limit))
          (sort_docs [("isFeatured", -1); ("date", 1)] (public_event_matches E db rq))))) /\
  (forall rq, field rq "page" = JStr "2" -> field rq "limit" = JStr "10" ->
     length (practitioner_matches E db rq) = 25%nat ->
     page_window rq 10 = (2, 10, 10) /\
     pagination_shape (practitioners_list E db rq) 2 10 25
       (take 10 (drop 10 (sort_docs [("isFeatured", -1); ("createdAt", -1)]
                                     (practitioner_matches E db rq)))) /\
     js_ceil_div 25 10 = 3 /\
     (length (response_docs (practitioners_list E db rq)) <= 10)%nat) /\
  (forall rq, field rq "page" = JStr "2" -> field rq "limit" = JStr "10" ->
     length (public_event_matches E db rq) = 25%nat ->
     page_window rq 6 = (2, 10, 10) /\
     pagination_shape (public_events_list E db rq) 2 10 25
       (take 10 (drop 10 (sort_docs [("isFeatured", -1); ("date", 1)]
                                     (public_event_matches E db rq)))) /\
     js_ceil_div 25 10 = 3 /\
     (length (response_docs (public_events_list E db rq)) <= 10)%nat).
Proof.
  split; [intros rq H; rewrite H; reflexivity|].
  split; [exact js_ceil_div_spec|].
  split; [intros rq page limit Hs; split; [reflexivity | exact (practitioners_list_page E db rq Hup Hs)]|].
  split; [intros rq page limit Hs; split; [reflexivity | exact (public_events_list_page E db rq Hup Hs)]|].
  split.
  - intros rq Hp Hl H25.
    assert (Hpo : parse_or (field rq "page") 1 = 2) by (rewrite Hp; reflexivity).
    assert (Hlo : parse_or (field rq "limit") 10 = 10) by (rewrite Hl; reflexivity).
    pose proof (practitioners_list_page E db rq Hup) as H.
    rewrite Hpo, Hlo, H25 in H. specialize (H ltac:(lia)).
    split; [unfold page_window; rewrite Hpo, Hlo; reflexivity|].
    split; [exact H|]. split; [reflexivity|].
    destruct H as (_ & _ & ->). apply firstn_le_length.
  - intros rq Hp Hl H25.
    assert (Hpo : parse_or (field rq "page") 1 = 2) by (rewrite Hp; reflexivity).
    assert (Hlo : parse_or (field rq "limit") 6 = 10) by (rewrite Hl; reflexivity).
    pose proof (public_events_list_page E db rq Hup) as H.
    rewrite Hpo, Hlo, H25 in H. specialize (H ltac:(lia)).
    split; [unfold page_window; rewrite Hpo, Hlo; reflexivity|].
    split; [exact H|]. split; [reflexivity|].
    destruct H as (_ & _ & ->). apply firstn_le_length.
Qed.

Lemma listing_pagination_witness :
  body_field (practitioners_list demo_runtime demo_store_25 page2_request) "pagination"
    = Some (RObj [("total", JNum 25); ("page", JNum 2); ("pages", JNum 3)]) /\
  body_field (public_events_list demo_runtime demo_store_25 page2_request) "pagination"
    = Some (RObj [("total", JNum 25); ("page", JNum 2); ("pages", JNum 3)]) /\
  (length (response_docs (practitioners_list demo_runtime demo_store_25 page2_request)) <= 10)%nat.
Proof.
  destruct (listing_pagination demo_runtime demo_store_25 eq_refl) as (_ & _ & _ & _ & Hp & He).
  destruct (Hp page2_request eq_refl eq_refl ltac:(vm_compute; reflexivity))
    as (_ & (_ & Hpp & _) & _ & Hlen).
  destruct (He page2_request eq_refl eq_refl ltac:(vm_compute; reflexivity))
    as (_ & (_ & Hpe & _) & _ & _).
  split; [exact Hpp | split; [exact Hpe | exact Hlen]].
Defined.

(* ------------------------------------------------------------------ *)
(** ** Text search *)

Lemma lookup_cond_insert_ne (b : bool) (k j : string) (v : qexpr) (q : query) :
  k <> j -> (if b then <[k := v]> q else q) !! j = q !! j.
Proof. intros H. destruct b; [apply lookup_insert_ne; exact H | reflexivity]. Qed.

(** A document matching the [$or] of a search has, in one of the searched
    fields, a string (the field itself, or an element of it when it is an
    array) the regular expression matches. *)
Lemma search_or_match (rx : string -> string -> bool) (fields : list string) (p : string)
    (d : doc) :
  qexpr_match rx "$or" (search_or fields p) d = true ->
  exists f s, In f fields /\
    (field d f = JStr s \/ exists l, field d f = JStrs l /\ In s l) /\ rx p s = true.
Proof.
  unfold qexpr_match, search_or. intros H.
  apply existsb_exists in H as [fo [Hin Hm]].
  apply in_map_iff in Hin as [f [<- Hf]]. simpl in Hm.
  unfold ops_match in Hm; simpl in Hm. rewrite andb_true_r in Hm.
  exists f. destruct (field d f) eqn:Hv; simpl in Hm; try discriminate.
  - exists s. split; [exact Hf|]. split; [left; reflexivity | exact Hm].
  - apply existsb_exists in Hm as [s [Hs Hrx]].
    exists s. split; [exact Hf|]. split; [right; exists l; auto | exact Hrx].
Qed.

Lemma practitioners_query_or (rq : doc) (p : string) :
  field rq "search" = JStr p -> js_truthy (JStr p) = true ->
  practitioners_query rq !! "$or" = Some (search_or ["name"; "specialty"; "bio"] p).
Proof.
  intros Hs Ht. unfold practitioners_query; cbv zeta.
  rewrite !lookup_cond_insert_ne by discriminate.
  rewrite Hs, Ht. apply lookup_insert_eq.
Qed.

Lemma public_practitioners_query_or (rq : doc) (p : string) :
  field rq "search" = JStr p -> js_truthy (JStr p) = true ->
  public_practitioners_query rq !! "$or" = Some (search_or ["name"; "specialty"; "bio"] p).
Proof.
  intros Hs Ht. unfold public_practitioners_query; cbv zeta.
  rewrite !lookup_cond_insert_ne by discriminate.
  rewrite Hs, Ht. apply lookup_insert_eq.
Qed.

(** C7: with [search=yoga], and a regular-expression engine that reads a
    pattern without metacharacters as a literal matched case-insensitively,
    every practitioner both listings return (GET /api/practitioners and
    GET /api/public/practitioners) is stored and contains "yoga", ignoring
    case, in its name, specialty or bio. *)
Theorem search_yoga_only_matching (E : runtime) (db : datastore) (rq : doc)
    (Hrx : forall p s, regex_literal p = true -> rt_regex_i E p s = contains_ci p s)
    (Hsearch : field rq "search" = JStr "yoga") :
  (forall d, In d (response_docs (practitioners_list E db rq)) ->
     In d (ds_practitioners db) /\
     exists f s, In f ["name"; "specialty"; "bio"] /\
       (field d f = JStr s \/ exists l, field d f = JStrs l /\ In s l) /\
       contains_ci "yoga" s = true) /\
  (forall d, In d (response_docs (public_practitioners_list E db rq)) ->
     In d (ds_practitioners db) /\
     exists f s, In f ["name"; "specialty"; "bio"] /\
       (field d f = JStr s \/ exists l, field d f = JStrs l /\ In s l) /\
       contains_ci "yoga" s = true).
Proof.
  assert (Hlit : regex_literal "yoga" = true) by reflexivity.
  split.
  - intros d. unfold practitioners_list.
    destruct (page_window rq 10) as [[page limit] startIndex].
    destruct (run_find _ _ _ _ _ _ _) as [ds|] eqn:Hf; [|simpl; tauto].
    destruct (count_documents _ _ _ _); [|simpl; tauto].
    unfold response_docs, body_field; simpl. intros Hin.
    destruct (run_find_in _ _ _ _ _ _ _ _ _ Hf Hin) as [Hs Hm].
    split; [exact Hs|].
    destruct (search_or_match _ _ _ _
                (match_key _ _ _ _ _ Hm (practitioners_query_or rq "yoga" Hsearch eq_refl)))
      as (f & s & Hf' & Hv & Hr).
    exists f, s. rewrite <- (Hrx "yoga" s Hlit). auto.
  - intros d. unfold public_practitioners_list.
    destruct (page_window rq 12) as [[page limit] startIndex].
    destruct (run_find _ _ _ _ _ _ _) as [ds|] eqn:Hf; [|simpl; tauto].
    destruct (count_documents _ _ _ _); [|simpl; tauto].
    unfold response_docs, body_field; simpl. intros Hin.
    destruct (run_find_in _ _ _ _ _ _ _ _ _ Hf Hin) as [Hs Hm].
    split; [exact Hs|].
    destruct (search_or_match _ _ _ _
                (match_key _ _ _ _ _ Hm (public_practitioners_query_or rq "yoga" Hsearch eq_refl)))
      as (f & s & Hf' & Hv & Hr).
    exists f, s. rewrite <- (Hrx "yoga" s Hlit). auto.
Qed.

Lemma search_yoga_only_matching_witness :
  length (response_docs (practitioners_list demo_runtime demo_store_25 yoga_request)) = 10%nat /\
  (forall d, In d (response_docs (practitioners_list demo_runtime demo_store_25 yoga_request)) ->
     In d (ds_practitioners demo_store_25) /\
     exists f s, In f ["name"; "specialty"; "bio"] /\
       (field d f = JStr s \/ exists l, field d f = JStrs l /\ In s l) /\
       contains_ci "yoga" s = true).
Proof.
  split; [vm_compute; reflexivity|].
  exact (proj1 (search_yoga_only_matching demo_runtime demo_store_25 yoga_request
                  (fun p s _ => eq_refl) eq_refl)).
Defined.

(* ------------------------------------------------------------------ *)
(** ** Upload routes *)

Lemma upload_handlers_bad_filename (cwd : string) (fs : filesystem) (req : upload_request) :
  bad_filename (upload_filename req) = true ->
  match req with
  | UpDelete f => upload_delete cwd fs f
  | UpInfo f => upload_info cwd fs f
  end = (error_response 400 "Invalid filename", [], fs).
Proof.
  destruct req as [f|f]; simpl; intros H; unfold upload_delete, upload_info; rewrite H; reflexivity.
Qed.

(** C9 counterexample: a signed-in staff member asking to delete
    ["../../etc/passwd"] is refused with 403 by the role check, which runs
    before the handler's file-name check. *)
Lemma upload_traversal_by_staff_is_403 :
  bad_filename traversal_name = true /\
  upload_route demo_runtime demo_staff_store "/srv/app" demo_upload_fs (JStr "Bearer tok")
    (UpDelete traversal_name)
  = (error_response 403 "User role staff is not authorized to access this route", [],
     demo_upload_fs).
Proof. split; vm_compute; reflexivity. Qed.

(** C9 (corrected): a DELETE or GET /api/upload/:filename whose file name
    contains [..], [/] or a backslash makes no file-system call and leaves
    the files as they are.  Its answer is the one of the authentication
    (401) or of the admin role check (403) when these refuse the caller,
    and 400 "Invalid filename" otherwise, in particular for every
    authenticated admin. *)
Theorem upload_bad_filename_no_fs_access (E : runtime) (db : datastore) (cwd : string)
    (fs : filesystem) (authorization : jsval) (req : upload_request)
    (Hbad : bad_filename (upload_filename req) = true) :
  let res := upload_route E db cwd fs authorization req in
  snd (fst res) = [] /\ snd res = fs /\
  fst (fst res) = match authenticateToken E db authorization with
                  | AuthReject st m => error_response st m
                  | AuthNext u =>
                      match authorize ["admin"] (Some u) with
                      | MwNext => error_response 400 "Invalid filename"
                      | o => mw_response o
                      end
                  end /\
  (forall u, authenticateToken E db authorization = AuthNext u ->
     p_role u = JStr "admin" -> fst (fst res) = error_response 400 "Invalid filename").
Proof.
  intros res. unfold res, upload_route.
  destruct (authenticateToken E db authorization) as [u|st m] eqn:Ha.
  - assert (Hh := upload_handlers_bad_filename cwd fs req Hbad).
    destruct (authorize ["admin"] (Some u)) eqn:Hz.
    + rewrite Hh. split; [reflexivity | split; [reflexivity | split; [reflexivity|]]].
      intros u' Hu _. reflexivity.
    + split; [reflexivity | split; [reflexivity | split; [reflexivity|]]].
      intros u' [= <-] Hr. unfold authorize in Hz. rewrite Hr in Hz. discriminate.
    + split; [reflexivity | split; [reflexivity | split; [reflexivity|]]].
      intros u' [= <-] Hr. unfold authorize in Hz. rewrite Hr in Hz. discriminate.
  - split; [reflexivity | split; [reflexivity | split; [reflexivity|]]].
    intros u' Hu. discriminate.
Qed.

Lemma upload_bad_filename_no_fs_access_witness :
  fst (fst (upload_route demo_runtime demo_store "/srv/app" demo_upload_fs (JStr "Bearer tok")
              (UpInfo traversal_name)))
  = error_response 400 "Invalid filename" /\
  snd (upload_route demo_runtime demo_store "/srv/app" demo_upload_fs (JStr "Bearer tok")
         (UpInfo traversal_name)) = demo_upload_fs.
Proof.
  destruct (upload_bad_filename_no_fs_access demo_runtime demo_store "/srv/app" demo_upload_fs
              (JStr "Bearer tok") (UpInfo traversal_name) ltac:(vm_compute; reflexivity))
    as (_ & Hfs & _ & Hadm).
  split; [|exact Hfs].
  apply (Hadm (principal_of (user_projection demo_account))); vm_compute; reflexivity.
Defined.

(* ------------------------------------------------------------------ *)
(** ** Responses do not depend on stored passwords *)

Lemma sbp_field (d1 d2 : doc) (k : string) :
  same_but_password d1 d2 -> k <> "password" -> field d1 k = field d2 k.
Proof.
  intros H Hk. rewrite <- (field_user_projection d1 k Hk), <- (field_user_projection d2 k Hk).
  unfold same_but_password in H. rewrite H. reflexivity.
Qed.

Lemma sbp_lookup (d1 d2 : doc) (k : string) :
  same_but_password d1 d2 -> k <> "password" -> d1 !! k = d2 !! k.
Proof.
  intros H Hk. unfold same_but_password, user_projection in H.
  rewrite <- (lookup_delete_ne d1 "password" k), <- (lookup_delete_ne d2 "password" k)
    by congruence.
  rewrite H. reflexivity.
Qed.

Lemma has_id_sbp (s : string) (d1 d2 : doc) :
  same_but_password d1 d2 -> has_id s d1 = has_id s d2.
Proof. intros H. unfold has_id. rewrite (sbp_lookup d1 d2 "_id" H) by discriminate. reflexivity. Qed.

Lemma existsb_ext_in {A} (f g : A -> bool) (l : list A) :
  (forall x, In x l -> f x = g x) -> existsb f l = existsb g l.
Proof.
  induction l as [|x l IH]; simpl; intros H; [reflexivity|].
  rewrite (H x (or_introl eq_refl)), IH; [reflexivity|]. intros y Hy. apply H. right. exact Hy.
Qed.

Lemma forallb_ext_in {A} (f g : A -> bool) (l : list A) :
  (forall x, In x l -> f x = g x) -> forallb f l = forallb g l.
Proof.
  induction l as [|x l IH]; simpl; intros H; [reflexivity|].
  rewrite (H x (or_introl eq_refl)), IH; [reflexivity|]. intros y Hy. apply H. right. exact Hy.
Qed.

Lemma qexpr_match_ext (rx : string -> string -> bool) (k : string) (e : qexpr) (d1 d2 : doc) :
  (forall f, In f (qexpr_fields k e) -> field d1 f = field d2 f) ->
  qexpr_match rx k e d1 = qexpr_match rx k e d2.
Proof.
  destruct e as [v|ops|alts]; simpl; intros H.
  - rewrite (H k (or_introl eq_refl)). reflexivity.
  - rewrite (H k (or_introl eq_refl)). reflexivity.
  - apply existsb_ext_in. intros [f ops] Hin. simpl.
    rewrite (H f); [reflexivity|]. apply in_map_iff. exists (f, ops). auto.
Qed.

Lemma doc_matches_sbp (rx : string -> string -> bool) (q : query) (d1 d2 : doc) :
  avoids_password q -> same_but_password d1 d2 ->
  doc_matches rx q d1 = doc_matches rx q d2.
Proof.
  intros Hq Hd. unfold doc_matches. apply forallb_ext_in. intros [k e] Hin.
  apply list_elem_of_In, elem_of_map_to_list in Hin.
  apply qexpr_match_ext. intros f Hf. apply sbp_field; [exact Hd|].
  intros ->. exact (Hq k e Hin Hf).
Qed.

Lemma doc_cmp_sbp (keys : list (string * Z)) (a1 a2 b1 b2 : doc) :
  ~ In "password" (map fst keys) -> same_but_password a1 a2 -> same_but_password b1 b2 ->
  doc_cmp keys a1 b1 = doc_cmp keys a2 b2.
Proof.
  intros Hk Ha Hb. induction keys as [|[k dir] ks IH]; simpl; [reflexivity|].
  simpl in Hk.
  rewrite (sbp_field a1 a2 k Ha), (sbp_field b1 b2 k Hb) by (intros ->; tauto).
  rewrite IH by tauto. reflexivity.
Qed.

Lemma insert_doc_sbp (keys : list (string * Z)) (x1 x2 : doc) (l1 l2 : list doc) :
  ~ In "password" (map fst keys) -> same_but_password x1 x2 ->
  Forall2 same_but_password l1 l2 ->
  Forall2 same_but_password (insert_doc keys x1 l1) (insert_doc keys x2 l2).
Proof.
  intros Hk Hx Hl. induction Hl as [|y1 y2 l1 l2 Hy Hl IH]; simpl.
  - constructor; [exact Hx | constructor].
  - rewrite (doc_cmp_sbp keys x1 x2 y1 y2 Hk Hx Hy).
    destruct (doc_cmp keys x2 y2); repeat constructor; auto.
Qed.

Lemma sort_docs_sbp (keys : list (string * Z)) (l1 l2 : list doc) :
  ~ In "password" (map fst keys) -> Forall2 same_but_password l1 l2 ->
  Forall2 same_but_password (sort_docs keys l1) (sort_docs keys l2).
Proof.
  intros Hk Hl. induction Hl as [|x1 x2 l1 l2 Hx Hl IH]; simpl; [constructor|].
  apply insert_doc_sbp; auto.
Qed.

Lemma filter_sbp (f : doc -> bool) (l1 l2 : list doc) :
  (forall a b, same_but_password a b -> f a = f b) ->
  Forall2 same_but_password l1 l2 ->
  Forall2 same_but_password (List.filter f l1) (List.filter f l2).
Proof.
  intros Hf Hl. induction Hl as [|x1 x2 l1 l2 Hx Hl IH]; simpl; [constructor|].
  rewrite (Hf x1 x2 Hx). destruct (f x2); auto.
Qed.

Lemma find_sbp (f : doc -> bool) (l1 l2 : list doc) :
  (forall a b, same_but_password a b -> f a = f b) ->
  Forall2 same_but_password l1 l2 ->
  option_Forall2 same_but_password (List.find f l1) (List.find f l2).
Proof.
  intros Hf Hl. induction Hl as [|x1 x2 l1 l2 Hx Hl IH]; simpl; [constructor|].
  rewrite (Hf x1 x2 Hx). destruct (f x2); [constructor; exact Hx | exact IH].
Qed.

Lemma map_projection_sbp (l1 l2 : list doc) :
  Forall2 same_but_password l1 l2 -> map user_projection l1 = map user_projection l2.
Proof. intros Hl. induction Hl as [|x1 x2 l1 l2 Hx Hl IH]; simpl; congruence. Qed.

Lemma set_password_sbp (uid h1 h2 : string) (us : list doc) :
  Forall2 same_but_password (set_password uid h1 us) (set_password uid h2 us).
Proof.
  induction us as [|d us IH]; simpl; constructor; [|exact IH].
  destruct (has_id uid d); [|reflexivity].
  unfold same_but_password, user_projection. rewrite !delete_insert_eq. reflexivity.
Qed.

Lemma run_find_sbp (rx : string -> string -> bool) (db1 db2 : datastore) (us1 us2 : list doc)
    (q : query) (keys : list (string * Z)) (skip limit : Z) :
  ds_up db1 = ds_up db2 -> avoids_password q -> ~ In "password" (map fst keys) ->
  Forall2 same_but_password us1 us2 ->
  db_rel (Forall2 same_but_password)
    (run_find rx db1 us1 q keys skip limit) (run_find rx db2 us2 q keys skip limit).
Proof.
  intros Hup Hq Hk Hus. unfold run_find. rewrite Hup.
  destruct (ds_up db2); simpl; [|reflexivity].
  destruct (skip <? 0); simpl; [reflexivity|].
  assert (Hs : Forall2 same_but_password
                 (drop (Z.to_nat skip) (sort_docs keys (List.filter (doc_matches rx q) us1)))
                 (drop (Z.to_nat skip) (sort_docs keys (List.filter (doc_matches rx q) us2)))).
  { apply Forall2_drop, sort_docs_sbp; [exact Hk|].
    apply filter_sbp; [|exact Hus]. intros a b Hab. apply doc_matches_sbp; assumption. }
  destruct (limit =? 0); [exact Hs | apply Forall2_take; exact Hs].
Qed.

Lemma count_documents_sbp (rx : string -> string -> bool) (db1 db2 : datastore)
    (us1 us2 : list doc) (q : query) :
  ds_up db1 = ds_up db2 -> avoids_password q -> Forall2 same_but_password us1 us2 ->
  count_documents rx db1 us1 q = count_documents rx db2 us2 q.
Proof.
  intros Hup Hq Hus. unfold count_documents. rewrite Hup.
  destruct (ds_up db2); simpl; [|reflexivity].
  erewrite Forall2_length; [reflexivity|].
  apply filter_sbp; [|exact Hus]. intros a b Hab. apply doc_matches_sbp; assumption.
Qed.

Lemma find_by_id_sbp (db1 db2 : datastore) (us1 us2 : list doc) (id : jsval) :
  ds_up db1 = ds_up db2 -> Forall2 same_but_password us1 us2 ->
  db_rel (option_Forall2 same_but_password) (find_by_id db1 us1 id) (find_by_id db2 us2 id).
Proof.
  intros Hup Hus. unfold find_by_id. rewrite Hup.
  destruct (ds_up db2); simpl; [|reflexivity].
  destruct (cast_object_id id) as [[s|]|]; simpl; [|constructor|reflexivity].
  apply find_sbp; [|exact Hus]. intros a b Hab. apply has_id_sbp. exact Hab.
Qed.

Lemma find_one_sbp (rx : string -> string -> bool) (db1 db2 : datastore) (us1 us2 : list doc)
    (q : query) :
  ds_up db1 = ds_up db2 -> avoids_password q -> Forall2 same_but_password us1 us2 ->
  db_rel (option_Forall2 same_but_password) (find_one rx db1 us1 q) (find_one rx db2 us2 q).
Proof.
  intros Hup Hq Hus. unfold find_one. rewrite Hup.
  destruct (ds_up db2); simpl; [|reflexivity].
  apply find_sbp; [|exact Hus]. intros a b Hab. apply doc_matches_sbp; assumption.
Qed.

Lemma avoids_cond_insert (b : bool) (k : string) (e : qexpr) (q : query) :
  ~ In "password" (qexpr_fields k e) -> avoids_password q ->
  avoids_password (if b then <[k := e]> q else q).
Proof. intros He Hq. destruct b; [apply map_Forall_insert_2; assumption | exact Hq]. Qed.

Lemma avoids_single (k : string) (e : qexpr) :
  ~ In "password" (qexpr_fields k e) -> avoids_password (<[k := e]> ∅).
Proof. intros He. apply map_Forall_insert_2; [exact He | apply map_Forall_empty]. Qed.

Lemma employee_list_query_avoids (rq : doc) : avoids_password (employee_list_query rq).
Proof.
  unfold employee_list_query; cbv zeta.
  repeat apply avoids_cond_insert; try apply avoids_single; simpl; intuition discriminate.
Qed.

Lemma authenticateToken_sbp (E : runtime) (db : datastore) (us1 us2 : list doc)
    (authorization : jsval) :
  Forall2 same_but_password us1 us2 ->
  authenticateToken E (with_users db us1) authorization
  = authenticateToken E (with_users db us2) authorization.
Proof.
  intros Hus. unfold authenticateToken.
  destruct (bearer_token authorization) as [token|]; [|reflexivity].
  destruct (negb (js_truthy (JStr token))); [reflexivity|].
  destruct (rt_jwt_verify E token) as [decoded|]; [|reflexivity].
  pose proof (find_by_id_sbp (with_users db us1) (with_users db us2) us1 us2
                (field decoded "id") eq_refl Hus) as H.
  change (ds_users (with_users db us1)) with us1. change (ds_users (with_users db us2)) with us2.
  destruct (find_by_id (with_users db us1) us1 _) as [r1|m1],
           (find_by_id (with_users db us2) us2 _) as [r2|m2]; simpl in H; try contradiction.
  - inversion H as [x1 x2 Hx|]; subst; [|reflexivity].
    unfold same_but_password in Hx. rewrite Hx. reflexivity.
  - subst. reflexivity.
Qed.

Lemma employee_list_sbp (E : runtime) (db : datastore) (us1 us2 : list doc) (rq : doc) :
  Forall2 same_but_password us1 us2 ->
  employee_list E (with_users db us1) rq = employee_list E (with_users db us2) rq.
Proof.
  intros Hus. unfold employee_list; cbv zeta.
  destruct (js_parseInt_auto (with_default (field rq "page") (JNum 1))) as [p|]; [|reflexivity].
  destruct (js_parseInt_auto (with_default (field rq "limit") (JNum 50))) as [l|]; [|reflexivity].
  change (ds_users (with_users db us1)) with us1. change (ds_users (with_users db us2)) with us2.
  pose proof (run_find_sbp (rt_regex_i E) (with_users db us1) (with_users db us2) us1 us2
                (employee_list_query rq) [("createdAt", -1)] ((p - 1) * l) l eq_refl
                (employee_list_query_avoids rq) ltac:(simpl; intuition discriminate) Hus) as H.
  destruct (run_find _ _ us1 _ _ _ _) as [l1|m1], (run_find _ _ us2 _ _ _ _) as [l2|m2];
    simpl in H; try contradiction.
  - rewrite (count_documents_sbp (rt_regex_i E) (with_users db us1) (with_users db us2) us1 us2
               (employee_list_query rq) eq_refl (employee_list_query_avoids rq) Hus).
    destruct (count_documents _ _ us2 _); [|reflexivity].
    rewrite (map_projection_sbp l1 l2 H). reflexivity.
  - subst. reflexivity.
Qed.

Lemma employee_get_sbp (db : datastore) (us1 us2 : list doc) (id : jsval) :
  Forall2 same_but_password us1 us2 ->
  employee_get (with_users db us1) id = employee_get (with_users db us2) id.
Proof.
  intros Hus. unfold employee_get.
  change (ds_users (with_users db us1)) with us1. change (ds_users (with_users db us2)) with us2.
  pose proof (find_by_id_sbp (with_users db us1) (with_users db us2) us1 us2 id eq_refl Hus) as H.
  destruct (find_by_id _ us1 _) as [r1|m1], (find_by_id _ us2 _) as [r2|m2];
    simpl in H; try contradiction.
  - inversion H as [x1 x2 Hx|]; subst; [|reflexivity].
    unfold same_but_password in Hx. rewrite Hx. reflexivity.
  - subst. reflexivity.
Qed.

Lemma employee_create_sbp (E : runtime) (db : datastore) (us1 us2 : list doc) (u : principal)
    (body : doc) (new_id : string) :
  Forall2 same_but_password us1 us2 ->
  fst (employee_create E (with_users db us1) u body new_id)
  = fst (employee_create E (with_users db us2) u body new_id).
Proof.
  intros Hus. unfold employee_create; cbv zeta.
  destruct (negb _); [reflexivity|]. destruct (negb _); [reflexivity|].
  change (ds_users (with_users db us1)) with us1. change (ds_users (with_users db us2)) with us2.
  pose proof (find_one_sbp (rt_regex_i E) (with_users db us1) (with_users db us2) us1 us2
                (<["email" := QEq (field body "email")]> ∅) eq_refl
                (avoids_single "email" (QEq (field body "email")) ltac:(simpl; intuition discriminate)) Hus) as H.
  destruct (find_one _ _ us1 _) as [r1|m1], (find_one _ _ us2 _) as [r2|m2];
    simpl in H; try contradiction.
  - inversion H; subst; [reflexivity|].
    destruct (rt_user_save E true _); reflexivity.
  - subst. reflexivity.
Qed.

Lemma employee_update_sbp (E : runtime) (db : datastore) (us1 us2 : list doc) (id : jsval)
    (body : doc) :
  Forall2 same_but_password us1 us2 ->
  fst (employee_update E (with_users db us1) id body)
  = fst (employee_update E (with_users db us2) id body).
Proof.
  intros Hus. unfold employee_update; cbv zeta.
  change (ds_users (with_users db us1)) with us1. change (ds_users (with_users db us2)) with us2.
  pose proof (find_by_id_sbp (with_users db us1) (with_users db us2) us1 us2 id eq_refl Hus) as H.
  destruct (find_by_id _ us1 _) as [r1|m1], (find_by_id _ us2 _) as [r2|m2];
    simpl in H; try contradiction; [|subst; reflexivity].
  inversion H as [x1 x2 Hx|]; subst; [|reflexivity].
  unfold same_but_password in Hx. rewrite Hx.
  destruct (negb _); [reflexivity|].
  pose proof (find_one_sbp (rt_regex_i E) (with_users db us1) (with_users db us2) us1 us2
                (<["email" := QEq (field body "email")]> ∅) eq_refl
                (avoids_single "email" (QEq (field body "email")) ltac:(simpl; intuition discriminate)) Hus) as Ho.
  destruct (js_truthy (field body "email") && _).
  - destruct (find_one _ _ us1 _) as [o1|n1], (find_one _ _ us2 _) as [o2|n2];
      simpl in Ho; try contradiction; [|subst; reflexivity].
    inversion Ho; subst; [reflexivity|].
    destruct (js_truthy (field body "role") && _); [reflexivity|].
    destruct (rt_user_save E false _); reflexivity.
  - destruct (js_truthy (field body "role") && _); [reflexivity|].
    destruct (rt_user_save E false _); reflexivity.
Qed.

Lemma employee_route_sbp (E : runtime) (db : datastore) (us1 us2 : list doc)
    (authorization : jsval) (req : employee_read_request) :
  Forall2 same_but_password us1 us2 ->
  fst (employee_route E (with_users db us1) authorization req)
  = fst (employee_route E (with_users db us2) authorization req).
Proof.
  intros Hus. unfold employee_route.
  rewrite (authenticateToken_sbp E db us1 us2 authorization Hus).
  destruct (authenticateToken E (with_users db us2) authorization) as [u|st m]; [|reflexivity].
  destruct req as [rq|id|body new_id|id body].
  - destruct (requireEmployee (Some u)); [|reflexivity..]. apply employee_list_sbp, Hus.
  - destruct (requireEmployee (Some u)); [|reflexivity..]. apply employee_get_sbp, Hus.
  - destruct (requirePermission "manage_users" (Some u)); [|reflexivity..].
    apply employee_create_sbp, Hus.
  - destruct (requirePermission "manage_users" (Some u)); [|reflexivity..].
    apply employee_update_sbp, Hus.
Qed.

Lemma no_password_error (status : Z) (message : string) :
  no_password_body (error_response status message).
Proof. intros d []. Qed.

Lemma no_password_with_error (status : Z) (message err : string) :
  no_password_body (with_error status message err).
Proof. intros d []. Qed.

Lemma no_password_mw (o : mw_outcome) : no_password_body (mw_response o).
Proof. destruct o; intros d []. Qed.

Lemma employee_list_no_password (E : runtime) (db : datastore) (rq : doc) :
  no_password_body (employee_list E db rq).
Proof.
  unfold employee_list; cbv zeta.
  destruct (js_parseInt_auto _) as [p|]; [|apply no_password_with_error].
  destruct (js_parseInt_auto _) as [l|]; [|apply no_password_with_error].
  destruct (run_find _ _ _ _ _ _ _) as [employees|m]; [|apply no_password_with_error].
  destruct (count_documents _ _ _ _) as [total|m]; [|apply no_password_with_error].
  intros d Hd. unfold response_docs, body_field in Hd; simpl in Hd.
  apply in_map_iff in Hd as [x [<- _]]. apply lookup_delete_eq.
Qed.

Lemma employee_get_no_password (db : datastore) (id : jsval) :
  no_password_body (employee_get db id).
Proof.
  unfold employee_get.
  destruct (find_by_id _ _ _) as [[d0|]|m]; [|apply no_password_error|apply no_password_with_error].
  destruct (is_employee_role _); [|apply no_password_error].
  intros d Hd. unfold response_docs, body_field in Hd; simpl in Hd.
  destruct Hd as [<-|[]]. apply lookup_delete_eq.
Qed.

Lemma employee_create_no_password (E : runtime) (db : datastore) (u : principal) (body : doc)
    (new_id : string) :
  no_password_body (fst (employee_create E db u body new_id)).
Proof.
  unfold employee_create; cbv zeta.
  destruct (negb _); [apply no_password_error|]. destruct (negb _); [apply no_password_error|].
  destruct (find_one _ _ _ _) as [[o|]|m]; [apply no_password_error| |apply no_password_with_error].
  destruct (rt_user_save E true _) as [m|saved]; [apply no_password_with_error|].
  intros d Hd. unfold response_docs, body_field in Hd; simpl in Hd.
  destruct Hd as [<-|[]]. apply lookup_delete_eq.
Qed.

Lemma employee_update_no_password (E : runtime) (db : datastore) (id : jsval) (body : doc) :
  no_password_body (fst (employee_update E db id body)).
Proof.
  assert (Hfin : forall e7 : doc,
    no_password_body
      (fst (match rt_user_save E false e7 with
            | inl m => (with_error 500 "Failed to update employee" m, db)
            | inr saved =>
                (mk_response 200 [("success", RV (JBool true));
                                  ("data", RDoc (delete "password" saved));
                                  ("message", RV (JStr "Employee updated successfully"))],
                 match id_string (field saved "_id") with
                 | Some s => with_users db (replace_by_id s saved (ds_users db))
                 | None => db
                 end)
            end))).
  { intros e7. destruct (rt_user_save E false e7) as [m|saved]; [apply no_password_with_error|].
    intros d Hd. unfold response_docs, body_field in Hd; simpl in Hd.
    destruct Hd as [<-|[]]. apply lookup_delete_eq. }
  unfold employee_update; cbv zeta.
  destruct (find_by_id _ _ _) as [[d0|]|m]; [|apply no_password_error|apply no_password_with_error].
  destruct (negb _); [apply no_password_error|].
  destruct (js_truthy (field body "email") && _).
  - destruct (find_one _ _ _ _) as [[o|]|m];
      [apply no_password_error| |apply no_password_with_error].
    destruct (js_truthy (field body "role") && _); [apply no_password_error|]. apply Hfin.
  - destruct (js_truthy (field body "role") && _); [apply no_password_error|]. apply Hfin.
Qed.

Lemma employee_route_no_password (E : runtime) (db : datastore) (authorization : jsval)
    (req : employee_read_request) :
  no_password_body (fst (employee_route E db authorization req)).
Proof.
  unfold employee_route.
  destruct (authenticateToken E db authorization) as [u|st m]; [|apply no_password_error].
  destruct req as [rq|id|body new_id|id body].
  - destruct (requireEmployee (Some u)); [apply employee_list_no_password|apply no_password_mw..].
  - destruct (requireEmployee (Some u)); [apply employee_get_no_password|apply no_password_mw..].
  - destruct (requirePermission "manage_users" (Some u));
      [apply employee_create_no_password|apply no_password_mw..].
  - destruct (requirePermission "manage_users" (Some u));
      [apply employee_update_no_password|apply no_password_mw..].
Qed.

(** C10: the employee routes that return records (GET /api/employees,
    GET /api/employees/:id, POST /api/employees, PUT /api/employees/:id,
    each behind authentication and its role or permission check) never
    return a document with a [password] field, and their response is the
    same whatever password hash the account [uid] has stored. *)
Theorem employee_responses_hide_password (E : runtime) (db : datastore) (uid h1 h2 : string)
    (authorization : jsval) (req : employee_read_request) :
  fst (employee_route E (with_users db (set_password uid h1 (ds_users db))) authorization req)
  = fst (employee_route E (with_users db (set_password uid h2 (ds_users db))) authorization req) /\
  no_password_body
    (fst (employee_route E (with_users db (set_password uid h1 (ds_users db))) authorization req)).
Proof.
  split.
  - apply employee_route_sbp, set_password_sbp.
  - apply employee_route_no_password.
Qed.

(* ------------------------------------------------------------------ *)
(** ** Further properties of the routes, models and middleware *)
Lemma js_strict_eq_comm (a b : jsval) : js_strict_eq a b = js_strict_eq b a.
Proof.
  destruct a, b; simpl; try reflexivity;
    do 2 case_bool_decide; congruence.
Qed.

(** X1: a principal that [requireAdmin] lets through also passes [requireEmployee],
    [authorize('admin')], and [requirePermission] and [requireNewPermission] for every
    permission name. *)
Theorem requireAdmin_implies_other_checks (user : option principal) :
  requireAdmin user = MwNext ->
  requireEmployee user = MwNext /\ authorize ["admin"] user = MwNext /\
  (forall permission, requirePermission permission user = MwNext /\
                      requireNewPermission permission user = MwNext).
Proof.
  destruct user as [u|]; simpl; [|discriminate].
  destruct (js_strict_eq (p_role u) (JStr "admin")) eqn:Ha; simpl; [|discriminate].
  intros _. rewrite js_strict_eq_str in Ha. apply bool_decide_eq_true in Ha.
  unfold requireEmployee, authorize, requirePermission, requireNewPermission.
  rewrite Ha. repeat split; reflexivity.
Qed.

(** X2: [requireAdmin] and [authorize('admin')] make the same decision (pass, or reject with
    the same status) for every principal or none; only their messages differ. *)
Theorem requireAdmin_same_decision_as_authorize_admin (user : option principal) :
  decision (requireAdmin user) = decision (authorize ["admin"] user).
Proof.
  destruct user as [u|]; [|reflexivity].
  unfold requireAdmin, authorize. cbn [existsb].
  rewrite orb_false_r, (js_strict_eq_comm (JStr "admin")).
  destruct (js_strict_eq (p_role u) (JStr "admin")); reflexivity.
Qed.

(** X3: for a user whose [permissions] is an array, the model method [hasPermission(p)] is
    true exactly when the [requirePermission(p)] middleware lets that user through. *)
Theorem hasPermission_agrees_with_requirePermission (user : doc) (l : list string)
    (permission : string) :
  field user "permissions" = JStrs l ->
  (hasPermission user permission = Some true <->
   requirePermission permission (Some (principal_of user)) = MwNext).
Proof.
  intros Hp. unfold hasPermission, requirePermission, principal_of. simpl.
  rewrite Hp. simpl.
  destruct (js_strict_eq (field user "role") (JStr "admin")), (arr_includes l permission);
    simpl; split; congruence.
Qed.

(** X4: an [isAdmin] user is also [isEmployee]; [requireAdmin] passes exactly the users
    whose [isAdmin] virtual is true, and [requireEmployee] exactly those whose [isEmployee]
    virtual is true. *)
Theorem user_virtuals_match_middleware (user : doc) :
  (isAdmin user = true -> isEmployee user = true) /\
  (requireAdmin (Some (principal_of user)) = MwNext <-> isAdmin user = true) /\
  (requireEmployee (Some (principal_of user)) = MwNext <-> isEmployee user = true).
Proof.
  unfold isAdmin, isEmployee, is_employee_role, requireAdmin, requireEmployee, principal_of.
  cbn [p_role]. split; [|split].
  - rewrite js_strict_eq_str. intros H. apply bool_decide_eq_true in H. rewrite H. reflexivity.
  - destruct (js_strict_eq (field user "role") (JStr "admin")); simpl; split; congruence.
  - destruct (existsb (fun r => js_strict_eq (JStr r) (field user "role")) employee_roles);
      split; congruence.
Qed.

(** X5: an event for which [isUpcoming()] is true is never [isPast()] at the same instant. *)
Theorem upcoming_event_is_not_past (event : doc) (now : Z) :
  isUpcoming event now = true -> isPast event now = false.
Proof.
  unfold isUpcoming, isPast. rewrite !js_strict_eq_str.
  intros H. apply andb_prop in H as [Hs Hd].
  apply bool_decide_eq_true in Hs. rewrite Hs. simpl.
  destruct (field event "date"); simpl in *; try discriminate; try reflexivity;
    apply Z.ltb_lt in Hd; apply Z.ltb_ge; lia.
Qed.

(** X6: every event [Event.findUpcoming()] returns is a stored event for which [isPast()] is
    false at the query time. *)
Theorem findUpcoming_never_past (E : runtime) (db : datastore) :
  match findUpcoming E db with
  | DbOk events => Forall (fun e => In e (ds_events db) /\ isPast e (rt_now E) = false) events
  | DbError _ => True
  end.
Proof.
  destruct (findUpcoming E db) as [events|m] eqn:Hf; [|exact I].
  apply Forall_forall. intros e He. apply list_elem_of_In in He.
  unfold findUpcoming in Hf.
  destruct (run_find_in _ _ _ _ _ _ _ _ e Hf He) as [Hin Hm].
  split; [exact Hin|].
  remember (<["status" := QOps [OpIn [JStr "upcoming"; JStr "ongoing"]]]>
               (<["date" := QOps [OpGte (JDate (rt_now E))]]> ∅)) as q eqn:Hq.
  assert (Hks : q !! "status" = Some (QOps [OpIn [JStr "upcoming"; JStr "ongoing"]]))
    by (rewrite Hq; lookup_inserts).
  assert (Hkd : q !! "date" = Some (QOps [OpGte (JDate (rt_now E))]))
    by (rewrite Hq; lookup_inserts).
  pose proof (match_key (rt_regex_i E) q "status" _ e Hm Hks) as Hst.
  pose proof (match_key (rt_regex_i E) q "date" _ e Hm Hkd) as Hdt.
  apply status_in_not_closed in Hst as [_ Hnc].
  apply gte_date in Hdt as [t [Ht Hle]].
  unfold isPast. rewrite js_strict_eq_str, Ht. simpl.
  rewrite bool_decide_eq_false_2 by exact Hnc. simpl. apply Z.ltb_ge. lia.
Qed.

Lemma doc_matches_insert_fresh (rx : string -> string -> bool) (q : query) (k : string)
    (e : qexpr) (d : doc) :
  q !! k = None ->
  doc_matches rx (<[k := e]> q) d = qexpr_match rx k e d && doc_matches rx q d.
Proof.
  intros Hk. apply Bool.eq_iff_eq_true. rewrite andb_true_iff, !doc_matches_spec.
  split.
  - intros H. split.
    + apply H. apply lookup_insert_eq.
    + intros j e' Hj. apply H. rewrite lookup_insert_ne; [exact Hj|]. congruence.
  - intros [He H] j e' Hj. destruct (decide (k = j)) as [<-|Hne].
    + rewrite lookup_insert_eq in Hj. injection Hj as <-. exact He.
    + rewrite lookup_insert_ne in Hj by exact Hne. apply H; exact Hj.
Qed.

Lemma filter_length_mono {A} (f g : A -> bool) (l : list A) :
  (forall x, In x l -> f x = true -> g x = true) ->
  (length (List.filter f l) <= length (List.filter g l))%nat.
Proof.
  induction l as [|x l IH]; simpl; intros H; [lia|].
  assert (IH' : (length (List.filter f l) <= length (List.filter g l))%nat)
    by (apply IH; intros; apply H; auto).
  destruct (f x) eqn:Hf.
  - rewrite (H x (or_introl eq_refl) Hf). simpl. lia.
  - destruct (g x); simpl; lia.
Qed.

Lemma filter_length_disjoint {A} (f g h : A -> bool) (l : list A) :
  (forall x, In x l -> f x = true -> g x = true -> False) ->
  (forall x, In x l -> f x = true -> h x = true) ->
  (forall x, In x l -> g x = true -> h x = true) ->
  (length (List.filter f l) + length (List.filter g l) <= length (List.filter h l))%nat.
Proof.
  induction l as [|x l IH]; simpl; intros H1 H2 H3; [lia|].
  assert (IH' : (length (List.filter f l) + length (List.filter g l)
                 <= length (List.filter h l))%nat)
    by (apply IH; intros; [eapply H1 | apply H2 | apply H3]; eauto).
  destruct (f x) eqn:Hf, (g x) eqn:Hg.
  - exfalso. eapply H1; eauto.
  - rewrite (H2 x (or_introl eq_refl) Hf). simpl. lia.
  - rewrite (H3 x (or_introl eq_refl) Hg). simpl. lia.
  - destruct (h x); simpl; lia.
Qed.

Lemma eq_match_str (s : string) (fv : jsval) :
  (forall l, fv <> JStrs l) -> eq_match (JStr s) fv = true -> fv = JStr s.
Proof.
  intros Hl H. destruct fv; simpl in H; try discriminate;
    try (apply bool_decide_eq_true in H; exact H).
  exfalso. eapply Hl. reflexivity.
Qed.

Lemma group_add_sum (k : jsval) (acc : list (jsval * Z)) :
  fold_right (fun kn s => kn.2 + s) 0 (group_add k acc)
  = 1 + fold_right (fun kn s => kn.2 + s) 0 acc.
Proof.
  induction acc as [|[k' n] acc IH]; simpl; [lia|].
  case_bool_decide; simpl; [lia|]. rewrite IH. lia.
Qed.

Lemma group_fold_sum (f : doc -> jsval) (l : list doc) (acc : list (jsval * Z)) :
  fold_right (fun kn s => kn.2 + s) 0 (fold_left (fun acc d => group_add (f d) acc) l acc)
  = Z.of_nat (length l) + fold_right (fun kn s => kn.2 + s) 0 acc.
Proof.
  revert acc. induction l as [|x l IH]; intros acc; simpl; [lia|].
  rewrite IH, group_add_sum. lia.
Qed.

Lemma breakdown_sum_map (acc : list (jsval * Z)) :
  breakdown_sum (map (fun kn : jsval * Z => <["_id" := kn.1]> (<["count" := JNum kn.2]> ∅)) acc)
  = fold_right (fun kn s => kn.2 + s) 0 acc.
Proof.
  unfold breakdown_sum. induction acc as [|[k n] acc IH]; simpl; [reflexivity|].
  rewrite IH. unfold field. rewrite lookup_insert_ne by discriminate.
  rewrite lookup_insert_eq. reflexivity.
Qed.

Lemma employee_filter_status : (employee_filter : query) !! "status" = None.
Proof. reflexivity. Qed.

Lemma admin_is_employee_match (rx : string -> string -> bool) (d : doc) :
  doc_matches rx (<["role" := QEq (JStr "admin")]> ∅) d = true ->
  doc_matches rx employee_filter d = true.
Proof.
  unfold employee_filter. rewrite !doc_matches_single.
  simpl. intros H. rewrite H. reflexivity.
Qed.

(** X7: when no stored user has an array [status], the statistics of GET
    /api/employees/stats satisfy active + inactive <= total and admins <= total, and the
    counts of the role breakdown and of the department breakdown each add up to the total. *)
Theorem employee_stats_consistent (E : runtime) (db : datastore) (user : option principal)
    (s : employee_stats) :
  Forall (fun d => forall l, field d "status" <> JStrs l) (ds_users db) ->
  employee_stats_route E db user = inr s ->
  es_active s + es_inactive s <= es_total s /\ es_admin s <= es_total s /\
  breakdown_sum (es_roleBreakdown s) = es_total s /\
  breakdown_sum (es_departmentBreakdown s) = es_total s.
Proof.
  intros Hst Hr. unfold employee_stats_route in Hr.
  destruct (requireEmployee user); try discriminate.
  unfold count_documents, aggregate_count in Hr.
  destruct (ds_up db) eqn:Hup; cbn [negb] in Hr; [|discriminate].
  injection Hr as <-. cbn [es_total es_active es_inactive es_admin es_roleBreakdown
                           es_departmentBreakdown].
  rewrite Forall_forall in Hst.
  split; [|split; [|split]].
  - assert (Hc := filter_length_disjoint
              (doc_matches (rt_regex_i E) (<["status" := QEq (JStr "active")]> employee_filter))
              (doc_matches (rt_regex_i E) (<["status" := QEq (JStr "inactive")]> employee_filter))
              (doc_matches (rt_regex_i E) employee_filter) (ds_users db)).
    assert (length (List.filter (doc_matches (rt_regex_i E)
              (<["status" := QEq (JStr "active")]> employee_filter)) (ds_users db))
            + length (List.filter (doc_matches (rt_regex_i E)
              (<["status" := QEq (JStr "inactive")]> employee_filter)) (ds_users db))
            <= length (List.filter (doc_matches (rt_regex_i E) employee_filter) (ds_users db)))%nat;
      [|lia].
    apply Hc; intros x Hx;
      rewrite !doc_matches_insert_fresh by exact employee_filter_status;
      cbn [qexpr_match].
    + intros Ha Hi. apply andb_prop in Ha as [Ha _]. apply andb_prop in Hi as [Hi _].
      assert (Hl : forall l, field x "status" <> JStrs l).
      { intros l. apply Hst. apply list_elem_of_In. exact Hx. }
      apply (eq_match_str _ _ Hl) in Ha. apply (eq_match_str _ _ Hl) in Hi.
      rewrite Ha in Hi. discriminate.
    + intros Ha. apply andb_prop in Ha as [_ Ha]. exact Ha.
    + intros Ha. apply andb_prop in Ha as [_ Ha]. exact Ha.
  - assert (length (List.filter (doc_matches (rt_regex_i E) (<["role" := QEq (JStr "admin")]> ∅))
                      (ds_users db))
            <= length (List.filter (doc_matches (rt_regex_i E) employee_filter) (ds_users db)))%nat;
      [|lia].
    apply filter_length_mono. intros x _. apply admin_is_employee_match.
  - rewrite breakdown_sum_map, group_fold_sum. simpl. lia.
  - rewrite breakdown_sum_map, group_fold_sum. simpl. lia.
Qed.

Lemma requirePermission_reject (permission : string) (user : option principal) (st : Z)
    (m : string) :
  requirePermission permission user = MwReject st m -> st = 401 \/ st = 403.
Proof.
  unfold requirePermission. destruct user as [u|]; [|intros H; injection H; lia].
  destruct (js_strict_eq _ _); [discriminate|].
  destruct (negb _); [intros H; injection H; lia|].
  destruct (js_value_includes _ _) as [[|]|]; try discriminate. intros H; injection H; lia.
Qed.

Lemma update_many_spec (rx : string -> string -> bool) (db : datastore) (coll : list doc)
    (q : query) (set : doc) (now : Z) (coll' : list doc) (n : Z) :
  update_many rx db coll q set now = DbOk (coll', n) ->
  Forall2 (fun d d' => d' = if doc_matches rx q d
                            then <["updatedAt" := JDate now]> (union set d) else d)
    coll coll' /\
  n = Z.of_nat (length (List.filter (fun p : doc * doc => negb (bool_decide (p.1 = p.2)))
                          (combine coll coll'))).
Proof.
  unfold update_many. destruct (ds_up db); simpl; [|discriminate].
  intros H. injection H as <- <-. split; [|reflexivity].
  induction coll as [|d coll IH]; simpl; constructor; [reflexivity | exact IH].
Qed.

Lemma eq_match_oid (s : string) (fv : jsval) : eq_match (JOid s) fv = bool_decide (fv = JOid s).
Proof. destruct fv; reflexivity. Qed.

Lemma id_in_match (rx : string -> string -> bool) (ids : list string) (d : doc) :
  qexpr_match rx "_id" (QOps [OpIn (map JOid ids)]) d
  = existsb (fun s => bool_decide (field d "_id" = JOid s)) ids.
Proof.
  cbn [qexpr_match ops_match forallb op_match]. rewrite andb_true_r.
  induction ids as [|s ids IH]; [reflexivity|].
  cbn [map existsb]. rewrite eq_match_oid, IH. reflexivity.
Qed.

Lemma employee_filter_match (rx : string -> string -> bool) (d : doc) :
  doc_matches rx employee_filter d
  = existsb (fun r => eq_match (JStr r) (field d "role")) employee_roles.
Proof.
  unfold employee_filter. rewrite doc_matches_single.
  cbn [qexpr_match ops_match forallb op_match]. rewrite andb_true_r. reflexivity.
Qed.

(** X8: PUT /api/employees/bulk changes the store only when it answers 200; for an
    authorised caller whose body has no non-empty [ids] array it answers 400 'Employee IDs
    are required'. *)
Theorem employee_bulk_update_without_ids (E : runtime) (db : datastore)
    (user : option principal) (body : doc) :
  let '(r, db') := employee_bulk_update E db user body in
  (res_status r <> 200 -> db' = db) /\
  (requirePermission "manage_users" user = MwNext ->
   (forall i ids, field body "ids" <> JStrs (i :: ids)) ->
   r = error_response 400 "Employee IDs are required" /\ db' = db).
Proof.
  unfold employee_bulk_update.
  destruct (requirePermission "manage_users" user) eqn:Hp;
    [| split; [intros; reflexivity | intros; discriminate] ..].
  destruct (field body "ids") eqn:Hids; try (split; intros; split; reflexivity).
  destruct l as [|i ids]; [split; intros; split; reflexivity|].
  destruct (negb (forallb _ _));
    [split; [intros; reflexivity | intros _ H; exfalso; exact (H i ids eq_refl)]|].
  destruct (if js_truthy _ then _ else _);
    [|split; [intros; reflexivity | intros _ H; exfalso; exact (H i ids eq_refl)]].
  destruct (update_many _ _ _ _ _ _) as [[us n]|m];
    (split; [| intros _ H; exfalso; exact (H i ids eq_refl)]);
    [intros H; exfalso; apply H; reflexivity | intros; reflexivity].
Qed.

(** X9: when PUT /api/employees/bulk answers 200, [ids] is a non-empty array; each user
    whose [_id] is listed and whose role matches an employee role gets [updatedAt] set to
    now and [status] set to the cast body status (kept when the body status is falsy), all
    its other fields kept; every other user is unchanged, and [modifiedCount] is the number
    of users that changed. *)
Theorem employee_bulk_update_effect (E : runtime) (db : datastore) (user : option principal)
    (body : doc) (r : response) (db' : datastore) :
  employee_bulk_update E db user body = (r, db') -> res_status r = 200 ->
  exists ids, field body "ids" = JStrs ids /\ ids <> [] /\
  ds_events db' = ds_events db /\ ds_practitioners db' = ds_practitioners db /\
  Forall2 (fun d d' =>
     if existsb (fun s => bool_decide (field d "_id" = JOid s)) ids
        && existsb (fun r => eq_match (JStr r) (field d "role")) employee_roles
     then d' !! "updatedAt" = Some (JDate (rt_now E)) /\
          d' !! "status" = (if js_truthy (field body "status")
                            then cast_string (field body "status") else d !! "status") /\
          (forall k, k <> "status" -> k <> "updatedAt" -> d' !! k = d !! k)
     else d' = d) (ds_users db) (ds_users db') /\
  body_field r "modifiedCount"
  = Some (RV (JNum (Z.of_nat (length (List.filter
             (fun p : doc * doc => negb (bool_decide (p.1 = p.2)))
             (combine (ds_users db) (ds_users db'))))))).
Proof.
  intros Hb H200. unfold employee_bulk_update in Hb.
  destruct (requirePermission "manage_users" user) as [|st m|] eqn:Hp;
    [| injection Hb as <- <-; apply requirePermission_reject in Hp; simpl in H200; lia
     | injection Hb as <- <-; simpl in H200; discriminate].
  destruct (field body "ids") eqn:Hids;
    try (injection Hb as <- <-; simpl in H200; discriminate).
  destruct l as [|i ids0]; [injection Hb as <- <-; simpl in H200; discriminate|].
  destruct (negb (forallb _ _)) eqn:Hc; [injection Hb as <- <-; simpl in H200; discriminate|].
  destruct (if js_truthy (field body "status") then _ else _) as [updateData|] eqn:Hu;
    [|injection Hb as <- <-; simpl in H200; discriminate].
  destruct (update_many _ _ _ _ _ _) as [[us n]|m] eqn:Hum;
    [|injection Hb as <- <-; simpl in H200; discriminate].
  injection Hb as <- <-.
  apply update_many_spec in Hum as [Hf Hn].
  exists (i :: ids0). split; [reflexivity|]. split; [discriminate|].
  split; [reflexivity|]. split; [reflexivity|].
  assert (Hnone : forall k, k <> "status" -> updateData !! k = None).
  { intros k Hk. destruct (js_truthy (field body "status")).
    - destruct (cast_string (field body "status")); simpl in Hu; [|discriminate].
      injection Hu as <-. rewrite lookup_insert_ne by congruence. apply lookup_empty.
    - injection Hu as <-. apply lookup_empty. }
  split.
  - cbn [ds_users with_users]. eapply Forall2_impl; [exact Hf|]. intros d d' ->.
    rewrite doc_matches_insert_fresh by reflexivity.
    rewrite id_in_match, employee_filter_match.
    destruct (existsb _ _ && existsb _ _); [|reflexivity].
    split; [apply lookup_insert_eq|]. split.
    + rewrite lookup_insert_ne by discriminate. rewrite lookup_union.
      destruct (js_truthy (field body "status")).
      * destruct (cast_string (field body "status")); simpl in Hu; [|discriminate].
        injection Hu as <-. rewrite lookup_insert_eq. destruct (d !! "status"); reflexivity.
      * injection Hu as <-. rewrite lookup_empty. destruct (d !! "status"); reflexivity.
    + intros k Hk1 Hk2. rewrite lookup_insert_ne by congruence. rewrite lookup_union.
      rewrite (Hnone k Hk1). destruct (d !! k); reflexivity.
  - cbn [ds_users with_users]. rewrite Hn. reflexivity.
Qed.

Ltac split_matches :=
  repeat match goal with
  | |- context [match ?x with _ => _ end] =>
      lazymatch x with
      | context [rt_master_code] => fail
      | _ => destruct x
      end
  end.

(** X10: for a caller that passes the permission check, DELETE /api/employees/:id and POST
    /api/employees/:id/reset-password answer 403 exactly when the body [masterCode] is not
    === the configured master code, and then leave the store unchanged; when no master code
    is configured, a body without [masterCode] is not refused with 403. *)
Theorem master_code_gate (E : runtime) (db : datastore) (u : principal) (id : jsval)
    (body : doc) (tempPassword : string) :
  (requireNewPermission "delete_users" (Some u) = MwNext ->
   (res_status (fst (employee_delete E db (Some u) id body)) = 403 <->
    js_strict_eq (field body "masterCode") (rt_master_code E) = false) /\
   (js_strict_eq (field body "masterCode") (rt_master_code E) = false ->
    snd (employee_delete E db (Some u) id body) = db) /\
   (rt_master_code E = JUndef -> field body "masterCode" = JUndef ->
    res_status (fst (employee_delete E db (Some u) id body)) <> 403)) /\
  (requireNewPermission "change_user_passwords" (Some u) = MwNext ->
   (res_status (fst (employee_reset_password E db (Some u) id body tempPassword)) = 403 <->
    js_strict_eq (field body "masterCode") (rt_master_code E) = false) /\
   (js_strict_eq (field body "masterCode") (rt_master_code E) = false ->
    snd (employee_reset_password E db (Some u) id body tempPassword) = db) /\
   (rt_master_code E = JUndef -> field body "masterCode" = JUndef ->
    res_status (fst (employee_reset_password E db (Some u) id body tempPassword)) <> 403)).
Proof.
  assert (Hu : rt_master_code E = JUndef -> field body "masterCode" = JUndef ->
               js_strict_eq (field body "masterCode") (rt_master_code E) = true)
    by (intros -> ->; reflexivity).
  split; intros Hp;
    destruct (js_strict_eq (field body "masterCode") (rt_master_code E)) eqn:Hm.
  - assert (Hn : res_status (fst (employee_delete E db (Some u) id body)) <> 403)
      by (unfold employee_delete; rewrite Hp, Hm; cbn [negb]; split_matches; cbn; discriminate).
    split; [split; [intros H; contradiction | discriminate]|].
    split; [discriminate | intros _ _; exact Hn].
  - assert (H403 : employee_delete E db (Some u) id body
                   = (error_response 403 "Invalid master security code. Access denied.", db))
      by (unfold employee_delete; rewrite Hp, Hm; reflexivity).
    rewrite H403. split; [split; reflexivity | split; [reflexivity|]].
    intros H1 H2. pose proof (Hu H1 H2) as Ht. congruence.
  - assert (Hn : res_status (fst (employee_reset_password E db (Some u) id body tempPassword))
                 <> 403)
      by (unfold employee_reset_password; rewrite Hp, Hm; cbn [negb]; split_matches; cbn;
          discriminate).
    split; [split; [intros H; contradiction | discriminate]|].
    split; [discriminate | intros _ _; exact Hn].
  - assert (H403 : employee_reset_password E db (Some u) id body tempPassword
                   = (error_response 403 "Invalid master security code. Access denied.", db))
      by (unfold employee_reset_password; rewrite Hp, Hm; reflexivity).
    rewrite H403. split; [split; reflexivity | split; [reflexivity|]].
    intros H1 H2. pose proof (Hu H1 H2) as Ht. congruence.
Qed.

Lemma requireNewPermission_reject (permission : string) (user : option principal) (st : Z)
    (m : string) :
  requireNewPermission permission user = MwReject st m -> st = 401 \/ st = 403.
Proof.
  unfold requireNewPermission. destruct user as [u|]; [|intros H; injection H; lia].
  destruct (js_strict_eq _ _); [discriminate|].
  destruct (negb _); [intros H; injection H; lia|].
  destruct (js_value_includes _ _) as [[|]|]; try discriminate. intros H; injection H; lia.
Qed.

Lemma find_filter_out {A} (f : A -> bool) (l : list A) :
  List.find f (List.filter (fun x => negb (f x)) l) = None.
Proof.
  induction l as [|x l IH]; simpl; [reflexivity|].
  destruct (f x) eqn:Hf; simpl; [exact IH|]. rewrite Hf. exact IH.
Qed.

Lemma find_app_fresh {A} (f : A -> bool) (l : list A) (x : A) :
  Forall (fun y => f y = false) l -> f x = true -> List.find f (l ++ [x]) = Some x.
Proof.
  intros Hl Hx. induction Hl as [|y l Hy _ IH]; simpl; [rewrite Hx; reflexivity|].
  rewrite Hy. exact IH.
Qed.

Lemma has_id_field (s : string) (d : doc) : has_id s d = true -> field d "_id" = JOid s.
Proof.
  unfold has_id, field. intros H. apply bool_decide_eq_true in H. rewrite H. reflexivity.
Qed.

(** X11: after DELETE /api/employees/:id answers 200, the id casts to an ObjectId, exactly
    the users with that id are removed (the other users and collections are kept), and GET
    /api/employees/:id for the same id answers 404. *)
Theorem employee_delete_then_get (E : runtime) (db : datastore) (user : option principal)
    (id : jsval) (body : doc) (r : response) (db' : datastore) :
  employee_delete E db user id body = (r, db') -> res_status r = 200 ->
  exists s, cast_object_id id = Some (Some s) /\
  ds_users db' = List.filter (fun d => negb (has_id s d)) (ds_users db) /\
  ds_events db' = ds_events db /\ ds_practitioners db' = ds_practitioners db /\
  employee_get db' id = error_response 404 "Employee not found".
Proof.
  intros Hd H200. unfold employee_delete in Hd.
  destruct (requireNewPermission "delete_users" user) as [|st m|] eqn:Hp;
    [| injection Hd as <- <-; apply requireNewPermission_reject in Hp; simpl in H200; lia
     | injection Hd as <- <-; simpl in H200; discriminate].
  destruct user as [u|]; [|injection Hd as <- <-; simpl in H200; discriminate].
  destruct (negb (js_strict_eq _ _)); [injection Hd as <- <-; simpl in H200; discriminate|].
  unfold find_by_id in Hd.
  destruct (ds_up db) eqn:Hup; cbn [negb] in Hd; [|injection Hd as <- <-; simpl in H200; discriminate].
  destruct (cast_object_id id) as [[s|]|] eqn:Hc;
    try (injection Hd as <- <-; simpl in H200; discriminate).
  destruct (List.find (has_id s) (ds_users db)) as [e|] eqn:Hf;
    [|injection Hd as <- <-; simpl in H200; discriminate].
  apply List.find_some in Hf as [_ Hs]. rewrite (has_id_field _ _ Hs) in Hd.
  cbv zeta beta in Hd. cbn [id_string] in Hd.
  repeat match type of Hd with
  | context [match ?x with _ => _ end] => destruct x
  end;
  injection Hd as <- <-; try (simpl in H200; discriminate).
  all: exists s; split; [reflexivity|]; split; [reflexivity|];
    split; [reflexivity|]; split; [reflexivity|].
  all: unfold employee_get, find_by_id; cbn [ds_up ds_users with_users]; rewrite Hup, Hc;
    cbn [negb]; rewrite find_filter_out; reflexivity.
Qed.

(** X12: when [save()] keeps [_id] and [role] and the new id is not in use, a 201 from POST
    /api/employees is followed by a 200 from GET /api/employees/:id on the new id, which
    returns the same document as the create response. *)
Theorem employee_create_then_get (E : runtime) (db : datastore) (u : principal) (body : doc)
    (new_id : string) (r : response) (db' : datastore) :
  (forall e saved, rt_user_save E true e = inr saved ->
                   saved !! "_id" = e !! "_id" /\ saved !! "role" = e !! "role") ->
  Forall (fun d => has_id new_id d = false) (ds_users db) ->
  employee_create E db u body new_id = (r, db') -> res_status r = 201 ->
  res_status (employee_get db' (JOid new_id)) = 200 /\
  response_docs (employee_get db' (JOid new_id)) = response_docs r /\
  field (hd ∅ (response_docs r)) "_id" = JOid new_id.
Proof.
  intros Hsave Hfresh Hcr H201. unfold employee_create in Hcr; cbv zeta in Hcr.
  destruct (negb _); [injection Hcr as <- <-; simpl in H201; discriminate|].
  destruct (negb (is_employee_role (field body "role"))) eqn:Hrole;
    [injection Hcr as <- <-; simpl in H201; discriminate|].
  unfold find_one in Hcr.
  destruct (ds_up db) eqn:Hup; cbn [negb] in Hcr;
    [|injection Hcr as <- <-; simpl in H201; discriminate].
  destruct (List.find _ _) as [o|]; [injection Hcr as <- <-; simpl in H201; discriminate|].
  destruct (rt_user_save E true _) as [m|saved] eqn:Hs;
    [injection Hcr as <- <-; simpl in H201; discriminate|].
  injection Hcr as <- <-.
  apply Hsave in Hs as [Hid Hro].
  assert (Hsid : saved !! "_id" = Some (JOid new_id)).
  { rewrite Hid. unfold set_defined. case_bool_decide;
      [|rewrite lookup_insert_ne by discriminate]; apply lookup_insert_eq. }
  assert (Hsro : field saved "role" = field body "role").
  { unfold field. rewrite Hro. unfold set_defined. case_bool_decide;
      [|rewrite lookup_insert_ne by discriminate];
      rewrite lookup_insert_ne by discriminate; rewrite lookup_insert_ne by discriminate;
      rewrite lookup_insert_ne by discriminate; rewrite lookup_insert_eq; reflexivity. }
  assert (Hget : employee_get (with_users db (ds_users db ++ [saved])) (JOid new_id)
                 = mk_response 200 [("success", RV (JBool true));
                                    ("data", RDoc (user_projection saved))]).
  { unfold employee_get, find_by_id. cbn [ds_up ds_users with_users]. rewrite Hup.
    cbn [negb cast_object_id].
    rewrite (find_app_fresh _ _ _ Hfresh) by (unfold has_id; rewrite Hsid;
                                              apply bool_decide_eq_true; reflexivity).
    unfold user_projection at 1. unfold field at 1. rewrite lookup_delete_ne by discriminate.
    fold (field saved "role"). rewrite Hsro.
    destruct (is_employee_role (field body "role")); [reflexivity|discriminate]. }
  rewrite Hget. split; [reflexivity|]. split; [reflexivity|].
  cbn. unfold field. rewrite lookup_delete_ne by discriminate. rewrite Hsid. reflexivity.
Qed.

Lemma find_none_all {A} (f : A -> bool) (l : list A) (x : A) :
  List.find f l = None -> In x l -> f x = false.
Proof.
  induction l as [|y l IH]; simpl; [tauto|].
  destruct (f y) eqn:Hy; [discriminate|]. intros Hn [<-|Hx]; [exact Hy | exact (IH Hn Hx)].
Qed.

Lemma get_by_id_handler_found_or_404 (nf se : string) (db : datastore) (coll : list doc)
    (id : jsval) :
  ds_up db = true -> found_or_404 id coll (get_by_id_handler nf se db coll id).
Proof.
  intros Hup. unfold found_or_404, get_by_id_handler, find_by_id. rewrite Hup. cbn [negb].
  destruct (cast_object_id id) as [[s|]|] eqn:Hc.
  - destruct (List.find (has_id s) coll) as [d|] eqn:Hf.
    + left. split; [reflexivity|]. apply List.find_some in Hf as [Hin Hs].
      exists s, d. repeat split; assumption.
    + right. split; [reflexivity|]. intros s' d' Hs' Hin. injection Hs' as <-.
      exact (find_none_all _ _ _ Hf Hin).
  - right. split; [reflexivity|]. discriminate.
  - right. split; [reflexivity|]. discriminate.
Qed.

(** X13: with the store reachable and an employee caller, GET /api/events/:id, GET
    /api/public/events/:id and GET /api/practitioners/:id answer 200 with the stored
    document whose [_id] is the requested id, or 404 when no stored document has it;
    malformed ids are 404 too. *)
Theorem get_routes_found_or_404 (db : datastore) (user : option principal) (id : jsval) :
  ds_up db = true -> requireEmployee user = MwNext ->
  found_or_404 id (ds_events db) (event_get db user id) /\
  found_or_404 id (ds_events db) (public_event_get db id) /\
  found_or_404 id (ds_practitioners db) (practitioner_get db user id).
Proof.
  intros Hup Hemp. unfold event_get, public_event_get, practitioner_get. rewrite Hemp.
  split; [|split]; apply get_by_id_handler_found_or_404; exact Hup.
Qed.

Lemma requireEmployee_reject (user : option principal) (st : Z) (m : string) :
  requireEmployee user = MwReject st m -> st = 401 \/ st = 403.
Proof.
  unfold requireEmployee. destruct user as [u|]; [|intros H; injection H; lia].
  destruct (existsb _ _); [discriminate|]. intros H; injection H; lia.
Qed.

Lemma delete_by_id_handler_200 (nf se dl : string) (db : datastore) (coll : list doc)
    (id : jsval) :
  let '(r, coll') := delete_by_id_handler nf se dl db coll id in
  res_status r = 200 ->
  ds_up db = true /\ exists s, cast_object_id id = Some (Some s) /\
    coll' = List.filter (fun d => negb (has_id s d)) coll.
Proof.
  unfold delete_by_id_handler, find_by_id.
  destruct (ds_up db); cbn [negb]; [|destruct (cast_object_id id) as [[|]|]; simpl; discriminate].
  destruct (cast_object_id id) as [[s|]|]; cbn [String.eqb];
    [destruct (List.find (has_id s) coll) | | ]; simpl; try discriminate.
  intros _. split; [reflexivity|]. exists s. split; reflexivity.
Qed.

(** X14: after DELETE /api/events/:id or DELETE /api/practitioners/:id answers 200, exactly
    the documents with that id are removed from their collection (the others are kept), and
    GET of the same id by the same caller answers 404. *)
Theorem delete_then_get_404 (db : datastore) (user : option principal) (id : jsval) :
  (let '(r, db') := event_delete db user id in
   res_status r = 200 ->
   event_get db' user id = error_response 404 "Event not found" /\
   exists s, cast_object_id id = Some (Some s) /\
   ds_events db' = List.filter (fun d => negb (has_id s d)) (ds_events db) /\
   ds_users db' = ds_users db /\ ds_practitioners db' = ds_practitioners db) /\
  (let '(r, db') := practitioner_delete db user id in
   res_status r = 200 ->
   practitioner_get db' user id = error_response 404 "Practitioner not found" /\
   exists s, cast_object_id id = Some (Some s) /\
   ds_practitioners db' = List.filter (fun d => negb (has_id s d)) (ds_practitioners db) /\
   ds_users db' = ds_users db /\ ds_events db' = ds_events db).
Proof.
  unfold event_delete, practitioner_delete, event_get, practitioner_get.
  destruct (requireEmployee user) as [|st m|] eqn:Hemp;
    [| apply requireEmployee_reject in Hemp; split; cbn; intros H; lia
     | split; cbn; intros H; discriminate H].
  split.
  - pose proof (delete_by_id_handler_200 "Event not found" "Server error while deleting event"
                  "Event deleted successfully" db (ds_events db) id) as H.
    destruct (delete_by_id_handler _ _ _ db (ds_events db) id) as [r es].
    intros H200. destruct (H H200) as [Hup [s [Hc ->]]].
    split; [|exists s; split; [exact Hc|]; repeat split; reflexivity].
    unfold get_by_id_handler, find_by_id. cbn [ds_up ds_events with_events]. rewrite Hup, Hc.
    cbn [negb]. rewrite find_filter_out. reflexivity.
  - pose proof (delete_by_id_handler_200 "Practitioner not found"
                  "Server error while deleting practitioner"
                  "Practitioner deleted successfully" db (ds_practitioners db) id) as H.
    destruct (delete_by_id_handler _ _ _ db (ds_practitioners db) id) as [r ps].
    intros H200. destruct (H H200) as [Hup [s [Hc ->]]].
    split; [|exists s; split; [exact Hc|]; repeat split; reflexivity].
    unfold get_by_id_handler, find_by_id. cbn [ds_up ds_practitioners with_practitioners].
    rewrite Hup, Hc. cbn [negb]. rewrite find_filter_out. reflexivity.
Qed.

Lemma set_if_present_no_id (body : doc) (k : string) (f : jsval -> option jsval)
    (acc : option doc) :
  k <> "_id" -> (forall upd, acc = Some upd -> upd !! "_id" = None) ->
  forall upd, set_if_present body k f acc = Some upd -> upd !! "_id" = None.
Proof.
  intros Hk Hacc upd. unfold set_if_present. destruct acc as [u|]; [|discriminate].
  case_bool_decide; [intros Hs; injection Hs as <-; exact (Hacc u eq_refl)|].
  destruct (f (field body k)); [|discriminate]. intros Hs; injection Hs as <-.
  rewrite lookup_insert_ne by congruence. exact (Hacc u eq_refl).
Qed.

Lemma event_update_data_no_id (E : runtime) (u : principal) (body : doc) (upd : doc) :
  event_update_data E u body = Some upd -> upd !! "_id" = None.
Proof.
  unfold event_update_data.
  match goal with |- option_map _ ?acc = _ -> _ =>
    assert (Hacc : forall upd, acc = Some upd -> upd !! "_id" = None) end.
  { repeat (apply set_if_present_no_id; [discriminate|]).
    intros upd' H. injection H as <-. apply lookup_empty. }
  destruct (set_if_present body "registrationUrl" _ _) as [a|] eqn:Ha; [|discriminate].
  intros H; injection H as <-. rewrite lookup_insert_ne by discriminate. exact (Hacc a eq_refl).
Qed.

Lemma find_map_replace {A} (f : A -> bool) (l : list A) (x y : A) :
  List.find f l = Some x -> f y = true ->
  List.find f (map (fun e => if f e then y else e) l) = Some y.
Proof.
  intros Hf Hy. induction l as [|z l IH]; simpl in *; [discriminate|].
  destruct (f z) eqn:Hz; [rewrite Hy; reflexivity|]. rewrite Hz. exact (IH Hf).
Qed.

(** X15: after PUT /api/events/:id answers 200, GET /api/events/:id by the same caller
    answers 200 with the document the update returned; the number of events and the other
    collections are unchanged. *)
Theorem event_update_then_get (E : runtime) (db : datastore) (user : option principal)
    (id : jsval) (body : doc) (r : response) (db' : datastore) :
  event_update E db user id body = (r, db') -> res_status r = 200 ->
  res_status (event_get db' user id) = 200 /\
  response_docs (event_get db' user id) = response_docs r /\
  ds_users db' = ds_users db /\ ds_practitioners db' = ds_practitioners db /\
  length (ds_events db') = length (ds_events db).
Proof.
  intros Hu H200. unfold event_update in Hu.
  destruct (requireEmployee user) as [|st m|] eqn:Hemp;
    [| destruct user; injection Hu as <- <-; apply requireEmployee_reject in Hemp;
       simpl in H200; lia
     | destruct user; injection Hu as <- <-; simpl in H200; discriminate].
  destruct user as [u|]; [|injection Hu as <- <-; simpl in H200; discriminate].
  unfold find_by_id in Hu.
  destruct (ds_up db) eqn:Hup; cbn [negb] in Hu;
    [|injection Hu as <- <-; simpl in H200; discriminate].
  destruct (cast_object_id id) as [[s|]|] eqn:Hc;
    try (injection Hu as <- <-; simpl in H200; discriminate).
  destruct (List.find (has_id s) (ds_events db)) as [event|] eqn:Hf;
    [|injection Hu as <- <-; simpl in H200; discriminate].
  destruct (event_update_data E u body) as [updateData|] eqn:Hd;
    [|injection Hu as <- <-; simpl in H200; discriminate].
  destruct (omap _ _) as [|e errs]; [|injection Hu as <- <-; simpl in H200; discriminate].
  pose proof Hf as Hf'. apply List.find_some in Hf' as [_ Hs].
  rewrite (has_id_field _ _ Hs) in Hu. cbn [id_string] in Hu.
  injection Hu as <- <-.
  set (updated := <["updatedAt" := JDate (rt_now E)]> (union (event_cast_update updateData) event)).
  assert (Hsu : has_id s updated = true).
  { unfold has_id, updated. apply bool_decide_eq_true.
    rewrite lookup_insert_ne by discriminate. rewrite lookup_union.
    unfold event_cast_update. rewrite map_lookup_imap.
    rewrite (event_update_data_no_id _ _ _ _ Hd). simpl.
    unfold has_id in Hs. apply bool_decide_eq_true in Hs. rewrite Hs. reflexivity. }
  assert (Hg : event_get (with_events db (map (fun e => if has_id s e then updated else e)
                                             (ds_events db))) (Some u) id
               = mk_response 200 [("success", RV (JBool true)); ("data", RDoc updated)]).
  { unfold event_get. rewrite Hemp. unfold get_by_id_handler, find_by_id.
    cbn [ds_up ds_events with_events]. rewrite Hup, Hc. cbn [negb].
    rewrite (find_map_replace _ _ _ _ Hf Hsu). reflexivity. }
  rewrite Hg. split; [reflexivity|]. split; [reflexivity|].
  split; [reflexivity|]. split; [reflexivity|]. cbn. apply length_map.
Qed.

Lemma eq_match_bool (b : bool) (fv : jsval) : eq_match (JBool b) fv = bool_decide (fv = JBool b).
Proof. destruct fv; reflexivity. Qed.

(** X16: GET /api/public/practitioners/:id answers 200 only with a stored practitioner whose
    [_id] is the requested id and whose [status] matches 'active'. *)
Theorem public_practitioner_get_only_active (E : runtime) (db : datastore) (id : string) :
  res_status (public_practitioner_get E db id) = 200 ->
  exists p, response_docs (public_practitioner_get E db id) = [p] /\
    In p (ds_practitioners db) /\ field p "_id" = JOid id /\
    eq_match (JStr "active") (field p "status") = true.
Proof.
  unfold public_practitioner_get.
  destruct (cast_object_id (JStr id)) as [[s|]|] eqn:Hc; try (simpl; discriminate).
  assert (s = id) as ->.
  { unfold cast_object_id in Hc. destruct (_ && _); [injection Hc; auto | discriminate]. }
  unfold find_one. destruct (ds_up db); cbn [negb]; [|simpl; discriminate].
  destruct (List.find _ (ds_practitioners db)) as [p|] eqn:Hf; [|simpl; discriminate].
  intros _. apply List.find_some in Hf as [Hin Hm].
  exists p. split; [reflexivity|]. split; [exact Hin|].
  rewrite doc_matches_insert_fresh in Hm by reflexivity.
  apply andb_prop in Hm as [Hid Hst].
  rewrite doc_matches_single in Hst. cbn [qexpr_match] in Hid, Hst.
  rewrite eq_match_oid in Hid. apply bool_decide_eq_true in Hid.
  split; [exact Hid | exact Hst].
Qed.

Lemma run_find_first (rx : string -> string -> bool) (db : datastore) (coll : list doc)
    (q : query) (keys : list (string * Z)) (skip limit : Z) (e : doc) (rest : list doc) :
  run_find rx db coll q keys skip limit = DbOk (e :: rest) ->
  In e coll /\ doc_matches rx q e = true.
Proof. intros H. exact (run_find_in _ _ _ _ _ _ _ _ e H (or_introl eq_refl)). Qed.

Lemma run_find_first_empty (rx : string -> string -> bool) (db : datastore) (coll : list doc)
    (q : query) (keys : list (string * Z)) (d : doc) :
  run_find rx db coll q keys 0 1 = DbOk [] -> In d coll -> doc_matches rx q d = false.
Proof.
  unfold run_find. destruct (ds_up db); cbn [negb]; [|discriminate].
  cbn -[sort_docs List.filter]. intros H Hin. injection H as H.
  destruct (doc_matches rx q d) eqn:Hm; [|reflexivity]. exfalso.
  assert (Hs : In d (sort_docs keys (List.filter (doc_matches rx q) coll))).
  { apply in_sort_docs. apply filter_In. split; assumption. }
  destruct (sort_docs keys (List.filter (doc_matches rx q) coll)); [exact Hs|discriminate].
Qed.

Lemma doc_matches_three (rx : string -> string -> bool) (k1 k2 k3 : string)
    (e1 e2 e3 : qexpr) (d : doc) :
  k1 <> k2 -> k1 <> k3 -> k2 <> k3 ->
  doc_matches rx (<[k1 := e1]> (<[k2 := e2]> (<[k3 := e3]> ∅))) d
  = qexpr_match rx k1 e1 d && qexpr_match rx k2 e2 d && qexpr_match rx k3 e3 d.
Proof.
  intros H12 H13 H23.
  rewrite doc_matches_insert_fresh
    by (rewrite !lookup_insert_ne by congruence; apply lookup_empty).
  rewrite doc_matches_insert_fresh
    by (rewrite lookup_insert_ne by congruence; apply lookup_empty).
  rewrite doc_matches_single. apply andb_assoc.
Qed.

Lemma doc_matches_two (rx : string -> string -> bool) (k1 k2 : string) (e1 e2 : qexpr)
    (d : doc) :
  k1 <> k2 ->
  doc_matches rx (<[k1 := e1]> (<[k2 := e2]> ∅)) d
  = qexpr_match rx k1 e1 d && qexpr_match rx k2 e2 d.
Proof.
  intros H12.
  rewrite doc_matches_insert_fresh
    by (rewrite lookup_insert_ne by congruence; apply lookup_empty).
  rewrite doc_matches_single. reflexivity.
Qed.

Lemma gte_date_intro (rx : string -> string -> bool) (d : doc) (now t : Z) :
  field d "date" = JDate t -> now <= t ->
  qexpr_match rx "date" (QOps [OpGte (JDate now)]) d = true.
Proof.
  intros Hd Hle. cbn [qexpr_match ops_match forallb op_match]. rewrite Hd. cbn.
  destruct (Z.compare_spec t now); try reflexivity. lia.
Qed.

Lemma upcoming_not_completed (fv : jsval) :
  eq_match (JStr "upcoming") fv = true -> fv <> JStr "completed".
Proof. intros H ->. discriminate H. Qed.

Lemma not_past_of (d : doc) (now t : Z) :
  field d "status" <> JStr "completed" -> field d "date" = JDate t -> now <= t ->
  isPast d now = false.
Proof.
  intros Hs Hd Hle. unfold isPast. rewrite js_strict_eq_str, Hd.
  rewrite bool_decide_eq_false_2 by exact Hs. simpl. apply Z.ltb_ge. lia.
Qed.

Ltac nope := let H := fresh in intros H; discriminate H.

(** X18: GET /api/public/events/featured/current only returns a stored event dated now or
    later (so not [isPast]); featured: true comes with an [isFeatured] event; featured:
    false means no featured upcoming or ongoing event is dated now or later; 404 means no
    upcoming event is dated now or later. *)
Theorem featured_event_current (E : runtime) (db : datastore) :
  (res_status (featured_event E db) = 200 ->
   exists e, response_docs (featured_event E db) = [e] /\ In e (ds_events db) /\
     isPast e (rt_now E) = false /\
     (exists t, field e "date" = JDate t /\ rt_now E <= t) /\
     (body_field (featured_event E db) "featured" = Some (RV (JBool true)) ->
      field e "isFeatured" = JBool true)) /\
  (body_field (featured_event E db) "featured" = Some (RV (JBool false)) ->
   forall e t, In e (ds_events db) -> field e "isFeatured" = JBool true ->
     (field e "status" = JStr "upcoming" \/ field e "status" = JStr "ongoing") ->
     field e "date" = JDate t -> t < rt_now E) /\
  (res_status (featured_event E db) = 404 ->
   forall e t, In e (ds_events db) -> field e "status" = JStr "upcoming" ->
     field e "date" = JDate t -> t < rt_now E).
Proof.
  unfold featured_event; cbv zeta.
  destruct (run_find _ _ _ _ [("date", 1)] 0 1) as [[|event rest]|m] eqn:H1;
    [| | cbn; split; [nope|split; nope]].
  - assert (Hno : forall e t, In e (ds_events db) -> field e "isFeatured" = JBool true ->
              (field e "status" = JStr "upcoming" \/ field e "status" = JStr "ongoing") ->
              field e "date" = JDate t -> t < rt_now E).
    { intros e t Hin Hf Hs Hd. destruct (Z_lt_ge_dec t (rt_now E)) as [Hlt|Hge]; [exact Hlt|].
      exfalso. pose proof (run_find_first_empty _ _ _ _ _ e H1 Hin) as Hm.
      rewrite doc_matches_three in Hm by discriminate.
      rewrite (gte_date_intro (rt_regex_i E) e (rt_now E) t Hd ltac:(lia)) in Hm.
      cbn [qexpr_match] in Hm. rewrite Hf, eq_match_bool in Hm.
      cbn [ops_match forallb op_match existsb] in Hm.
      destruct Hs as [Hs|Hs]; rewrite Hs in Hm; discriminate Hm. }
    clear H1.
    destruct (run_find _ _ _ _ [("date", 1)] 0 1) as [[|nextEvent rest]|m] eqn:H2.
    + cbn. split; [nope|]. split; [nope|].
      intros _ e t Hin Hs Hd. destruct (Z_lt_ge_dec t (rt_now E)) as [Hlt|Hge]; [exact Hlt|].
      exfalso. pose proof (run_find_first_empty _ _ _ _ _ e H2 Hin) as Hm.
      rewrite doc_matches_two in Hm by discriminate.
      rewrite (gte_date_intro (rt_regex_i E) e (rt_now E) t Hd ltac:(lia)) in Hm.
      cbn [qexpr_match] in Hm. rewrite Hs in Hm. discriminate Hm.
    + apply run_find_first in H2 as [Hin Hm].
      rewrite doc_matches_two in Hm by discriminate.
      apply andb_prop in Hm as [Hs Hd]. apply gte_date in Hd as [t [Hd Hle]].
      cbn [qexpr_match] in Hs. apply upcoming_not_completed in Hs.
      split; [|split; [intros _; exact Hno | cbn; nope]].
      intros _. exists nextEvent. split; [reflexivity|]. split; [exact Hin|].
      split; [exact (not_past_of _ _ _ Hs Hd Hle)|]. split; [exists t; split; assumption|].
      cbn. nope.
    + cbn. split; [nope|split; nope].
  - apply run_find_first in H1 as [Hin Hm].
    rewrite doc_matches_three in Hm by discriminate.
    apply andb_prop in Hm as [Hm Hf]. apply andb_prop in Hm as [Hs Hd].
    apply gte_date in Hd as [t [Hd Hle]]. apply status_in_not_closed in Hs as [_ Hs].
    cbn [qexpr_match] in Hf. rewrite eq_match_bool in Hf. apply bool_decide_eq_true in Hf.
    split; [|split; cbn; nope].
    intros _. exists event. split; [reflexivity|]. split; [exact Hin|].
    split; [exact (not_past_of _ _ _ Hs Hd Hle)|]. split; [exists t; split; assumption|].
    intros _. exact Hf.
Qed.

(** X17: GET /api/public/practitioners/featured/list answers 500 when the store is
    unreachable; otherwise 200 with at most 5 stored practitioners, each featured and
    matching status 'active', and a [count] equal to the number returned. *)
Theorem featured_practitioners_shape (E : runtime) (db : datastore) :
  (ds_up db = false -> featured_practitioners E db = error_response 500 "Server error") /\
  (ds_up db = true ->
   res_status (featured_practitioners E db) = 200 /\
   body_field (featured_practitioners E db) "count"
   = Some (RV (JNum (Z.of_nat (length (response_docs (featured_practitioners E db)))))) /\
   (length (response_docs (featured_practitioners E db)) <= 5)%nat /\
   Forall (fun p => In p (ds_practitioners db) /\
                    eq_match (JStr "active") (field p "status") = true /\
                    field p "isFeatured" = JBool true)
     (response_docs (featured_practitioners E db))).
Proof.
  unfold featured_practitioners, find_limit.
  destruct (ds_up db); cbn [negb]; [split; [discriminate|intros _] | split; [reflexivity|discriminate]].
  set (ps := take 5 (List.filter _ (ds_practitioners db))).
  assert (Hd : response_docs (mk_response 200 [("success", RV (JBool true));
                  ("count", RV (JNum (Z.of_nat (length ps)))); ("data", RDocs ps)]) = ps)
    by reflexivity.
  rewrite Hd. split; [reflexivity|]. split; [reflexivity|]. split.
  - unfold ps. rewrite length_take. lia.
  - apply Forall_forall. intros p Hp. apply list_elem_of_In in Hp.
    apply in_take in Hp. apply filter_In in Hp as [Hin Hm].
    rewrite doc_matches_two in Hm by discriminate.
    apply andb_prop in Hm as [Hs Hf]. cbn [qexpr_match] in Hs, Hf.
    rewrite eq_match_bool in Hf. apply bool_decide_eq_true in Hf.
    split; [exact Hin | split; assumption].
Qed.

Lemma run_find_up (rx : string -> string -> bool) (db : datastore) (coll : list doc)
    (q : query) (keys : list (string * Z)) (skip limit : Z) :
  ds_up db = true -> 0 <= skip -> exists l, run_find rx db coll q keys skip limit = DbOk l.
Proof.
  intros Hup Hs. unfold run_find. rewrite Hup. cbn [negb].
  replace (skip <? 0) with false by lia. eexists; reflexivity.
Qed.

(** X19: the free-tier GET /api/public/events/featured/current answers 200 whenever some
    stored event has status 'upcoming', whatever its date, a past date included. *)
Theorem featured_event_lite_ignores_date (E : runtime) (db : datastore) (e : doc) :
  ds_up db = true -> In e (ds_events db) -> field e "status" = JStr "upcoming" ->
  res_status (featured_event_lite E db) = 200.
Proof.
  intros Hup Hin Hs. unfold featured_event_lite; cbv zeta.
  destruct (run_find_up (rt_regex_i E) db (ds_events db)
              (<["status" := QOps [OpIn [JStr "upcoming"; JStr "ongoing"]]]>
                 (<["isFeatured" := QEq (JBool true)]> ∅)) [("date", 1)] 0 1 Hup
              ltac:(lia)) as [l1 H1].
  rewrite H1. destruct l1 as [|ev rest]; [|reflexivity].
  destruct (run_find_up (rt_regex_i E) db (ds_events db) (<["status" := QEq (JStr "upcoming")]> ∅)
              [("date", 1)] 0 1 Hup ltac:(lia)) as [l2 H2].
  rewrite H2. destruct l2 as [|ev rest]; [|reflexivity].
  pose proof (run_find_first_empty _ _ _ _ _ e H2 Hin) as Hm.
  rewrite doc_matches_single in Hm. cbn [qexpr_match] in Hm. rewrite Hs in Hm.
  discriminate Hm.
Qed.

(** X20: DELETE /api/upload/:filename changes the file system only when it answers 200; then
    the file existed, it alone is removed, and GET /api/upload/:filename for the same name
    answers 404 'File not found'. *)
Theorem upload_delete_then_info (cwd : string) (fs : filesystem) (filename : string) :
  let '(r, _, fs') := upload_delete cwd fs filename in
  (res_status r <> 200 -> fs' = fs) /\
  (res_status r = 200 ->
   fs !! upload_path cwd filename <> None /\
   fs' !! upload_path cwd filename = None /\
   (forall p, p <> upload_path cwd filename -> fs' !! p = fs !! p) /\
   fst (fst (upload_info cwd fs' filename)) = error_response 404 "File not found").
Proof.
  unfold upload_delete.
  destruct (bad_filename filename) eqn:Hb; [split; [reflexivity | cbn; nope]|].
  destruct (fs !! upload_path cwd filename) as [st|] eqn:Hf; [|split; [reflexivity | cbn; nope]].
  split; [intros H; exfalso; apply H; reflexivity|]. intros _.
  split; [congruence|]. split; [apply lookup_delete_eq|].
  split; [intros p Hp; apply lookup_delete_ne; congruence|].
  unfold upload_info. rewrite Hb, lookup_delete_eq. reflexivity.
Qed.

(** X21: through [fileFilter] and [handleMulterError], an upload of an allowed image type
    proceeds and any other type is refused with 400 and the message listing the allowed
    types; every upload error is refused with 400 or 413, and 413 only for the multer code
    LIMIT_FILE_SIZE. *)
Theorem upload_filter_outcomes (mimetype : string) :
  (In mimetype allowedTypes -> handleMulterError (fileFilter mimetype) = MwNext) /\
  (~ In mimetype allowedTypes ->
   handleMulterError (fileFilter mimetype)
   = MwReject 400 "Invalid file type. Only image/jpeg, image/jpg, image/png, image/gif, image/webp are allowed.") /\
  (forall err, exists st m, handleMulterError (Some err) = MwReject st m /\
     (st = 400 \/ st = 413) /\
     (st = 413 <-> exists message, err = MulterError "LIMIT_FILE_SIZE" message)).
Proof.
  assert (Hinc : arr_includes allowedTypes mimetype = true <-> In mimetype allowedTypes).
  { unfold arr_includes. rewrite existsb_exists. split.
    - intros [x [Hx Heq]]. apply String.eqb_eq in Heq. subst. exact Hx.
    - intros H. exists mimetype. split; [exact H | apply String.eqb_refl]. }
  split; [|split].
  - intros H. unfold fileFilter. apply Hinc in H. rewrite H. reflexivity.
  - intros H. unfold fileFilter. destruct (arr_includes allowedTypes mimetype) eqn:Ha.
    + exfalso. apply H, Hinc. reflexivity.
    + reflexivity.
  - intros [code message|message]; cbn [handleMulterError].
    + destruct (String.eqb_spec code "LIMIT_FILE_SIZE") as [->|Hc].
      * exists 413, "File too large. Maximum size allowed is 5MB.".
        split; [reflexivity|]. split; [right; reflexivity|].
        split; [intros _; exists message; reflexivity | reflexivity].
      * assert (Hn : ~ (exists message', MulterError code message
                                         = MulterError "LIMIT_FILE_SIZE" message'))
          by (intros [m' Hm']; injection Hm'; congruence).
        destruct (String.eqb code "LIMIT_FILE_COUNT");
          [|destruct (String.eqb code "LIMIT_UNEXPECTED_FILE")];
          (eexists 400, _; split; [reflexivity|]; split; [left; reflexivity|];
           split; [intros H; discriminate H | intros H; contradiction]).
    + exists 400, message. split; [reflexivity|]. split; [left; reflexivity|].
      split; [intros H; discriminate H | intros [m' H]; discriminate H].
Qed.

Lemma length_insert_doc (keys : list (string * Z)) (x : doc) (l : list doc) :
  length (insert_doc keys x l) = S (length l).
Proof.
  induction l as [|y l IH]; simpl; [reflexivity|].
  destruct (doc_cmp keys x y); simpl; rewrite ?IH; reflexivity.
Qed.

Lemma length_sort_docs (keys : list (string * Z)) (l : list doc) :
  length (sort_docs keys l) = length l.
Proof.
  induction l as [|x l IH]; simpl; [reflexivity|]. rewrite length_insert_doc, IH. reflexivity.
Qed.

Lemma event_list_query_isFeatured (E : runtime) (rq : doc) :
  field rq "isFeatured" <> JUndef ->
  event_list_query E rq !! "isFeatured"
  = Some (QEq (JBool (js_strict_eq (field rq "isFeatured") (JStr "true")))).
Proof.
  intros H. unfold event_list_query; cbv zeta.
  rewrite (bool_decide_eq_true_2 (field rq "isFeatured" ≠ JUndef) H).
  destruct (js_truthy (field rq "fromDate")), (js_truthy (field rq "toDate")); cbn [andb];
    rewrite ?lookup_insert_ne by discriminate; apply lookup_insert_eq.
Qed.

(** X22: when GET /api/events answers 200, [count] is the number of events returned, at most
    the limit and at most [totalCount]; every event returned is stored, and when the
    [isFeatured] parameter is given each has [isFeatured] equal to (parameter === 'true'). *)
Theorem event_list_page (E : runtime) (db : datastore) (user : option principal) (rq : doc) :
  res_status (event_list E db user rq) = 200 ->
  body_field (event_list E db user rq) "count"
  = Some (RV (JNum (Z.of_nat (length (response_docs (event_list E db user rq)))))) /\
  (length (response_docs (event_list E db user rq))
   <= Z.to_nat (Z.abs (parse_or (field rq "limit") 10)))%nat /\
  (exists total, body_field (event_list E db user rq) "totalCount" = Some (RV (JNum total)) /\
     Z.of_nat (length (response_docs (event_list E db user rq))) <= total) /\
  Forall (fun e => In e (ds_events db) /\
     (field rq "isFeatured" <> JUndef ->
      field e "isFeatured" = JBool (js_strict_eq (field rq "isFeatured") (JStr "true"))))
    (response_docs (event_list E db user rq)).
Proof.
  unfold event_list.
  destruct (requireEmployee user) as [|st m|] eqn:Hemp;
    [| apply requireEmployee_reject in Hemp; cbn; intros H; lia | cbn; nope].
  cbv zeta. unfold page_window.
  set (limit := parse_or (field rq "limit") 10).
  set (skip := (parse_or (field rq "page") 1 - 1) * limit).
  destruct (run_find _ _ _ _ _ skip limit) as [events|m] eqn:Hr; [|cbn; nope].
  unfold count_documents.
  destruct (ds_up db) eqn:Hup; cbn [negb]; [|cbn; nope].
  intros _.
  assert (Hlimit : limit <> 0) by (apply parse_or_nonzero; lia).
  assert (Hd : response_docs (mk_response 200
     [("success", RV (JBool true)); ("count", RV (JNum (Z.of_nat (length events))));
      ("totalCount", RV (JNum (Z.of_nat (length (List.filter
          (doc_matches (rt_regex_i E) (event_list_query E rq)) (ds_events db))))));
      ("pagination", RObj [("total", JNum (Z.of_nat (length (List.filter
          (doc_matches (rt_regex_i E) (event_list_query E rq)) (ds_events db)))));
                           ("page", JNum (parse_or (field rq "page") 1));
                           ("pages", JNum (js_ceil_div (Z.of_nat (length (List.filter
          (doc_matches (rt_regex_i E) (event_list_query E rq)) (ds_events db)))) limit))]);
      ("data", RDocs events)]) = events) by reflexivity.
  rewrite Hd. split; [reflexivity|].
  pose proof Hr as Hr'. unfold run_find in Hr'. rewrite Hup in Hr'. cbn [negb] in Hr'.
  destruct (skip <? 0); [discriminate|]. injection Hr' as Hev.
  replace (limit =? 0) with false in Hev by lia.
  split; [rewrite <- Hev, length_take; lia|].
  split.
  - eexists. split; [reflexivity|]. rewrite <- Hev.
    apply Nat2Z.inj_le. rewrite length_take, length_drop, length_sort_docs. lia.
  - apply Forall_forall. intros e He. apply list_elem_of_In in He.
    destruct (run_find_in _ _ _ _ _ _ _ _ e Hr He) as [Hin Hm].
    split; [exact Hin|]. intros Hv.
    pose proof (match_key (rt_regex_i E) (event_list_query E rq) "isFeatured"
                  (QEq (JBool (js_strict_eq (field rq "isFeatured") (JStr "true")))) e Hm
                  (event_list_query_isFeatured E rq Hv)) as Hf.
    cbn [qexpr_match] in Hf. rewrite eq_match_bool in Hf. apply bool_decide_eq_true in Hf.
    exact Hf.
Qed.




Lemma requireAdmin_implies_other_checks_witness :
  requireEmployee demo_admin = MwNext /\ authorize ["admin"] demo_admin = MwNext /\
  requirePermission "manage_users" demo_admin = MwNext.
Proof.
  destruct (requireAdmin_implies_other_checks demo_admin ltac:(vm_compute; reflexivity))
    as (H1 & H2 & H3).
  split; [exact H1|]. split; [exact H2|]. exact (proj1 (H3 "manage_users")).
Defined.

Lemma hasPermission_agrees_with_requirePermission_witness :
  hasPermission (<["role" := JStr "staff"]> (<["permissions" := JStrs ["manage_users"]]> demo_account))
    "manage_users" = Some true <->
  requirePermission "manage_users"
    (Some (principal_of (<["role" := JStr "staff"]>
                           (<["permissions" := JStrs ["manage_users"]]> demo_account)))) = MwNext.
Proof.
  refine (hasPermission_agrees_with_requirePermission
            (<["role" := JStr "staff"]> (<["permissions" := JStrs ["manage_users"]]> demo_account))
            ["manage_users"] "manage_users" _).
  vm_compute; reflexivity.
Defined.

Lemma upcoming_event_is_not_past_witness : isPast demo_event 1000 = false.
Proof. exact (upcoming_event_is_not_past demo_event 1000 ltac:(vm_compute; reflexivity)). Defined.

Lemma employee_stats_consistent_witness :
  exists s, employee_stats_route demo_runtime demo_team_store demo_admin = inr s /\
    es_active s + es_inactive s <= es_total s /\ es_admin s <= es_total s /\
    breakdown_sum (es_roleBreakdown s) = es_total s /\
    breakdown_sum (es_departmentBreakdown s) = es_total s.
Proof.
  assert (Hr : employee_stats_route demo_runtime demo_team_store demo_admin
               = inr (match employee_stats_route demo_runtime demo_team_store demo_admin with
                      | inr s => s | inl _ => mk_employee_stats 0 0 0 0 [] [] end))
    by (vm_compute; reflexivity).
  eexists. split; [exact Hr|].
  apply (employee_stats_consistent demo_runtime demo_team_store demo_admin _); [|exact Hr].
  constructor; [|constructor; [|constructor]]; intros l Hl; vm_compute in Hl; discriminate Hl.
Defined.

Lemma employee_bulk_update_effect_witness :
  exists ids, field demo_bulk_body "ids" = JStrs ids /\ ids <> [] /\
    ds_events (snd (employee_bulk_update demo_runtime demo_team_store demo_admin demo_bulk_body))
    = ds_events demo_team_store.
Proof.
  destruct (employee_bulk_update_effect demo_runtime demo_team_store demo_admin demo_bulk_body
              _ _ (surjective_pairing _) ltac:(vm_compute; reflexivity))
    as (ids & H1 & H2 & H3 & _).
  exists ids. split; [exact H1|]. split; [exact H2 | exact H3].
Defined.

Lemma employee_delete_then_get_witness :
  exists s, cast_object_id (JStr demo_staff_id) = Some (Some s) /\
    employee_get (snd (employee_delete demo_runtime demo_team_store demo_admin
                         (JStr demo_staff_id) demo_master_body)) (JStr demo_staff_id)
    = error_response 404 "Employee not found".
Proof.
  destruct (employee_delete_then_get demo_runtime demo_team_store demo_admin (JStr demo_staff_id)
              demo_master_body _ _ (surjective_pairing _) ltac:(vm_compute; reflexivity))
    as (s & H1 & _ & _ & _ & H5).
  exists s. split; [exact H1 | exact H5].
Defined.

Lemma employee_create_then_get_witness :
  res_status (employee_get (snd (employee_create demo_runtime demo_store (principal_of demo_account)
                                   demo_create_body demo_new_id)) (JOid demo_new_id)) = 200.
Proof.
  refine (proj1 (employee_create_then_get demo_runtime demo_store (principal_of demo_account)
                   demo_create_body demo_new_id _ _ _ _ (surjective_pairing _) _)).
  - intros e saved H. injection H as <-. split; reflexivity.
  - constructor; [vm_compute; reflexivity | constructor].
  - vm_compute; reflexivity.
Defined.

Lemma get_routes_found_or_404_witness :
  found_or_404 (JOid demo_event_id) (ds_events demo_event_store)
    (event_get demo_event_store demo_admin (JOid demo_event_id)).
Proof.
  exact (proj1 (get_routes_found_or_404 demo_event_store demo_admin (JOid demo_event_id)
                  eq_refl ltac:(vm_compute; reflexivity))).
Defined.

Lemma event_update_then_get_witness :
  response_docs (event_get (snd (event_update demo_runtime demo_event_store demo_admin
                                   (JOid demo_event_id) demo_event_patch))
                   demo_admin (JOid demo_event_id))
  = response_docs (fst (event_update demo_runtime demo_event_store demo_admin
                          (JOid demo_event_id) demo_event_patch)).
Proof.
  exact (proj1 (proj2 (event_update_then_get demo_runtime demo_event_store demo_admin
                         (JOid demo_event_id) demo_event_patch _ _ (surjective_pairing _)
                         ltac:(vm_compute; reflexivity)))).
Defined.

Lemma public_practitioner_get_only_active_witness :
  exists p, response_docs (public_practitioner_get demo_runtime demo_practitioner_store
                             "0000000000000000000000b1") = [p] /\
    In p (ds_practitioners demo_practitioner_store).
Proof.
  destruct (public_practitioner_get_only_active demo_runtime demo_practitioner_store
              "0000000000000000000000b1" ltac:(vm_compute; reflexivity))
    as (p & H1 & H2 & _).
  exists p. split; [exact H1 | exact H2].
Defined.

Lemma featured_event_lite_ignores_date_witness :
  res_status (featured_event_lite demo_runtime demo_past_event_store) = 200.
Proof.
  exact (featured_event_lite_ignores_date demo_runtime demo_past_event_store demo_past_event
           eq_refl (or_introl eq_refl) ltac:(vm_compute; reflexivity)).
Defined.

Lemma event_list_page_witness :
  (length (response_docs (event_list demo_runtime demo_event_store demo_admin demo_featured_query))
   <= Z.to_nat (Z.abs (parse_or (field demo_featured_query "limit") 10)))%nat.
Proof.
  exact (proj1 (proj2 (event_list_page demo_runtime demo_event_store demo_admin
                         demo_featured_query ltac:(vm_compute; reflexivity)))).
Defined.

